(** * Telegram monitoring bot: poller ([src/bot.ts]) and webhook server

    A shallow embedding of the two entry points of the repository and the
    properties of their command dispatch, offset bookkeeping and fan-out
    logic.

    Both programs are sequences of awaited network calls with exceptions,
    so they are embedded in a small state-and-exception monad over a
    [World] that records every observable effect in order (network
    requests together with the reply they received, console output, file
    writes, HTTP responses).  Everything the outside world decides (the
    replies of the Telegram and GitHub APIs, what other processes write to
    the state file) is read from an oracle [Remote]. *)

From Stdlib Require Import ZArith String Ascii List Lia.
From Stdlib Require Import DecimalString DecimalZ DecimalPos.
From stdpp Require Import base option gmap strings list.

Open Scope string_scope.
Open Scope Z_scope.

(** ** Fragments of the JavaScript runtime the programs rely on *)

Module JS.

(** Text of an incoming chat message: a JavaScript string, i.e. a
    sequence of UTF-16 code units.  [String.prototype.trim] is defined on
    code units, so message text is kept in this form; every other string
    of the programs (configuration, file names, outgoing text) is only
    concatenated and compared and is kept as a [string]. *)
Definition jsstring := list N.

Definition lit (s : string) : jsstring :=
  map (fun a => N_of_ascii a) (list_ascii_of_string s).

(** WhiteSpace and LineTerminator code points of ECMA-262. *)
Definition is_whitespace (c : N) : bool :=
  (existsb (N.eqb c)
     [9; 10; 11; 12; 13; 32; 160; 5760; 8232; 8233; 8239; 8287; 12288; 65279]%N
   || ((8192 <=? c)%N && (c <=? 8202)%N))%bool.

Fixpoint trimStart (s : jsstring) : jsstring :=
  match s with
  | c :: rest => if is_whitespace c then trimStart rest else s
  | [] => []
  end.

Definition trim (s : jsstring) : jsstring :=
  rev (trimStart (rev (trimStart s))).

(** [String(n)] for an integral number [n]: its decimal numeral, with a
    leading minus sign when negative.  (JavaScript switches to exponent
    notation from 1e21 on; chat and update identifiers are far below.) *)
Definition String_of_number (n : Z) : string :=
  NilZero.string_of_int (Z.to_int n).

(** [Number(s)] on the strings the poller itself writes: an optional
    minus sign followed by decimal digits.  [None] stands for every other
    string (the empty string, exponents, fractions, radix prefixes, text
    that yields NaN): numbers that are not integers are not tracked by
    this development, and a run that meets one is reported as
    [Untracked] rather than given a made-up value. *)
Definition Number_of_string (s : string) : option Z :=
  Z.of_int <$> NilZero.int_of_string s.

(** [res.ok] of the fetch API: status in the range 200..299. *)
Definition status_ok (status : Z) : bool :=
  ((200 <=? status) && (status <=? 299))%bool.

(** Truthiness of a string: only the empty string is falsy. *)
Definition truthy (s : string) : bool :=
  if decide (s = "") then false else true.

Definition newline : string := String "010"%char EmptyString.

(** [parts.join(sep)] *)
Fixpoint join (sep : string) (parts : list string) : string :=
  match parts with
  | [] => ""
  | [p] => p
  | p :: rest => p ++ sep ++ join sep rest
  end.

Inductive exn :=
| Error (message : string)
| TypeError (message : string)
| SyntaxError (message : string).

End JS.

(** ** Data shared by the two programs *)

(** [process.env]: the variables either program reads. *)
Record Env := {
  TELEGRAM_TOKEN : option string;
  TELEGRAM_CHAT_ID : option string;
  GITHUB_TOKEN : option string;
  GITHUB_REPOSITORY : option string;
  GITHUB_REF_NAME : option string;
  TELEGRAM_WEBHOOK_PATH : option string;
  TELEGRAM_WEBHOOK_SECRET : option string;
}.

(** [type TelegramUpdate] (identical in both files).  Identifiers are
    integral JavaScript numbers. *)
Record Message := {
  chat_id : Z;
  text : option JS.jsstring;
}.

Record TelegramUpdate := {
  update_id : Z;
  message : option Message;
}.

(** [type WorkflowRun] *)
Record WorkflowRun := {
  event : string;
  status : string;
  conclusion : option string;
  created_at : string;
}.

(** Outcome of a [fetch] whose body is only read as text. *)
Inductive HttpReply :=
| NetworkError
| HttpResponse (status : Z) (body : string).

(** Outcome of the [getUpdates] request. *)
Inductive UpdatesReply :=
| UpdatesNetworkError
| UpdatesHttp (status : Z)
    (json : option (bool * list TelegramUpdate)).
      (* [None]: the body is not JSON, [res.json()] rejects;
         [Some (ok, result)]: the parsed [data] *)

(** Outcome of the workflow-runs request. *)
Inductive RunsReply :=
| RunsNetworkError
| RunsHttp (status : Z) (body : string)
    (json : option (option (list WorkflowRun))).
      (* [None]: body is not JSON; [Some None]: no [workflow_runs] field *)

(** Content of [state.json] as [loadState] sees it. *)
Inductive Disk :=
| FileAbsent
| FileUnparsable
| FileObject (m : gmap string string).

(** What the outside world decides.  The first argument of each field is
    the number of effects observed so far, so an answer may depend on
    when the request is made. *)
Record Remote := {
  telegram_getUpdates : nat -> Z -> UpdatesReply;
  telegram_sendMessage : nat -> string -> string -> HttpReply;
  github_dispatch : nat -> string -> string -> string -> HttpReply;
  github_runs : nat -> string -> string -> RunsReply;
  (* other processes sharing [state.json]: what they leave on disk while
     this process is suspended in an [await] *)
  other_writers : nat -> Disk -> Disk;
}.

(** JSON payloads of the webhook server's responses. *)
Inductive Payload :=
| PayloadHealth          (* { ok: true, mode: "webhook" } *)
| PayloadOk              (* { ok: true } *)
| PayloadNotOk           (* { ok: false } *)
| PayloadUnauthorized    (* { ok: false, error: "unauthorized" } *)
| PayloadServerError.    (* { ok: false, error: "server_error" } *)

Inductive LogEntry :=
| LogText (s : string)
| LogError (e : JS.exn).

(** Observable effects, each network request paired with its outcome. *)
Inductive Event :=
| EvGetUpdates (offset : Z) (r : UpdatesReply)
| EvSendMessage (chat : string) (body_text : string) (r : HttpReply)
| EvDispatch (repo workflowFile ref : string) (r : HttpReply)
| EvListRuns (repo workflowFile : string) (r : RunsReply)
| EvConsole (entry : LogEntry)
| EvWriteFile (m : gmap string string)
| EvRespond (statusCode : Z) (payload : Payload).

Record World := {
  trace : list Event;
  disk : Disk;
  headersSent : bool;
}.

Definition clock (w : World) : nat := length (trace w).

(** ** The monad: state passing over [World], with exceptions *)

Inductive Res (A : Type) :=
| Ret (a : A)
| Throw (e : JS.exn)
| Untracked.
Arguments Ret {A} a.
Arguments Throw {A} e.
Arguments Untracked {A}.

Definition M (A : Type) : Type := World -> Res A * World.

Definition ret {A} (a : A) : M A := fun w => (Ret a, w).

Definition throw {A} (e : JS.exn) : M A := fun w => (Throw e, w).

Definition untracked {A} : M A := fun w => (Untracked, w).

Definition bind {A B} (m : M A) (k : A -> M B) : M B :=
  fun w =>
    match m w with
    | (Ret a, w') => k a w'
    | (Throw e, w') => (Throw e, w')
    | (Untracked, w') => (Untracked, w')
    end.

(** [try { body } catch (error) { handler }] *)
Definition try_catch {A} (body : M A) (handler : JS.exn -> M A) : M A :=
  fun w =>
    match body w with
    | (Throw e, w') => handler e w'
    | other => other
    end.

Declare Scope js_scope.
Delimit Scope js_scope with js.
Notation "x <- m ;; k" := (bind m (fun x => k))
  (at level 100, m at next level, right associativity) : js_scope.
Notation "m ;; k" := (bind m (fun _ => k))
  (at level 100, right associativity) : js_scope.
Open Scope js_scope.

(** [for (const x of xs) { await body(x) }] *)
Fixpoint for_of {A} (body : A -> M unit) (xs : list A) : M unit :=
  match xs with
  | [] => ret tt
  | x :: rest => body x ;; for_of body rest
  end.

(** An effect that involves no waiting. *)
Definition emit (ev : Event) : M unit :=
  fun w =>
    (Ret tt,
     {| trace := trace w ++ [ev]; disk := disk w;
        headersSent := headersSent w |}).

Definition console (entry : LogEntry) : M unit := emit (EvConsole entry).

Section Network.
Variable R : Remote.

(** An awaited network request: the reply is the oracle's at the current
    time, and while the program waits other processes may rewrite the
    state file. *)
Definition waited (ev : Event) (w : World) : World :=
  {| trace := trace w ++ [ev];
     disk := other_writers R (clock w) (disk w);
     headersSent := headersSent w |}.

Definition await_fetch {A} (reply : nat -> A) (ev : A -> Event) : M A :=
  fun w => let r := reply (clock w) in (Ret r, waited (ev r) w).

Definition fetch_getUpdates (offset : Z) : M UpdatesReply :=
  await_fetch (fun t => telegram_getUpdates R t offset) (EvGetUpdates offset).

Definition fetch_sendMessage (chat body_text : string) : M HttpReply :=
  await_fetch (fun t => telegram_sendMessage R t chat body_text)
              (EvSendMessage chat body_text).

Definition fetch_dispatch (repo file ref : string) : M HttpReply :=
  await_fetch (fun t => github_dispatch R t repo file ref)
              (EvDispatch repo file ref).

Definition fetch_runs (repo file : string) : M RunsReply :=
  await_fetch (fun t => github_runs R t repo file) (EvListRuns repo file).
End Network.

Definition fetch_failed : JS.exn := JS.TypeError "fetch failed".

(** ** The poller: [src/bot.ts] *)

Module Poller.

Definition BOT_UPDATE_KEY : string := "__bot_last_update_id__".

Definition MONITOR_WORKFLOWS : list string :=
  ["monitor-instocktrades.yml"; "monitor-ebay.yml"].

(** [loadState]: the parsed file, or [{}] when it is missing or does not
    parse. *)
Definition state_of_disk (d : Disk) : gmap string string :=
  match d with
  | FileObject m => m
  | FileAbsent | FileUnparsable => ∅
  end.

Definition loadState : M (gmap string string) :=
  fun w => (Ret (state_of_disk (disk w)), w).

(** [Number(state[BOT_UPDATE_KEY] ?? "0")] *)
Definition lastId_of (state : gmap string string) : option Z :=
  JS.Number_of_string (default "0" (state !! BOT_UPDATE_KEY)).

Definition saveState (state : gmap string string) : M unit :=
  fun w =>
    (Ret tt,
     {| trace := trace w ++ [EvWriteFile state];
        disk := FileObject state;
        headersSent := headersSent w |}).

Section WithRemote.
Variable R : Remote.
Variable env : Env.
(* the job list; [main] below fixes it to [MONITOR_WORKFLOWS] *)
Variable workflows : list string.

(** [sendMessage]: the response is awaited but never inspected. *)
Definition sendMessage (token chatId body_text : string) : M unit :=
  r <- fetch_sendMessage R chatId body_text ;;
  match r with
  | NetworkError => throw fetch_failed
  | HttpResponse _ _ => ret tt
  end.

Definition dispatchWorkflow (workflowFile : string) : M unit :=
  let ghToken := default "" (GITHUB_TOKEN env) in
  let repo := default "" (GITHUB_REPOSITORY env) in
  let ref := default "main" (GITHUB_REF_NAME env) in
  if (negb (JS.truthy ghToken) || negb (JS.truthy repo))%bool then
    throw (JS.Error "GitHub dispatch credentials not available")
  else
    res <- fetch_dispatch R repo workflowFile ref ;;
    match res with
    | NetworkError => throw fetch_failed
    | HttpResponse status body =>
        if negb (JS.status_ok status) then
          throw (JS.Error ("Dispatch failed for " ++ workflowFile ++ ": "
                           ++ JS.String_of_number status ++ " " ++ body))
        else ret tt
    end.

(** Body of the [for (const update of data.result)] loop after the
    offset has been advanced (lines 88 to 106). *)
Definition on_update (token chatId : string) (update : TelegramUpdate)
  : M unit :=
  match message update with
  | None => ret tt
  | Some msg =>
      if decide (JS.String_of_number (chat_id msg) <> chatId) then ret tt
      else
        let text := default [] (JS.trim <$> text msg) in
        if decide (text = JS.lit "/test") then
          sendMessage token chatId "✅ Bot is alive and running."
        else if decide (text = JS.lit "/trigger") then
          sendMessage token chatId "⚡ Triggering monitor workflows..." ;;
          try_catch
            (for_of dispatchWorkflow workflows ;;
             sendMessage token chatId "✅ Monitor workflows dispatched.")
            (fun error =>
               console (LogError error) ;;
               sendMessage token chatId
                 "❌ Failed to trigger monitor workflows.")
        else ret tt
  end.

(** The loop itself, threading [newLastId]. *)
Fixpoint process_updates (token chatId : string)
    (updates : list TelegramUpdate) (newLastId : Z) : M Z :=
  match updates with
  | [] => ret newLastId
  | update :: rest =>
      let newLastId := Z.max newLastId (update_id update) in
      on_update token chatId update ;;
      process_updates token chatId rest newLastId
  end.

Definition main_with : M unit :=
  let token := default "" (TELEGRAM_TOKEN env) in
  let chatId := default "" (TELEGRAM_CHAT_ID env) in
  if (negb (JS.truthy token) || negb (JS.truthy chatId))%bool then
    console (LogText "[bot] credentials not set")
  else
    state <- loadState ;;
    match lastId_of state with
    | None => untracked
    | Some lastId =>
        res <- fetch_getUpdates R (lastId + 1) ;;
        match res with
        | UpdatesNetworkError => throw fetch_failed
        | UpdatesHttp status json =>
            if negb (JS.status_ok status) then ret tt
            else
              match json with
              | None => throw (JS.SyntaxError "Unexpected token")
              | Some (ok, result) =>
                  if (negb ok || (length result =? 0)%nat)%bool then ret tt
                  else
                    newLastId <- process_updates token chatId result lastId ;;
                    freshState <- loadState ;;
                    saveState (<[BOT_UPDATE_KEY :=
                                  JS.String_of_number newLastId]> freshState)
              end
        end
    end.
End WithRemote.

Definition main (R : Remote) (env : Env) : M unit :=
  main_with R env MONITOR_WORKFLOWS.

(** The program: [main().catch(console.error)]. *)
Definition run (R : Remote) (env : Env) : M unit :=
  try_catch (main R env) (fun error => console (LogError error)).

End Poller.

(** ** The webhook server *)

Module Webhook.

Record Workflow := {
  file : string;
  label : string;
}.

Definition MONITOR_WORKFLOWS : list Workflow :=
  [ {| file := "monitor-instocktrades.yml"; label := "InStockTrades" |};
    {| file := "monitor-ebay.yml"; label := "eBay" |} ].

(** [formatRunStatus].  [toUTCString s] stands for
    [new Date(s).toUTCString()], which the JavaScript runtime provides. *)
Definition formatRunStatus (toUTCString : string -> string)
    (run : option WorkflowRun) : string :=
  match run with
  | None => "no runs yet"
  | Some run =>
      let state := default (status run) (conclusion run) in
      state ++ " (" ++ event run ++ ", "
            ++ toUTCString (created_at run) ++ ")"
  end.

(** *** Promises

    An async call whose effects all happen before it first suspends (here:
    one request is issued, then only its reply is awaited) is started by
    running it and keeping its eventual outcome as the promise. *)
Definition async_start {A} (m : M A) : M (Res A) :=
  fun w => let '(r, w') := m w in (Ret r, w').

Fixpoint start_all {A B} (f : A -> M B) (xs : list A) : M (list (Res B)) :=
  match xs with
  | [] => ret []
  | x :: rest =>
      p <- async_start (f x) ;;
      ps <- start_all f rest ;;
      ret (p :: ps)
  end.

(** The first promise to reject, when the promises settle in the given
    order. *)
Fixpoint first_rejected {A} (promises : list (Res A)) (order : list nat)
  : option JS.exn :=
  match order with
  | [] => None
  | i :: rest =>
      match promises !! i with
      | Some (Throw e) => Some e
      | _ => first_rejected promises rest
      end
  end.

Definition fulfilled {A} (promises : list (Res A)) : list A :=
  omap (fun p => match p with Ret a => Some a | _ => None end) promises.

(** [await Promise.all(promises)].  The promises settle in the order
    [schedule] lists their indices; those it does not list settle
    afterwards.  The result is the first rejection in that order, or else
    the values in the order of the array. *)
Definition Promise_all {A} (schedule : list nat) (promises : list (Res A))
  : M (list A) :=
  match first_rejected promises (schedule ++ seq 0 (length promises)) with
  | Some e => throw e
  | None => ret (fulfilled promises)
  end.

(** What [githubContext] returns. *)
Record GithubContext := {
  ghToken : string;
  repo : string;
  ref : string;
}.

(** An incoming HTTP request. *)
Inductive Body :=
| BodyEmpty                       (* no chunks: [readJsonBody] gives null *)
| BodyMalformed                   (* [JSON.parse] throws *)
| BodyJson (u : TelegramUpdate).

Record Request := {
  method : string;
  url : option string;
  secret_token : option string;   (* x-telegram-bot-api-secret-token *)
  body : Body;
}.

Section WithRemote.
Variable R : Remote.
Variable env : Env.
Variable toUTCString : string -> string.
(* the job list; [handleMessage] below fixes it to [MONITOR_WORKFLOWS] *)
Variable workflows : list Workflow.
(* the order in which the concurrent status queries complete *)
Variable schedule : list nat.

Definition sendTelegramMessage (body_text : string) : M unit :=
  let token := default "" (TELEGRAM_TOKEN env) in
  let chatId := default "" (TELEGRAM_CHAT_ID env) in
  if (negb (JS.truthy token) || negb (JS.truthy chatId))%bool then
    throw (JS.Error "Telegram credentials not configured")
  else
    res <- fetch_sendMessage R chatId body_text ;;
    match res with
    | NetworkError => throw fetch_failed
    | HttpResponse status body =>
        if negb (JS.status_ok status) then
          throw (JS.Error ("Telegram sendMessage failed: "
                           ++ JS.String_of_number status ++ " " ++ body))
        else ret tt
    end.

Definition githubContext : M GithubContext :=
  let ghToken := default "" (GITHUB_TOKEN env) in
  let repo := default "" (GITHUB_REPOSITORY env) in
  let ref := default "main" (GITHUB_REF_NAME env) in
  if (negb (JS.truthy ghToken) || negb (JS.truthy repo))%bool then
    throw (JS.Error
      "GitHub credentials not configured (GITHUB_TOKEN/GITHUB_REPOSITORY)")
  else ret {| ghToken := ghToken; repo := repo; ref := ref |}.

Definition dispatchWorkflow (workflowFile : string) : M unit :=
  ctx <- githubContext ;;
  res <- fetch_dispatch R (repo ctx) workflowFile (ref ctx) ;;
  match res with
  | NetworkError => throw fetch_failed
  | HttpResponse status body =>
      if negb (JS.status_ok status) then
        throw (JS.Error ("Dispatch failed for " ++ workflowFile ++ ": "
                         ++ JS.String_of_number status ++ " " ++ body))
      else ret tt
  end.

Definition getLatestWorkflowRun (workflowFile : string)
  : M (option WorkflowRun) :=
  ctx <- githubContext ;;
  res <- fetch_runs R (repo ctx) workflowFile ;;
  match res with
  | RunsNetworkError => throw fetch_failed
  | RunsHttp status body json =>
      if negb (JS.status_ok status) then
        throw (JS.Error ("Status lookup failed for " ++ workflowFile ++ ": "
                         ++ JS.String_of_number status ++ " " ++ body))
      else
        match json with
        | None => throw (JS.SyntaxError "Unexpected token")
        | Some workflow_runs => ret (head (default [] workflow_runs))
        end
  end.

Definition status_line (entry : string * option WorkflowRun) : string :=
  "• <b>" ++ entry.1 ++ "</b>: " ++ formatRunStatus toUTCString entry.2.

(** [handleMessage]; [None] is a [null] payload. *)
Definition handleMessage_with (update : option TelegramUpdate) : M unit :=
  let expectedChatId := default "" (TELEGRAM_CHAT_ID env) in
  match update with
  | None =>
      throw (JS.TypeError
               "Cannot read properties of null (reading 'message')")
  | Some update =>
      match message update with
      | None => ret tt
      | Some msg =>
          if negb (JS.truthy expectedChatId) then ret tt
          else if decide (JS.String_of_number (chat_id msg)
                          <> expectedChatId) then ret tt
          else
            let text := default [] (JS.trim <$> text msg) in
            if decide (text = JS.lit "/test") then
              sendTelegramMessage
                "✅ Bot is alive and running (webhook mode)."
            else if decide (text = JS.lit "/trigger") then
              sendTelegramMessage "⚡ Triggering monitor workflows..." ;;
              try_catch
                (for_of (fun workflow => dispatchWorkflow (file workflow))
                        workflows ;;
                 sendTelegramMessage "✅ Monitor workflows dispatched.")
                (fun error =>
                   console (LogError error) ;;
                   sendTelegramMessage
                     "❌ Failed to trigger monitor workflows.")
            else if decide (text = JS.lit "/status") then
              try_catch
                (promises <-
                   start_all
                     (fun workflow =>
                        run <- getLatestWorkflowRun (file workflow) ;;
                        ret (label workflow, run))
                     workflows ;;
                 statuses <- Promise_all schedule promises ;;
                 let lines := map status_line statuses in
                 sendTelegramMessage
                   (JS.join JS.newline ("📊 Monitor status" :: lines)))
                (fun error =>
                   console (LogError error) ;;
                   sendTelegramMessage
                     "❌ Failed to fetch workflow status.")
            else ret tt
      end
  end.

Definition readJsonBody (req : Request) : M (option TelegramUpdate) :=
  match body req with
  | BodyEmpty => ret None
  | BodyMalformed => throw (JS.SyntaxError "Unexpected token")
  | BodyJson u => ret (Some u)
  end.

(** [writeJson]; Node refuses to set a header once the response has
    been sent. *)
Definition writeJson (statusCode : Z) (payload : Payload) : M unit :=
  fun w =>
    if headersSent w then
      (Throw (JS.Error "ERR_HTTP_HEADERS_SENT"), w)
    else
      (Ret tt,
       {| trace := trace w ++ [EvRespond statusCode payload];
          disk := disk w;
          headersSent := true |}).

Definition webhookPath : string :=
  default "/telegram/webhook" (TELEGRAM_WEBHOOK_PATH env).

Definition webhookSecret : string :=
  default "" (TELEGRAM_WEBHOOK_SECRET env).

(** The request listener passed to [createServer]. *)
Definition listener_with (req : Request) : M unit :=
  try_catch
    (let url := default "/" (url req) in
     if (bool_decide (method req = "GET")
         && (bool_decide (url = "/") || bool_decide (url = "/healthz")))%bool
     then writeJson 200 PayloadHealth
     else if (negb (bool_decide (method req = "POST"))
              || negb (bool_decide (url = webhookPath)))%bool
     then writeJson 404 PayloadNotOk
     else if (JS.truthy webhookSecret
              && negb (bool_decide (secret_token req = Some webhookSecret)))%bool
     then writeJson 401 PayloadUnauthorized
     else
       payload <- readJsonBody req ;;
       writeJson 200 PayloadOk ;;
       handleMessage_with payload)
    (fun error =>
       console (LogError error) ;;
       fun w =>
         if negb (headersSent w) then writeJson 500 PayloadServerError w
         else (Ret tt, w)).
End WithRemote.

Definition handleMessage (R : Remote) (env : Env)
    (toUTCString : string -> string) (schedule : list nat)
    (update : option TelegramUpdate) : M unit :=
  handleMessage_with R env toUTCString MONITOR_WORKFLOWS schedule update.

Definition listener (R : Remote) (env : Env)
    (toUTCString : string -> string) (schedule : list nat)
    (req : Request) : M unit :=
  listener_with R env toUTCString MONITOR_WORKFLOWS schedule req.

End Webhook.

(** The world in which a process starts: nothing observed yet. *)
Definition initial (d : Disk) : World :=
  {| trace := []; disk := d; headersSent := false |}.

(** ** Reading traces *)

(** A message handed to the messaging API for the operator. *)
Definition is_notification (ev : Event) : bool :=
  match ev with EvSendMessage _ _ _ => true | _ => false end.

(** A call to the automation platform: a trigger or a status query. *)
Definition is_gateway_call (ev : Event) : bool :=
  match ev with EvDispatch _ _ _ _ | EvListRuns _ _ _ => true | _ => false end.

Definition is_response (ev : Event) : bool :=
  match ev with EvRespond _ _ => true | _ => false end.

Definition is_console (ev : Event) : bool :=
  match ev with EvConsole _ => true | _ => false end.

Definition is_file_write (ev : Event) : bool :=
  match ev with EvWriteFile _ => true | _ => false end.

(** The offsets asked of [getUpdates], in order. *)
Definition polled_offsets (evs : list Event) : list Z :=
  omap (fun ev => match ev with
                  | EvGetUpdates offset _ => Some offset
                  | _ => None
                  end) evs.

Definition is_error_log (ev : Event) : bool :=
  match ev with EvConsole (LogError _) => true | _ => false end.

(** The texts of the notifications of a trace, in order. *)
Definition notifications (evs : list Event) : list string :=
  omap (fun ev => match ev with
                  | EvSendMessage _ body_text _ => Some body_text
                  | _ => None
                  end) evs.

Definition reply_ok (r : HttpReply) : bool :=
  match r with
  | NetworkError => false
  | HttpResponse status _ => JS.status_ok status
  end.

(** The triggers of a trace, in order: which job, and whether it went
    through. *)
Definition triggers (evs : list Event) : list (string * bool) :=
  omap (fun ev => match ev with
                  | EvDispatch _ workflowFile _ r => Some (workflowFile, reply_ok r)
                  | _ => None
                  end) evs.

Definition count_text (body_text : string) (evs : list Event) : nat :=
  length (filter (fun t => t = body_text) (notifications evs)).

(** Whether a message is from the operator [chatId]: the admission test of
    both programs. *)
Definition from_operator (chatId : string) (update : TelegramUpdate) : Prop :=
  exists msg, message update = Some msg
              /\ JS.String_of_number (chat_id msg) = chatId.

(** The trimmed text of an update's message ([""] when there is none). *)
Definition command_of (update : TelegramUpdate) : JS.jsstring :=
  match message update with
  | Some msg => default [] (JS.trim <$> text msg)
  | None => []
  end.

(** Effects a command handler may have: notifications, gateway calls
    and console output, but no HTTP response and no file write. *)
Definition is_command_effect (ev : Event) : Prop :=
  match ev with
  | EvSendMessage _ _ _ | EvDispatch _ _ _ _ | EvListRuns _ _ _
  | EvConsole _ => True
  | EvGetUpdates _ _ | EvWriteFile _ | EvRespond _ _ => False
  end.

(** The request with another value of the secret-token header. *)
Definition with_secret_token (h : option string) (req : Webhook.Request)
  : Webhook.Request :=
  {| Webhook.method := Webhook.method req;
     Webhook.url := Webhook.url req;
     Webhook.secret_token := h;
     Webhook.body := Webhook.body req |}.

(** What the listener's [catch] makes of the outcome of a handler that ran
    after the response was sent: an exception is logged and swallowed. *)
Definition caught (outcome : Res unit * World) : Res unit * World :=
  match outcome with
  | (Throw e, w) => console (LogError e) w
  | other => other
  end.

(** The payload [readJsonBody] returns for a body that parses. *)
Definition payload_of (b : Webhook.Body) : option (option TelegramUpdate) :=
  match b with
  | Webhook.BodyEmpty => Some None
  | Webhook.BodyJson u => Some (Some u)
  | Webhook.BodyMalformed => None
  end.

(** The world once the webhook server has acknowledged a request. *)
Definition acknowledged (w : World) : World :=
  {| trace := trace w ++ [EvRespond 200 PayloadOk];
     disk := disk w;
     headersSent := true |}.

(** The largest identifier of a non-empty batch. *)
Definition max_update_id (first : TelegramUpdate) (others : list TelegramUpdate)
  : Z :=
  foldr (fun u acc => Z.max (update_id u) acc) (update_id first) others.

(** *** The poller's cycle *)

(** The value the loop of [main] leaves in [newLastId]. *)
Definition highest (lastId : Z) (updates : list TelegramUpdate) : Z :=
  foldl (fun acc u => Z.max acc (update_id u)) lastId updates.

(** Lines 109 to 111: the store is read again and written back with the
    offset replaced. *)
Definition persisted (newLastId : Z) (w : World) : World :=
  let freshState := Poller.state_of_disk (disk w) in
  let state := <[Poller.BOT_UPDATE_KEY := JS.String_of_number newLastId]>
                 freshState in
  {| trace := trace w ++ [EvWriteFile state];
     disk := FileObject state;
     headersSent := headersSent w |}.

(** The offset a poll cycle starting from this file would read. *)
Definition offset_on_disk (d : Disk) : option Z :=
  Poller.lastId_of (Poller.state_of_disk d).

(** No other process writes the state file. *)
Definition quiet (R : Remote) : Prop :=
  forall t d, other_writers R t d = d.

(** Other processes leave the reserved key alone. *)
Definition reserved_key_untouched (R : Remote) : Prop :=
  forall t d,
    Poller.state_of_disk (other_writers R t d) !! Poller.BOT_UPDATE_KEY
    = Poller.state_of_disk d !! Poller.BOT_UPDATE_KEY.

(** A computation that does not change the state file. *)
Definition keeps_disk {A} (m : M A) : Prop :=
  forall w, disk (snd (m w)) = disk w.

(** *** Logging of failed sends, read off a trace *)

Definition transport_failed (r : HttpReply) : bool := negb (reply_ok r).

Definition network_failed (r : HttpReply) : bool :=
  match r with NetworkError => true | HttpResponse _ _ => false end.

Definition failed_send (failed : HttpReply -> bool) (ev : Event) : bool :=
  match ev with EvSendMessage _ _ r => failed r | _ => false end.

(** Every send that failed is followed, later in the trace, by an error
    written to the console. *)
Fixpoint failures_logged (failed : HttpReply -> bool) (evs : list Event)
  : bool :=
  match evs with
  | [] => true
  | ev :: rest =>
      (if failed_send failed ev then existsb is_error_log rest else true)
      && failures_logged failed rest
  end.

(** An effect other than a notification. *)
Definition silent (ev : Event) : Prop := is_notification ev = false.

(** Either the computation ends in an exception (which its caller still
    has to deal with) or the failed sends so far have been logged. *)
Definition accounted (failed : HttpReply -> bool) {A} (r : Res A)
    (evs : list Event) : Prop :=
  (exists e, r = Throw e) \/ failures_logged failed evs = true.

(** *** The trigger fan-out, read off a trace *)

Definition start_text : string := "⚡ Triggering monitor workflows...".
Definition success_text : string := "✅ Monitor workflows dispatched.".
Definition failure_text : string := "❌ Failed to trigger monitor workflows.".

(** Triggers that went through, one per job. *)
Definition all_ok (jobs : list string) : list (string * bool) :=
  map (fun f => (f, true)) jobs.

(** The jobs triggered are an initial part of the job list, in its order,
    and nothing is triggered after a trigger that failed. *)
Definition stops_at_first_failure (jobs : list string) (evs : list Event)
  : Prop :=
  (exists n, map fst (triggers evs) = take n jobs)
  /\ (forall before f after,
        triggers evs = (before ++ (f, false) :: after)%list -> after = []).

(** A failed trigger is reported by exactly one failure notification, and
    by no success notification. *)
Definition one_failure_notice (evs : list Event) : Prop :=
  (exists f, In (f, false) (triggers evs)) ->
  count_text failure_text evs = 1%nat /\ count_text success_text evs = 0%nat.

(** When every job has been triggered successfully there is exactly one
    success notification, and it comes after all the triggers. *)
Definition success_notice_follows (jobs : list string) (evs : list Event)
  : Prop :=
  jobs <> [] ->
  triggers evs = all_ok jobs ->
  count_text success_text evs = 1%nat
  /\ exists before chat r after,
       evs = (before ++ EvSendMessage chat success_text r :: after)%list
       /\ triggers before = all_ok jobs.

(** What one trigger adds: no notification, and one gateway call unless
    the credentials are missing. *)
Definition trigger_step (f : string) (r : Res unit) (evs : list Event) : Prop :=
  notifications evs = []
  /\ ((r = Ret tt /\ triggers evs = [(f, true)])
      \/ (exists e, r = Throw e
                    /\ (triggers evs = [] \/ triggers evs = [(f, false)]))).

(** What the loop over the jobs adds. *)
Definition trigger_loop (jobs : list string) (r : Res unit) (evs : list Event)
  : Prop :=
  notifications evs = []
  /\ ((r = Ret tt /\ triggers evs = all_ok jobs)
      \/ (exists e done b todo,
            r = Throw e /\ jobs = (done ++ b :: todo)%list
            /\ (triggers evs = all_ok done
                \/ triggers evs = (all_ok done ++ [(b, false)])%list))).

(** What one notification adds. *)
Definition sends (chat body_text : string) (r : Res unit) (evs : list Event)
  : Prop :=
  r <> Untracked /\ exists reply, evs = [EvSendMessage chat body_text reply].

(** The possible courses of the "/trigger" command. *)
Definition trigger_shape (jobs : list string) (evs : list Event) : Prop :=
  (exists c r0, evs = [EvSendMessage c start_text r0])
  \/ (exists c r0 loop r1 after,
        evs = (EvSendMessage c start_text r0 :: loop
                ++ EvSendMessage c success_text r1 :: after)%list
        /\ notifications loop = [] /\ triggers loop = all_ok jobs
        /\ (after = []
            \/ exists e r2, after = [EvConsole (LogError e);
                                     EvSendMessage c failure_text r2]))
  \/ (exists c r0 loop e r1 done b todo,
        evs = (EvSendMessage c start_text r0 :: loop
                ++ [EvConsole (LogError e); EvSendMessage c failure_text r1])%list
        /\ notifications loop = []
        /\ jobs = (done ++ b :: todo)%list
        /\ (triggers loop = all_ok done
            \/ triggers loop = (all_ok done ++ [(b, false)])%list)).

(** ** Specifications of computations *)

(** What a computation adds to the trace

    [adds m Q]: from any world, [m] appends some events [evs] to the trace,
    does not take back a response already sent, and its outcome [r] and
    [evs] satisfy [Q r evs]. *)
Definition adds {A} (m : M A) (Q : Res A -> list Event -> Prop) : Prop :=
  forall w, exists evs,
    trace (snd (m w)) = (trace w ++ evs)%list
    /\ (headersSent w = true -> headersSent (snd (m w)) = true)
    /\ Q (fst (m w)) evs.

(** The simplest instance: every added event is of a given kind, and the
    computation stays within the tracked fragment. *)
Definition only (P : Event -> Prop) {A} (r : Res A) (evs : list Event) : Prop :=
  r <> Untracked /\ Forall P evs.



(** ** Concrete configurations used in the examples below *)

Module Scenario.

Definition env : Env :=
  {| TELEGRAM_TOKEN := Some "123:abc";
     TELEGRAM_CHAT_ID := Some "42";
     GITHUB_TOKEN := Some "ghp_x";
     GITHUB_REPOSITORY := Some "owner/repo";
     GITHUB_REF_NAME := None;
     TELEGRAM_WEBHOOK_PATH := None;
     TELEGRAM_WEBHOOK_SECRET := None |}.

(** An update carrying a text message from the given chat. *)
Definition update (id chat : Z) (body_text : string) : TelegramUpdate :=
  {| update_id := id;
     message := Some {| chat_id := chat; text := Some (JS.lit body_text) |} |}.

Definition bare_update (id : Z) : TelegramUpdate :=
  {| update_id := id; message := None |}.

Definition a_run : WorkflowRun :=
  {| event := "schedule"; status := "completed";
     conclusion := Some "success"; created_at := "2024-05-01T10:00:00Z" |}.

(** A remote end that delivers [batch] and answers sends, triggers and
    status queries as given, with no other writer on the state file. *)
Definition remote (batch : list TelegramUpdate)
    (on_send : string -> HttpReply) (on_dispatch : string -> HttpReply)
    (on_runs : string -> RunsReply) : Remote :=
  {| telegram_getUpdates := fun _ _ => UpdatesHttp 200 (Some (true, batch));
     telegram_sendMessage := fun _ _ body_text => on_send body_text;
     github_dispatch := fun _ _ workflowFile _ => on_dispatch workflowFile;
     github_runs := fun _ _ workflowFile => on_runs workflowFile;
     other_writers := fun _ d => d |}.

Definition delivered (_ : string) : HttpReply := HttpResponse 200 "{}".
Definition accepted (_ : string) : HttpReply := HttpResponse 204 "".
Definition no_runs (_ : string) : RunsReply := RunsHttp 200 "" (Some (Some [])).

(** The store of the specification's example. *)
Definition store_5 : Disk :=
  FileObject (<["__bot_last_update_id__" := "5"]> (<["other_key" := "x"]> ∅)).

Definition store_7 : Disk :=
  FileObject (<["__bot_last_update_id__" := "7"]> (<["other_key" := "x"]> ∅)).

Definition store_10 : Disk :=
  FileObject (<["__bot_last_update_id__" := "10"]> ∅).

Definition utc (s : string) : string := s.

Definition unreachable (_ : string) : HttpReply := NetworkError.
Definition refused (_ : string) : HttpReply :=
  HttpResponse 500 "Internal Server Error".

(** Every send is delivered except the failure notice, which cannot be
    sent at all. *)
Definition failure_notice_unreachable (body_text : string) : HttpReply :=
  if String.eqb body_text failure_text then NetworkError
  else HttpResponse 200 "{}".

(** Jobs [A], [B], [C], of which [B] cannot be triggered. *)
Definition jobs_ABC : list string := ["A.yml"; "B.yml"; "C.yml"].

Definition B_fails (workflowFile : string) : HttpReply :=
  if String.eqb workflowFile "B.yml" then HttpResponse 422 "no such workflow"
  else HttpResponse 204 "".

Definition workflows_ABC : list Webhook.Workflow :=
  [ {| Webhook.file := "A.yml"; Webhook.label := "A" |};
    {| Webhook.file := "B.yml"; Webhook.label := "B" |};
    {| Webhook.file := "C.yml"; Webhook.label := "C" |} ].

(** Job [A] has never run, job [B] has. *)
Definition job_A : Webhook.Workflow :=
  {| Webhook.file := "A.yml"; Webhook.label := "A" |}.
Definition job_B : Webhook.Workflow :=
  {| Webhook.file := "B.yml"; Webhook.label := "B" |}.

Definition only_B_ran (workflowFile : string) : RunsReply :=
  if String.eqb workflowFile "B.yml" then RunsHttp 200 "" (Some (Some [a_run]))
  else RunsHttp 200 "" (Some (Some [])).

Definition post (b : Webhook.Body) (secret : option string) : Webhook.Request :=
  {| Webhook.method := "POST";
     Webhook.url := Some "/telegram/webhook";
     Webhook.secret_token := secret;
     Webhook.body := b |}.

End Scenario.

(** ** Further reading of traces and stores *)

(** The admission test as a computation: a message is present and its chat
    identifier, written as a string, is the operator's. *)
Definition is_from_operator (chatId : string) (update : TelegramUpdate) : bool :=
  match message update with
  | Some msg => bool_decide (JS.String_of_number (chat_id msg) = chatId)
  | None => false
  end.

(** A computation that leaves some reading [f] of the state file as it
    was. *)
Definition preserves {A X} (f : Disk -> X) (m : M A) : Prop :=
  forall w, f (disk (snd (m w))) = f (disk w).

(** The reserved entry of the store. *)
Definition reserved_entry (d : Disk) : option string :=
  Poller.state_of_disk d !! Poller.BOT_UPDATE_KEY.

(** The outcome of the loop over a batch, with the value it returns
    replaced. *)
Definition returning {A B} (b : B) (r : Res A) : Res B :=
  match r with
  | Ret _ => Ret b
  | Throw e => Throw e
  | Untracked => Untracked
  end.

(** GitHub credentials as both programs test them. *)
Definition github_configured (env : Env) : bool :=
  JS.truthy (default "" (GITHUB_TOKEN env))
  && JS.truthy (default "" (GITHUB_REPOSITORY env)).

(** Messaging credentials as the webhook's [sendTelegramMessage] tests
    them. *)
Definition telegram_configured (env : Env) : bool :=
  JS.truthy (default "" (TELEGRAM_TOKEN env))
  && JS.truthy (default "" (TELEGRAM_CHAT_ID env)).

Definition is_trigger (ev : Event) : bool :=
  match ev with EvDispatch _ _ _ _ => true | _ => false end.

(** ** Further reading of the webhook server *)

(** Whether the request is the health check. *)
Definition is_health_check (req : Webhook.Request) : bool :=
  bool_decide (Webhook.method req = "GET")
  && (bool_decide (default "/" (Webhook.url req) = "/")
      || bool_decide (default "/" (Webhook.url req) = "/healthz")).

(** Whether the request is a POST to the webhook path. *)
Definition is_webhook_post (env : Env) (req : Webhook.Request) : bool :=
  bool_decide (Webhook.method req = "POST")
  && bool_decide (default "/" (Webhook.url req) = Webhook.webhookPath env).

(** Whether the secret header is acceptable: no secret is configured, or
    the header is exactly the secret. *)
Definition secret_accepted (env : Env) (req : Webhook.Request) : bool :=
  negb (JS.truthy (Webhook.webhookSecret env))
  || bool_decide (Webhook.secret_token req = Some (Webhook.webhookSecret env)).

(** The one response a request gets. *)
Definition response_for (env : Env) (req : Webhook.Request) : Event :=
  if is_health_check req then EvRespond 200 PayloadHealth
  else if negb (is_webhook_post env req) then EvRespond 404 PayloadNotOk
  else if negb (secret_accepted env req) then EvRespond 401 PayloadUnauthorized
  else match Webhook.body req with
       | Webhook.BodyMalformed => EvRespond 500 PayloadServerError
       | Webhook.BodyEmpty | Webhook.BodyJson _ => EvRespond 200 PayloadOk
       end.

(** An effect on the operator or on the automation platform. *)
Definition is_command_call (ev : Event) : bool :=
  is_notification ev || is_gateway_call ev.

Definition status_failure_text : string := "❌ Failed to fetch workflow status.".

(** *** The status fan-out, read off the replies *)

(** The latest run a reply reports, when the reply is a success with a
    JSON body ([Some None]: the job has no run yet). *)
Definition run_of_reply (reply : RunsReply) : option (option WorkflowRun) :=
  match reply with
  | RunsHttp status _ (Some workflow_runs) =>
      if JS.status_ok status then Some (head (default [] workflow_runs))
      else None
  | RunsHttp _ _ None | RunsNetworkError => None
  end.

(** What the promise of one status query settles to, given the reply. *)
Definition promise_of (workflow : Webhook.Workflow) (reply : RunsReply)
  : Res (string * option WorkflowRun) :=
  match reply with
  | RunsNetworkError => Throw fetch_failed
  | RunsHttp status body json =>
      if negb (JS.status_ok status) then
        Throw (JS.Error ("Status lookup failed for " ++ Webhook.file workflow
                         ++ ": " ++ JS.String_of_number status ++ " " ++ body))
      else
        match json with
        | None => Throw (JS.SyntaxError "Unexpected token")
        | Some workflow_runs =>
            Ret (Webhook.label workflow, head (default [] workflow_runs))
        end
  end.

(** The status queries for a job list, with the replies they got. *)
Definition status_queries (repo : string) (workflows : list Webhook.Workflow)
    (replies : list RunsReply) : list Event :=
  zip_with (fun workflow reply => EvListRuns repo (Webhook.file workflow) reply)
           workflows replies.

(** The replies the queries for a job list get when the first one is
    issued at time [t]: the requests are made one after the other, each
    one tick of the clock after the one before. *)
Fixpoint status_replies (R : Remote) (repo : string)
    (workflows : list Webhook.Workflow) (t : nat) : list RunsReply :=
  match workflows with
  | [] => []
  | workflow :: rest =>
      github_runs R t repo (Webhook.file workflow)
      :: status_replies R repo rest (S t)
  end.

(** The report: the heading, then one line per job. *)
Definition status_report (toUTCString : string -> string)
    (workflows : list Webhook.Workflow) (runs : list (option WorkflowRun))
  : string :=
  JS.join JS.newline
    ("📊 Monitor status"
     :: zip_with (fun workflow run =>
                    Webhook.status_line toUTCString (Webhook.label workflow, run))
                 workflows runs).

(** ** The registration script (first part of the webhook sources)

    A stand-alone script that tells the messaging API where the webhook
    server listens and which secret to send with each update. It reads
    the same path and secret variables as the server, and
    [BOT_PUBLIC_URL] besides. [resolve path base] stands for
    [new URL(path, base).toString()] of the JavaScript runtime ([None]:
    the constructor throws). *)

Module SetWebhook.

Inductive Reply :=
| NetworkFailure
| Response (status : Z) (json : option string).
    (* [None]: the body is not JSON; [Some j]: its pretty-printed form *)

Inductive Effect :=
| ConsoleError (s : string)
| Request (token url : string) (secret_token : option string) (r : Reply)
| ConsoleLog (s : string).

Inductive Outcome :=
| Completed
| Exit (code : Z)
| Uncaught (e : JS.exn).

Definition script (env : Env) (BOT_PUBLIC_URL : option string)
    (resolve : string -> string -> option string)
    (setWebhook : string -> string -> option string -> Reply)
  : Outcome * list Effect :=
  let token := default "" (TELEGRAM_TOKEN env) in
  let baseUrl := default "" BOT_PUBLIC_URL in
  let path := default "/telegram/webhook" (TELEGRAM_WEBHOOK_PATH env) in
  let secret := default "" (TELEGRAM_WEBHOOK_SECRET env) in
  if (negb (JS.truthy token) || negb (JS.truthy baseUrl))%bool then
    (Exit 1, [ConsoleError "Missing TELEGRAM_TOKEN or BOT_PUBLIC_URL"])
  else
    match resolve path baseUrl with
    | None => (Uncaught (JS.TypeError "Invalid URL"), [])
    | Some url =>
        (* const body = { url }; if (secret) body.secret_token = secret *)
        let secret_token := if JS.truthy secret then Some secret else None in
        let res := setWebhook token url secret_token in
        let request := Request token url secret_token res in
        match res with
        | NetworkFailure => (Uncaught fetch_failed, [request])
        | Response status None =>
            (Uncaught (JS.SyntaxError "Unexpected token"), [request])
        | Response status (Some json) =>
            if negb (JS.status_ok status) then
              (Exit 1, [request; ConsoleLog json])
            else (Completed, [request; ConsoleLog json])
        end
    end.

End SetWebhook.

(** An update carrying the given text from the given chat. *)
Definition text_update (id chat : Z) (body_text : JS.jsstring) : TelegramUpdate :=
  {| update_id := id;
     message := Some {| chat_id := chat; text := Some body_text |} |}.

(** ** The trigger fan-out in full *)

(** The trigger requests of the loop over [jobs] that starts at time
    [t]: one request per job, in list order, each made when the one
    before has been answered, and none after the first that is not
    answered with a success. *)
Fixpoint trigger_requests (R : Remote) (repo ref : string)
    (jobs : list string) (t : nat) : list Event :=
  match jobs with
  | [] => []
  | workflowFile :: rest =>
      let r := github_dispatch R t repo workflowFile ref in
      EvDispatch repo workflowFile ref r
      :: (if reply_ok r then trigger_requests R repo ref rest (S t) else [])
  end.

(** A send the poller takes for delivered: the request got a reply,
    whatever its status. *)
Definition got_a_reply (r : HttpReply) : bool := negb (network_failed r).

(** How the "/trigger" command ends, given the trigger requests [loop]
    it made and what it did after them ([tail]). Either every job was
    triggered successfully and the success notification follows (and,
    when that send is not [delivered], the logged error and the failure
    notification); or the last request is a failed trigger, no later job
    is triggered, and the logged error and one failure notification
    follow. *)
Definition fan_out_outcome (delivered : HttpReply -> bool) (chat : string)
    (jobs : list string) (loop tail : list Event) : Prop :=
  (triggers loop = all_ok jobs
   /\ exists r1 after,
        tail = EvSendMessage chat success_text r1 :: after
        /\ (delivered r1 = true -> after = [])
        /\ (delivered r1 = false ->
            exists e r2, after = [EvConsole (LogError e);
                                  EvSendMessage chat failure_text r2]))
  \/ (exists done b todo e r1,
        jobs = (done ++ b :: todo)%list
        /\ triggers loop = (all_ok done ++ [(b, false)])%list
        /\ tail = [EvConsole (LogError e); EvSendMessage chat failure_text r1]).

(** ** What ends a poll cycle *)

(** Effects after which the poller's loop goes on: anything but a write
    to the store and a send that ended in a network error; the success
    notification of "/trigger" is the exception, its error is caught by
    the command itself. *)
Definition carries_on (ev : Event) : bool :=
  match ev with
  | EvSendMessage _ body_text NetworkError =>
      bool_decide (body_text = success_text)
  | EvWriteFile _ => false
  | _ => true
  end.

(** The computation returns, or it ends in the exception of a send that
    met a network error, and that send is the last thing it did. *)
Definition stops_only_at_a_send {A} (r : Res A) (evs : list Event) : Prop :=
  ((exists a, r = Ret a) /\ forallb carries_on evs = true)
  \/ (r = Throw fetch_failed
      /\ exists before chat body_text,
           evs = (before ++ [EvSendMessage chat body_text NetworkError])%list
           /\ body_text <> success_text
           /\ forallb carries_on before = true).

(** The computation returns, or it ends in an exception right after a
    send that failed (network error or non-success response): the way
    the webhook's command handler can be cut short. *)
Definition returns_or_stops_at_failed_send {A} (r : Res A) (evs : list Event)
  : Prop :=
  (exists a, r = Ret a)
  \/ (exists e before chat body_text reply,
        r = Throw e
        /\ evs = (before ++ [EvSendMessage chat body_text reply])%list
        /\ reply_ok reply = false).
(** ** Proofs *)

(* from here on [++] is list concatenation unless marked otherwise *)
Open Scope list_scope.

(** *** The monad *)

Lemma bind_ret_l {A B} (a : A) (k : A -> M B) w : bind (ret a) k w = k a w.
Proof. reflexivity. Qed.

Lemma bind_run {A B} (m : M A) (k : A -> M B) w a w' :
  m w = (Ret a, w') -> bind m k w = k a w'.
Proof. unfold bind. intros ->. reflexivity. Qed.

Lemma bind_throw {A B} (m : M A) (k : A -> M B) w e w' :
  m w = (Throw e, w') -> bind m k w = (Throw e, w').
Proof. unfold bind. intros ->. reflexivity. Qed.

(** *** Update admission (C5) *)

(** C5. An update that carries no message, or whose chat identifier
    written as a string differs from the operator's, has no effect at all
    in either program: the poller's loop body and the webhook's
    [handleMessage] return at once and leave the world as it was, so no
    notification is sent and no gateway call is made. *)
Theorem unauthorized_update_is_dropped
    (R : Remote) (env : Env) (toUTCString : string -> string)
    (schedule : list nat) (jobs : list string) (workflows : list Webhook.Workflow)
    (token chatId : string) (update : TelegramUpdate) (w : World) :
  ~ from_operator chatId update ->
  Poller.on_update R env jobs token chatId update w = (Ret tt, w)
  /\ (default "" (TELEGRAM_CHAT_ID env) = chatId ->
      Webhook.handleMessage_with R env toUTCString workflows schedule
        (Some update) w = (Ret tt, w)).
Proof.
  intros Hno. unfold from_operator in Hno.
  unfold Poller.on_update, Webhook.handleMessage_with.
  destruct (message update) as [msg|] eqn:Hmsg.
  - assert (Hne : JS.String_of_number (chat_id msg) <> chatId)
      by (intros Heq; apply Hno; eauto).
    split.
    + destruct (decide _) as [_|Heq]; [reflexivity | contradiction].
    + intros ->. destruct (negb _); [reflexivity |].
      destruct (decide _) as [_|Heq]; [reflexivity | contradiction].
  - split; [reflexivity | intros _; reflexivity].
Qed.

(** *** Rules for [adds] *)

Lemma adds_weaken {A} (m : M A) (Q Q' : Res A -> list Event -> Prop) :
  adds m Q -> (forall r evs, Q r evs -> Q' r evs) -> adds m Q'.
Proof.
  intros H HQ w. destruct (H w) as (evs & ? & ? & ?). exists evs. auto.
Qed.

Lemma adds_ret {A} (a : A) (Q : Res A -> list Event -> Prop) :
  Q (Ret a) [] -> adds (ret a) Q.
Proof. intros H w. exists []. simpl. rewrite app_nil_r. auto. Qed.

Lemma adds_throw {A} e (Q : Res A -> list Event -> Prop) :
  Q (Throw e) [] -> adds (throw e) Q.
Proof. intros H w. exists []. simpl. rewrite app_nil_r. auto. Qed.

Lemma adds_emit ev (Q : Res unit -> list Event -> Prop) :
  Q (Ret tt) [ev] -> adds (emit ev) Q.
Proof. intros H w. exists [ev]. simpl. auto. Qed.

Lemma adds_await {A} R (reply : nat -> A) (ev : A -> Event)
    (Q : Res A -> list Event -> Prop) :
  (forall t, Q (Ret (reply t)) [ev (reply t)]) ->
  adds (await_fetch R reply ev) Q.
Proof. intros H w. exists [ev (reply (clock w))]. simpl. auto. Qed.

Lemma adds_bind {A B} (m : M A) (k : A -> M B)
    (Q1 : Res A -> list Event -> Prop) (Q2 : A -> Res B -> list Event -> Prop)
    (Q : Res B -> list Event -> Prop) :
  adds m Q1 ->
  (forall a, adds (k a) (Q2 a)) ->
  (forall a evs1 r evs2, Q1 (Ret a) evs1 -> Q2 a r evs2 -> Q r (evs1 ++ evs2)) ->
  (forall e evs, Q1 (Throw e) evs -> Q (Throw e) evs) ->
  (forall evs, Q1 Untracked evs -> Q Untracked evs) ->
  adds (bind m k) Q.
Proof.
  intros Hm Hk Hret Hthrow Hun w. unfold bind.
  destruct (Hm w) as (evs1 & Ht1 & Hh1 & HQ1).
  destruct (m w) as [[a|e|] w1]; simpl in *.
  - destruct (Hk a w1) as (evs2 & Ht2 & Hh2 & HQ2).
    exists (evs1 ++ evs2). rewrite Ht2, Ht1, app_assoc.
    split; [reflexivity | split; [auto | eauto]].
  - exists evs1. eauto.
  - exists evs1. eauto.
Qed.

Lemma adds_try_catch {A} (body : M A) (handler : JS.exn -> M A)
    (Q1 : Res A -> list Event -> Prop) (Q2 : JS.exn -> Res A -> list Event -> Prop)
    (Q : Res A -> list Event -> Prop) :
  adds body Q1 ->
  (forall e, adds (handler e) (Q2 e)) ->
  (forall e evs1 r evs2, Q1 (Throw e) evs1 -> Q2 e r evs2 -> Q r (evs1 ++ evs2)) ->
  (forall a evs, Q1 (Ret a) evs -> Q (Ret a) evs) ->
  (forall evs, Q1 Untracked evs -> Q Untracked evs) ->
  adds (try_catch body handler) Q.
Proof.
  intros Hm Hk Hthrow Hret Hun w. unfold try_catch.
  destruct (Hm w) as (evs1 & Ht1 & Hh1 & HQ1).
  destruct (body w) as [[a|e|] w1]; simpl in *.
  - exists evs1. eauto.
  - destruct (Hk e w1) as (evs2 & Ht2 & Hh2 & HQ2).
    exists (evs1 ++ evs2). rewrite Ht2, Ht1, app_assoc.
    split; [reflexivity | split; [auto | eauto]].
  - exists evs1. eauto.
Qed.

Lemma only_nil P {A} (r : Res A) : r <> Untracked -> only P r [].
Proof. intros; split; [assumption | constructor]. Qed.

Lemma only_app P {A B} (r1 : Res A) (r2 : Res B) evs1 evs2 :
  only P r1 evs1 -> only P r2 evs2 -> only P r2 (evs1 ++ evs2).
Proof. intros [_ H1] [H2 H3]. split; [assumption | apply Forall_app; auto]. Qed.

Lemma only_retag P {A B} (r1 : Res A) (r2 : Res B) evs :
  only P r1 evs -> r2 <> Untracked -> only P r2 evs.
Proof. intros [_ H] ?. split; assumption. Qed.

Lemma adds_only_bind P {A B} (m : M A) (k : A -> M B) :
  adds m (only P) -> (forall a, adds (k a) (only P)) -> adds (bind m k) (only P).
Proof.
  intros Hm Hk.
  apply (adds_bind m k (only P) (fun _ => only P)); [exact Hm | exact Hk | | |].
  - intros. eapply only_app; eauto.
  - intros e evs H. eapply only_retag; [exact H | discriminate].
  - intros evs [H _]. contradiction.
Qed.

Lemma adds_only_try_catch P {A} (body : M A) (handler : JS.exn -> M A) :
  adds body (only P) -> (forall e, adds (handler e) (only P)) ->
  adds (try_catch body handler) (only P).
Proof.
  intros Hm Hk.
  apply (adds_try_catch body handler (only P) (fun _ => only P));
    [exact Hm | exact Hk | | |].
  - intros. eapply only_app; eauto.
  - trivial.
  - trivial.
Qed.

Lemma adds_only_for_of P {A} (body : A -> M unit) (xs : list A) :
  (forall x, adds (body x) (only P)) -> adds (for_of body xs) (only P).
Proof.
  intros Hb. induction xs as [|x xs IH]; simpl.
  - apply adds_ret, only_nil. discriminate.
  - apply adds_only_bind; auto.
Qed.

Lemma adds_only_await P R {A} (reply : nat -> A) (ev : A -> Event) :
  (forall a, P (ev a)) -> adds (await_fetch R reply ev) (only P).
Proof.
  intros H. apply adds_await. intros t. split; [discriminate |].
  repeat constructor. apply H.
Qed.

Lemma adds_only_console P entry :
  P (EvConsole entry) -> adds (console entry) (only P).
Proof.
  intros H. apply adds_emit. split; [discriminate | repeat constructor; exact H].
Qed.

Lemma adds_only_ret P {A} (a : A) : adds (ret a) (only P).
Proof. apply adds_ret, only_nil. discriminate. Qed.

Lemma adds_only_throw P {A} e : adds (@throw A e) (only P).
Proof. apply adds_throw, only_nil. discriminate. Qed.

Lemma adds_only_async_start P {A} (m : M A) :
  adds m (only P) -> adds (Webhook.async_start m) (only P).
Proof.
  intros H w. destruct (H w) as (evs & Ht & Hh & _ & HP).
  exists evs. unfold Webhook.async_start.
  destruct (m w) as [r w1]; simpl in *.
  split; [exact Ht | split; [exact Hh | split; [discriminate | exact HP]]].
Qed.

Lemma adds_only_start_all P {A B} (f : A -> M B) (xs : list A) :
  (forall x, adds (f x) (only P)) -> adds (Webhook.start_all f xs) (only P).
Proof.
  intros Hf. induction xs as [|x xs IH]; simpl.
  - apply adds_only_ret.
  - apply adds_only_bind; [apply adds_only_async_start, Hf |].
    intros p. apply adds_only_bind; [exact IH |]. intros ps. apply adds_only_ret.
Qed.

Lemma adds_only_Promise_all P {A} schedule (promises : list (Res A)) :
  adds (Webhook.Promise_all schedule promises) (only P).
Proof.
  unfold Webhook.Promise_all.
  destruct (Webhook.first_rejected _ _);
    [apply adds_only_throw | apply adds_only_ret].
Qed.

(** *** The webhook's command handler as a whole *)

Section WebhookHandler.
Variable R : Remote.
Variable env : Env.
Variable toUTCString : string -> string.
Variable workflows : list Webhook.Workflow.
Variable schedule : list nat.

Lemma sendTelegramMessage_only body_text :
  adds (Webhook.sendTelegramMessage R env body_text) (only is_command_effect).
Proof.
  unfold Webhook.sendTelegramMessage.
  destruct (_ || _)%bool; [apply adds_only_throw |].
  apply adds_only_bind.
  - apply adds_only_await. intros a. exact I.
  - intros [|st b]; [apply adds_only_throw |].
    destruct (negb _); [apply adds_only_throw | apply adds_only_ret].
Qed.

Lemma githubContext_only P :
  adds (Webhook.githubContext env) (only P).
Proof.
  unfold Webhook.githubContext.
  destruct (_ || _)%bool; [apply adds_only_throw | apply adds_only_ret].
Qed.

Lemma dispatchWorkflow_only f :
  adds (Webhook.dispatchWorkflow R env f) (only is_command_effect).
Proof.
  unfold Webhook.dispatchWorkflow.
  apply adds_only_bind; [apply githubContext_only |]. intros ctx.
  apply adds_only_bind.
  - apply adds_only_await. intros a. exact I.
  - intros [|st b]; [apply adds_only_throw |].
    destruct (negb _); [apply adds_only_throw | apply adds_only_ret].
Qed.

Lemma getLatestWorkflowRun_only (P : Event -> Prop) f :
  (forall repo r, P (EvListRuns repo f r)) ->
  adds (Webhook.getLatestWorkflowRun R env f) (only P).
Proof.
  intros HP. unfold Webhook.getLatestWorkflowRun.
  apply adds_only_bind; [apply githubContext_only |]. intros ctx.
  apply adds_only_bind.
  - apply adds_only_await. intros a. apply HP.
  - intros [|st b [runs|]]; [apply adds_only_throw | |].
    + destruct (negb _); [apply adds_only_throw | apply adds_only_ret].
    + destruct (negb _); apply adds_only_throw.
Qed.

Lemma handleMessage_only update :
  adds (Webhook.handleMessage_with R env toUTCString workflows schedule update)
       (only is_command_effect).
Proof.
  unfold Webhook.handleMessage_with.
  destruct update as [u|]; [| apply adds_only_throw].
  destruct (message u) as [msg|]; [| apply adds_only_ret].
  destruct (negb _); [apply adds_only_ret |].
  destruct (decide _); [apply adds_only_ret |].
  destruct (decide _); [apply sendTelegramMessage_only |].
  destruct (decide _).
  { apply adds_only_bind; [apply sendTelegramMessage_only |]. intros _.
    apply adds_only_try_catch.
    - apply adds_only_bind; [| intros _; apply sendTelegramMessage_only].
      apply adds_only_for_of. intros x. apply dispatchWorkflow_only.
    - intros err.
      apply adds_only_bind; [| intros _; apply sendTelegramMessage_only].
      apply adds_only_console. exact I. }
  destruct (decide _); [| apply adds_only_ret].
  apply adds_only_try_catch.
  - apply adds_only_bind.
    + apply adds_only_start_all. intros x.
      apply adds_only_bind; [| intros run; apply adds_only_ret].
      apply getLatestWorkflowRun_only. intros; exact I.
    + intros ps. apply adds_only_bind; [apply adds_only_Promise_all |].
      intros sts. apply sendTelegramMessage_only.
  - intros err.
    apply adds_only_bind; [| intros _; apply sendTelegramMessage_only].
    apply adds_only_console. exact I.
Qed.

(** A request that passes the method, path and secret checks and whose
    body parses is answered first; the command then runs in the
    acknowledged world, and an exception it raises is only logged. *)
Lemma listener_passes_checks req payload w :
  Webhook.method req = "POST" ->
  default "/" (Webhook.url req) = Webhook.webhookPath env ->
  (JS.truthy (Webhook.webhookSecret env) = true ->
   Webhook.secret_token req = Some (Webhook.webhookSecret env)) ->
  payload_of (Webhook.body req) = Some payload ->
  headersSent w = false ->
  Webhook.listener_with R env toUTCString workflows schedule req w
  = caught (Webhook.handleMessage_with R env toUTCString workflows schedule
              payload (acknowledged w)).
Proof.
  intros Hm Hu Hs Hb Hh.
  unfold Webhook.listener_with. rewrite Hm, Hu.
  rewrite (bool_decide_eq_false_2 ("POST" = "GET")) by discriminate.
  rewrite (bool_decide_eq_true_2 ("POST" = "POST")) by reflexivity.
  rewrite (bool_decide_eq_true_2 (Webhook.webhookPath env = Webhook.webhookPath env))
    by reflexivity.
  cbn [andb negb orb].
  assert (Hsec : (JS.truthy (Webhook.webhookSecret env)
                  && negb (bool_decide (Webhook.secret_token req
                                        = Some (Webhook.webhookSecret env))))%bool
                 = false).
  { destruct (JS.truthy _); [| reflexivity].
    rewrite bool_decide_eq_true_2 by auto. reflexivity. }
  rewrite Hsec.
  unfold try_catch, bind, Webhook.readJsonBody.
  assert (Hrd : match Webhook.body req with
                | Webhook.BodyEmpty => ret None
                | Webhook.BodyMalformed => throw (JS.SyntaxError "Unexpected token")
                | Webhook.BodyJson u => ret (Some u)
                end w = (Ret payload, w)).
  { destruct (Webhook.body req); simpl in Hb; inversion Hb; reflexivity. }
  rewrite Hrd. unfold Webhook.writeJson at 1. rewrite Hh.
  fold (acknowledged w).
  destruct (handleMessage_only payload (acknowledged w)) as (evs & Ht & Hh' & Hnu & _).
  destruct (Webhook.handleMessage_with _ _ _ _ _ _ _) as [[[]|e|] w2];
    simpl in *; try reflexivity.
  unfold console at 1, emit at 1. cbn [negb headersSent].
  rewrite (Hh' eq_refl). reflexivity.
Qed.
End WebhookHandler.

Lemma caught_adds (outcome : Res unit * World) (w : World) (evs : list Event) :
  trace (snd outcome) = trace w ++ evs ->
  Forall is_command_effect evs ->
  exists evs', trace (snd (caught outcome)) = trace w ++ evs'
               /\ Forall is_command_effect evs'.
Proof.
  intros Ht HP. destruct outcome as [[[]|e|] w2]; simpl in *; eauto.
  exists (evs ++ [EvConsole (LogError e)]). rewrite Ht, app_assoc.
  split; [reflexivity |]. apply Forall_app. split; [assumption |].
  repeat constructor.
Qed.

(** *** Acknowledgement before execution (C8) *)

(** C8. A webhook request that passes the checks (POST to the webhook path, the
    secret header matching when a secret is configured, a body that
    parses) is answered with status 200 before the command runs: the
    response is the first effect of the request, the command handler
    starts in the world where the response has already been sent, and
    whatever the handler then does (notifications, triggers, status
    queries, logging) comes after it and adds no further response. *)
Theorem webhook_acknowledges_before_command
    (R : Remote) (env : Env) (toUTCString : string -> string)
    (workflows : list Webhook.Workflow) (schedule : list nat)
    (req : Webhook.Request) (payload : option TelegramUpdate) (w : World) :
  Webhook.method req = "POST" ->
  default "/" (Webhook.url req) = Webhook.webhookPath env ->
  (JS.truthy (Webhook.webhookSecret env) = true ->
   Webhook.secret_token req = Some (Webhook.webhookSecret env)) ->
  payload_of (Webhook.body req) = Some payload ->
  headersSent w = false ->
  Webhook.listener_with R env toUTCString workflows schedule req w
  = caught (Webhook.handleMessage_with R env toUTCString workflows schedule
              payload (acknowledged w))
  /\ exists rest,
       trace (snd (Webhook.listener_with R env toUTCString workflows schedule
                     req w))
       = trace w ++ EvRespond 200 PayloadOk :: rest
       /\ Forall is_command_effect rest.
Proof.
  intros Hm Hu Hs Hb Hh.
  pose proof (listener_passes_checks R env toUTCString workflows schedule
                req payload w Hm Hu Hs Hb Hh) as Heq.
  split; [exact Heq |]. rewrite Heq.
  destruct (handleMessage_only R env toUTCString workflows schedule payload
              (acknowledged w)) as (evs & Ht & _ & _ & HP).
  destruct (caught_adds _ (acknowledged w) evs Ht HP) as (evs' & Ht' & HP').
  exists evs'. rewrite Ht'. simpl. rewrite <- app_assoc. split; [reflexivity | exact HP'].
Qed.

(** *** No secret configured (C10) *)

(** C10. When [TELEGRAM_WEBHOOK_SECRET] is unset or empty, the secret
    header plays no part in handling a POST to the webhook path: the
    listener behaves the same whatever the header holds (or when it is
    missing), a request whose body parses is acknowledged and handed to
    the command handler, and no request is answered "unauthorized". *)
Theorem no_secret_no_header_check
    (R : Remote) (env : Env) (toUTCString : string -> string)
    (workflows : list Webhook.Workflow) (schedule : list nat)
    (req : Webhook.Request) (w : World) :
  Webhook.webhookSecret env = "" ->
  Webhook.method req = "POST" ->
  default "/" (Webhook.url req) = Webhook.webhookPath env ->
  headersSent w = false ->
  (forall h,
     Webhook.listener_with R env toUTCString workflows schedule
       (with_secret_token h req) w
     = Webhook.listener_with R env toUTCString workflows schedule req w)
  /\ (forall payload,
        payload_of (Webhook.body req) = Some payload ->
        Webhook.listener_with R env toUTCString workflows schedule req w
        = caught (Webhook.handleMessage_with R env toUTCString workflows
                    schedule payload (acknowledged w)))
  /\ exists evs,
       trace (snd (Webhook.listener_with R env toUTCString workflows schedule
                     req w)) = trace w ++ evs
       /\ ~ In (EvRespond 401 PayloadUnauthorized) evs.
Proof.
  intros Hsec Hm Hu Hh.
  assert (Hadm : forall payload,
             payload_of (Webhook.body req) = Some payload ->
             Webhook.listener_with R env toUTCString workflows schedule req w
             = caught (Webhook.handleMessage_with R env toUTCString workflows
                         schedule payload (acknowledged w))).
  { intros payload Hb. apply listener_passes_checks; auto.
    rewrite Hsec. discriminate. }
  split; [| split; [exact Hadm |]].
  - intros h. unfold Webhook.listener_with, with_secret_token, Webhook.readJsonBody.
    cbn [Webhook.method Webhook.url Webhook.secret_token Webhook.body].
    rewrite Hsec. reflexivity.
  - destruct (payload_of (Webhook.body req)) as [payload|] eqn:Hb.
    + rewrite (Hadm payload eq_refl).
      destruct (handleMessage_only R env toUTCString workflows schedule payload
                  (acknowledged w)) as (evs & Ht & _ & _ & HP).
      destruct (caught_adds _ (acknowledged w) evs Ht HP) as (evs' & Ht' & HP').
      exists (EvRespond 200 PayloadOk :: evs'). rewrite Ht'. simpl.
      rewrite <- app_assoc. split; [reflexivity |].
      intros [Hin|Hin]; [discriminate |].
      rewrite Forall_forall in HP'. apply list_elem_of_In in Hin.
      apply (HP' _ Hin).
    + destruct (Webhook.body req) eqn:Hbody; simpl in Hb; try discriminate.
      exists [EvConsole (LogError (JS.SyntaxError "Unexpected token"));
              EvRespond 500 PayloadServerError].
      unfold Webhook.listener_with. rewrite Hm, Hu, Hsec.
      rewrite (bool_decide_eq_false_2 ("POST" = "GET")) by discriminate.
      rewrite (bool_decide_eq_true_2 ("POST" = "POST")) by reflexivity.
      rewrite (bool_decide_eq_true_2 (Webhook.webhookPath env = Webhook.webhookPath env))
        by reflexivity.
      unfold Webhook.readJsonBody. rewrite Hbody.
      unfold try_catch, bind, throw, console, emit, Webhook.writeJson.
      change (JS.truthy "") with false.
      cbn. rewrite Hh. cbn. rewrite <- app_assoc. split; [reflexivity |].
      intros [Hin|[Hin|[]]]; discriminate.
Qed.

(** *** Small facts about the runtime fragments *)

Lemma truthy_true s : s <> "" -> JS.truthy s = true.
Proof. intros H. unfold JS.truthy. destruct (decide _); [contradiction | reflexivity]. Qed.

Lemma clock_waited R ev w : clock (waited R ev w) = S (clock w).
Proof. unfold clock, waited. simpl. rewrite length_app. simpl. lia. Qed.

Lemma first_rejected_none {A} (promises : list (Res A)) (order : list nat) :
  Forall (fun p => forall e, p <> Throw e) promises ->
  Webhook.first_rejected promises order = None.
Proof.
  intros Hall. induction order as [|i order IH]; simpl; [reflexivity |].
  destruct (promises !! i) as [p|] eqn:Hp; [| exact IH].
  destruct p as [a|e|]; try exact IH.
  rewrite Forall_forall in Hall.
  exfalso. apply (Hall (Throw e)) with (e := e); [| reflexivity].
  apply list_elem_of_lookup. eauto.
Qed.

(** *** The status report (C7) *)

Section StatusReport.
Variable R : Remote.
Variable env : Env.
Variable toUTCString : string -> string.

Hypothesis github_token_set : default "" (GITHUB_TOKEN env) <> "".
Hypothesis github_repo_set : default "" (GITHUB_REPOSITORY env) <> "".

Lemma githubContext_run w :
  Webhook.githubContext env w
  = (Ret {| Webhook.ghToken := default "" (GITHUB_TOKEN env);
            Webhook.repo := default "" (GITHUB_REPOSITORY env);
            Webhook.ref := default "main" (GITHUB_REF_NAME env) |}, w).
Proof.
  unfold Webhook.githubContext.
  rewrite !truthy_true by assumption. reflexivity.
Qed.

Lemma getLatestWorkflowRun_run f st b runs w :
  github_runs R (clock w) (default "" (GITHUB_REPOSITORY env)) f
  = RunsHttp st b (Some runs) ->
  JS.status_ok st = true ->
  Webhook.getLatestWorkflowRun R env f w
  = (Ret (head (default [] runs)),
     waited R (EvListRuns (default "" (GITHUB_REPOSITORY env)) f
                 (RunsHttp st b (Some runs))) w).
Proof.
  intros Hr Hok. unfold Webhook.getLatestWorkflowRun.
  rewrite (bind_run _ _ _ _ _ (githubContext_run w)).
  unfold fetch_runs, await_fetch, bind. cbn [Webhook.repo].
  rewrite Hr, Hok. reflexivity.
Qed.
End StatusReport.

Lemma sendTelegramMessage_run R env body_text w :
  default "" (TELEGRAM_TOKEN env) <> "" ->
  default "" (TELEGRAM_CHAT_ID env) <> "" ->
  exists r,
    Webhook.sendTelegramMessage R env body_text w
    = (r, waited R (EvSendMessage (default "" (TELEGRAM_CHAT_ID env)) body_text
                      (telegram_sendMessage R (clock w)
                         (default "" (TELEGRAM_CHAT_ID env)) body_text)) w)
    /\ r <> Untracked
    /\ (r = Ret tt <->
        reply_ok (telegram_sendMessage R (clock w)
                    (default "" (TELEGRAM_CHAT_ID env)) body_text) = true).
Proof.
  intros Ht Hc. unfold Webhook.sendTelegramMessage.
  rewrite !truthy_true by assumption. cbn [negb orb].
  unfold fetch_sendMessage, await_fetch, bind.
  destruct (telegram_sendMessage R (clock w) _ body_text) as [|st b]; cbn.
  - eexists. split; [reflexivity |]. split; [discriminate |].
    split; discriminate.
  - destruct (JS.status_ok st); cbn; eexists; (split; [reflexivity |]);
      (split; [discriminate |]); split; try discriminate; reflexivity.
Qed.

(** C7. The "/status" command over a job list [A; B], when the platform
    reports no run for [A] and a latest run for [B]: whichever of the two
    queries completes first, both are issued in list order and the one
    notification sent is the report with the heading followed by exactly
    two lines, [A]'s first, rendered "no runs yet", then [B]'s with its
    run. *)
Theorem status_report_in_declared_order
    (R : Remote) (env : Env) (toUTCString : string -> string)
    (A B : Webhook.Workflow) (update : TelegramUpdate) (w : World)
    (stA stB : Z) (bodyA bodyB : string)
    (runsA runsB : option (list WorkflowRun)) (run : WorkflowRun) :
  let chatId := default "" (TELEGRAM_CHAT_ID env) in
  let repo := default "" (GITHUB_REPOSITORY env) in
  let replyA := RunsHttp stA bodyA (Some runsA) in
  let replyB := RunsHttp stB bodyB (Some runsB) in
  let report :=
    JS.join JS.newline
      [ "📊 Monitor status";
        ("• <b>" ++ Webhook.label A ++ "</b>: no runs yet")%string;
        ("• <b>" ++ Webhook.label B ++ "</b>: "
         ++ Webhook.formatRunStatus toUTCString (Some run))%string ] in
  default "" (TELEGRAM_TOKEN env) <> "" ->
  chatId <> "" ->
  default "" (GITHUB_TOKEN env) <> "" ->
  repo <> "" ->
  from_operator chatId update ->
  command_of update = JS.lit "/status" ->
  github_runs R (clock w) repo (Webhook.file A) = replyA ->
  JS.status_ok stA = true ->
  head (default [] runsA) = None ->
  github_runs R (S (clock w)) repo (Webhook.file B) = replyB ->
  JS.status_ok stB = true ->
  head (default [] runsB) = Some run ->
  forall schedule,
    let sent := telegram_sendMessage R (S (S (clock w))) chatId report in
    exists rest,
      trace (snd (Webhook.handleMessage_with R env toUTCString [A; B] schedule
                    (Some update) w))
      = trace w ++
        [ EvListRuns repo (Webhook.file A) replyA;
          EvListRuns repo (Webhook.file B) replyB;
          EvSendMessage chatId report sent ] ++ rest
      /\ (reply_ok sent = true -> rest = []).
Proof.
  intros chatId repo replyA replyB report Htok Hchat Hgh Hrepo
    (msg & Hmsg & Hid) Hcmd HA HokA HnoA HB HokB HrunB schedule sent.
  unfold Webhook.handleMessage_with. rewrite Hmsg.
  unfold command_of in Hcmd. rewrite Hmsg in Hcmd.
  fold chatId. rewrite (truthy_true chatId Hchat). cbn [negb].
  destruct (decide (JS.String_of_number (chat_id msg) <> chatId)) as [Hne|_];
    [contradiction |].
  rewrite Hcmd.
  repeat case_decide; try discriminate; try contradiction.
  set (w1 := waited R (EvListRuns repo (Webhook.file A) replyA) w).
  set (w2 := waited R (EvListRuns repo (Webhook.file B) replyB) w1).
  assert (HrunA : Webhook.getLatestWorkflowRun R env (Webhook.file A) w
                  = (Ret None, w1)).
  { rewrite <- HnoA. apply getLatestWorkflowRun_run; assumption. }
  assert (HrunB' : Webhook.getLatestWorkflowRun R env (Webhook.file B) w1
                   = (Ret (Some run), w2)).
  { rewrite <- HrunB. apply getLatestWorkflowRun_run; try assumption.
    unfold w1. rewrite clock_waited. exact HB. }
  destruct (sendTelegramMessage_run R env report w2 Htok Hchat)
    as (r & Hsend & Hnu & Hret).
  unfold try_catch.
  assert (Hbody :
    (promises <-
       Webhook.start_all
         (fun workflow =>
            run0 <- Webhook.getLatestWorkflowRun R env (Webhook.file workflow) ;;
            ret (Webhook.label workflow, run0)) [A; B] ;;
     statuses <- Webhook.Promise_all schedule promises ;;
     Webhook.sendTelegramMessage R env
       (JS.join JS.newline
          ("📊 Monitor status"
           :: map (Webhook.status_line toUTCString) statuses))) w
    = (r, waited R (EvSendMessage chatId report
                      (telegram_sendMessage R (clock w2) chatId report)) w2)).
  { unfold Webhook.start_all, Webhook.async_start, bind at 1 2 3 4 5 6.
    rewrite HrunA. cbn [ret]. rewrite HrunB'. cbn [ret].
    unfold bind, Webhook.Promise_all, ret. cbv beta iota.
    rewrite first_rejected_none by (repeat constructor; discriminate).
    exact Hsend. }
  rewrite Hbody.
  assert (Hclock : clock w2 = S (S (clock w)))
    by (unfold w2, w1; rewrite !clock_waited; reflexivity).
  fold chatId in Hret. rewrite Hclock in *. fold sent in Hret |- *.
  destruct r as [[]|e|]; [| | contradiction].
  - exists []. cbn. rewrite <- !app_assoc. split; reflexivity.
  - (* the send failed: the error is logged and a failure notice follows *)
    set (w3 := waited R (EvSendMessage chatId report sent) w2).
    destruct (adds_only_bind is_command_effect
                (console (LogError e))
                (fun _ => Webhook.sendTelegramMessage R env
                            "❌ Failed to fetch workflow status.")
                (adds_only_console _ _ I)
                (fun _ => sendTelegramMessage_only R env _) w3)
      as (rest & Ht & _).
    exists rest. rewrite Ht. cbn. rewrite <- !app_assoc.
    split; [reflexivity |].
    intros Hok. apply Hret in Hok. discriminate.
Qed.

(** *** The trigger fan-out (C6) *)

Lemma triggers_app evs1 evs2 : triggers (evs1 ++ evs2) = triggers evs1 ++ triggers evs2.
Proof. apply omap_app. Qed.

Lemma notifications_app evs1 evs2 :
  notifications (evs1 ++ evs2) = notifications evs1 ++ notifications evs2.
Proof. apply omap_app. Qed.

Lemma all_ok_app xs ys : all_ok (xs ++ ys) = all_ok xs ++ all_ok ys.
Proof. apply map_app. Qed.

Lemma all_ok_names xs : map fst (all_ok xs) = xs.
Proof. induction xs as [|x xs IH]; simpl; [reflexivity | rewrite IH; reflexivity]. Qed.

Lemma all_ok_no_failure xs f : ~ In (f, false) (all_ok xs).
Proof.
  induction xs as [|x xs IH]; simpl; [tauto |].
  intros [H|H]; [discriminate | contradiction].
Qed.

Lemma failure_is_last xs b before f after :
  all_ok xs ++ [(b, false)] = before ++ (f, false) :: after -> after = [].
Proof.
  revert before. induction xs as [|x xs IH]; intros before H; simpl in H.
  - destruct before as [|y before]; simpl in H.
    + inversion H. reflexivity.
    + inversion H as [[Hy Hnil]]. destruct before; discriminate.
  - destruct before as [|y before]; simpl in H.
    + discriminate.
    + inversion H. eapply IH. eassumption.
Qed.

Lemma for_of_trigger_loop {A} (body : A -> M unit) (name : A -> string)
    (xs : list A) :
  (forall x, adds (body x) (trigger_step (name x))) ->
  adds (for_of body xs) (trigger_loop (map name xs)).
Proof.
  intros Hbody. induction xs as [|x xs IH]; simpl.
  - apply adds_ret. split; [reflexivity |]. left. split; reflexivity.
  - apply (adds_bind _ _ (trigger_step (name x))
             (fun _ => trigger_loop (map name xs)));
      [apply Hbody | intros _; exact IH | | |].
    + intros [] evs1 r evs2 [Hn1 Hs1] [Hn2 Hl2].
      split; [rewrite notifications_app, Hn1, Hn2; reflexivity |].
      destruct Hs1 as [[_ Ht1] | (e & He & _)]; [| discriminate He].
      rewrite triggers_app, Ht1.
      destruct Hl2 as [[-> Ht2] | (e & done & b & todo & -> & Hj & Ht2)].
      * left. split; [reflexivity |]. rewrite Ht2. reflexivity.
      * right. exists e, (name x :: done), b, todo.
        split; [reflexivity |]. split; [rewrite Hj; reflexivity |].
        destruct Ht2 as [-> | ->]; [left | right]; reflexivity.
    + intros e evs [Hn Hs]. split; [exact Hn |].
      destruct Hs as [[He _] | (e' & _ & Ht)]; [discriminate He |].
      right. exists e, [], (name x), (map name xs).
      split; [reflexivity |]. split; [reflexivity |]. exact Ht.
    + intros evs [_ [[He _] | (e & He & _)]]; discriminate He.
Qed.

(** The command as both programs write it, over any way of sending a
    notification and any loop over the jobs. *)
Lemma trigger_command_shape (send : string -> M unit) (loop : M unit)
    (jobs : list string) (chat : string) :
  (forall body_text, adds (send body_text) (sends chat body_text)) ->
  adds loop (trigger_loop jobs) ->
  adds (send start_text ;;
        try_catch (loop ;; send success_text)
                  (fun error => console (LogError error) ;; send failure_text))
       (fun _ evs => trigger_shape jobs evs).
Proof.
  intros Hsend Hloop w. unfold bind, try_catch.
  destruct (Hsend start_text w) as (evs0 & Ht0 & Hh0 & Hnu0 & r0 & ->).
  destruct (send start_text w) as [[[]|e0|] w1]; simpl in *;
    [| | contradiction].
  2:{ exists [EvSendMessage chat start_text r0]. split; [exact Ht0 |].
      split; [exact Hh0 |]. left. eauto. }
  destruct (Hloop w1) as (evsL & HtL & HhL & HnL & HsL).
  destruct (loop w1) as [[[]|eL|] w2]; simpl in *.
  - (* every trigger went through *)
    destruct HsL as [[_ HtrL] | (e & ? & ? & ? & He & _)]; [| discriminate He].
    destruct (Hsend success_text w2) as (evs1 & Ht1 & Hh1 & Hnu1 & r1 & ->).
    destruct (send success_text w2) as [[[]|e1|] w3]; simpl in *;
      [| | contradiction].
    + exists (EvSendMessage chat start_text r0 :: evsL
              ++ [EvSendMessage chat success_text r1]).
      split; [rewrite Ht1, HtL, Ht0, <- !app_assoc; reflexivity |].
      split; [auto |].
      right; left. exists chat, r0, evsL, r1, []. auto.
    + try unfold console; try unfold emit; simpl.
      set (w4 := {| trace := trace w3 ++ [EvConsole (LogError e1)];
                    disk := disk w3; headersSent := headersSent w3 |}).
      destruct (Hsend failure_text w4) as (evs2 & Ht2 & Hh2 & Hnu2 & r2 & ->).
      exists (EvSendMessage chat start_text r0 :: evsL
              ++ EvSendMessage chat success_text r1
                 :: [EvConsole (LogError e1); EvSendMessage chat failure_text r2]).
      split.
      { rewrite Ht2. unfold w4; simpl. rewrite Ht1, HtL, Ht0, <- !app_assoc.
        reflexivity. }
      split; [intros H; apply Hh2; unfold w4; simpl; auto |].
      right; left. exists chat, r0, evsL, r1. eexists.
      split; [reflexivity |]. split; [exact HnL |]. split; [exact HtrL |].
      right. eauto.
  - (* a trigger failed *)
    destruct HsL as [[He _] | (e & done & b & todo & _ & Hj & HtrL)];
      [discriminate He |].
    try unfold console; try unfold emit; simpl.
    set (w4 := {| trace := trace w2 ++ [EvConsole (LogError eL)];
                  disk := disk w2; headersSent := headersSent w2 |}).
    destruct (Hsend failure_text w4) as (evs2 & Ht2 & Hh2 & Hnu2 & r2 & ->).
    exists (EvSendMessage chat start_text r0 :: evsL
            ++ [EvConsole (LogError eL); EvSendMessage chat failure_text r2]).
    split.
    { rewrite Ht2. unfold w4; simpl. rewrite HtL, Ht0, <- !app_assoc.
      reflexivity. }
    split; [intros H; apply Hh2; unfold w4; simpl; auto |].
    right; right. exists chat, r0, evsL, eL, r2, done, b, todo. auto.
  - destruct HsL as [[He _] | (e & ? & ? & ? & He & _)]; discriminate He.
Qed.

Lemma take_through {A} (xs ys : list A) (b : A) :
  take (S (length xs)) (xs ++ b :: ys) = xs ++ [b].
Proof.
  induction xs as [|x xs IH]; simpl; [rewrite take_0; reflexivity |].
  f_equal. exact IH.
Qed.

Lemma count_text_eq body_text evs :
  count_text body_text evs
  = length (filter (fun t => t = body_text) (notifications evs)).
Proof. reflexivity. Qed.

Lemma trigger_shape_properties jobs evs :
  trigger_shape jobs evs ->
  stops_at_first_failure jobs evs
  /\ one_failure_notice evs
  /\ success_notice_follows jobs evs.
Proof.
  intros [(c & r0 & ->)
         | [(c & r0 & loop & r1 & after & -> & Hn & Ht & Hafter)
           | (c & r0 & loop & e & r1 & done & b & todo & -> & Hn & Hj & Ht)]].
  - (* the starting notification could not be sent *)
    split; [| split].
    + split; [exists 0%nat; reflexivity |].
      intros before f after H. destruct before; discriminate H.
    + intros (f & []).
    + intros Hne H. destruct jobs; [contradiction | discriminate H].
  - (* every trigger went through *)
    assert (Htr : triggers (EvSendMessage c start_text r0 :: loop
                            ++ EvSendMessage c success_text r1 :: after)
                  = all_ok jobs).
    { change (triggers (loop ++ EvSendMessage c success_text r1 :: after)
              = all_ok jobs).
      rewrite triggers_app, Ht.
      destruct Hafter as [-> | (e & r2 & ->)]; simpl; apply app_nil_r. }
    split; [| split].
    + split.
      * exists (length jobs). rewrite Htr, all_ok_names, take_ge; [reflexivity | lia].
      * intros before f aft H. rewrite Htr in H.
        exfalso. apply (all_ok_no_failure jobs f). rewrite H.
        apply in_elt.
    + intros (f & Hin). rewrite Htr in Hin.
      exfalso. exact (all_ok_no_failure _ _ Hin).
    + intros _ _. split.
      * rewrite count_text_eq.
        change (notifications (EvSendMessage c start_text r0 :: loop
                               ++ EvSendMessage c success_text r1 :: after))
          with (start_text :: notifications
                  (loop ++ EvSendMessage c success_text r1 :: after)).
        rewrite notifications_app, Hn.
        destruct Hafter as [-> | (e & r2 & ->)]; reflexivity.
      * exists (EvSendMessage c start_text r0 :: loop), c, r1, after.
        split; [reflexivity | exact Ht].
  - (* a trigger failed *)
    assert (Htr : triggers (EvSendMessage c start_text r0 :: loop
                            ++ [EvConsole (LogError e);
                                EvSendMessage c failure_text r1])
                  = triggers loop).
    { change (triggers (loop ++ [EvConsole (LogError e);
                                 EvSendMessage c failure_text r1])
              = triggers loop).
      rewrite triggers_app. apply app_nil_r. }
    split; [| split].
    + split.
      * rewrite Htr, Hj. destruct Ht as [-> | ->].
        -- exists (length done). rewrite all_ok_names, take_app_length. reflexivity.
        -- exists (S (length done)).
           rewrite map_app, all_ok_names. simpl.
           symmetry. apply take_through.
      * intros before f aft H. rewrite Htr in H. destruct Ht as [Ht | Ht];
          rewrite Ht in H.
        -- exfalso. apply (all_ok_no_failure done f). rewrite H. apply in_elt.
        -- eapply failure_is_last. eassumption.
    + intros _. rewrite !count_text_eq.
      change (notifications (EvSendMessage c start_text r0 :: loop
                             ++ [EvConsole (LogError e);
                                 EvSendMessage c failure_text r1]))
        with (start_text :: notifications
                (loop ++ [EvConsole (LogError e);
                          EvSendMessage c failure_text r1])).
      rewrite notifications_app, Hn. split; reflexivity.
    + intros _ H. rewrite Htr, Hj, all_ok_app in H. exfalso.
      destruct Ht as [Ht | Ht]; rewrite Ht in H.
      * apply (f_equal length) in H. rewrite length_app in H. simpl in H. lia.
      * apply app_inv_head in H. discriminate H.
Qed.

(** Routing of an update from the operator, in either program. *)
Lemma poller_route R env jobs token chatId update :
  from_operator chatId update ->
  Poller.on_update R env jobs token chatId update
  = let text := command_of update in
    if decide (text = JS.lit "/test") then
      Poller.sendMessage R token chatId "✅ Bot is alive and running."
    else if decide (text = JS.lit "/trigger") then
      Poller.sendMessage R token chatId start_text ;;
      try_catch
        (for_of (Poller.dispatchWorkflow R env) jobs ;;
         Poller.sendMessage R token chatId success_text)
        (fun error =>
           console (LogError error) ;;
           Poller.sendMessage R token chatId failure_text)
    else ret tt.
Proof.
  intros (msg & Hmsg & Hid). unfold Poller.on_update, command_of.
  rewrite Hmsg. destruct (decide _) as [Hne|_]; [contradiction | reflexivity].
Qed.

Lemma webhook_route R env toUTCString workflows schedule update :
  default "" (TELEGRAM_CHAT_ID env) <> "" ->
  from_operator (default "" (TELEGRAM_CHAT_ID env)) update ->
  Webhook.handleMessage_with R env toUTCString workflows schedule (Some update)
  = let text := command_of update in
    if decide (text = JS.lit "/test") then
      Webhook.sendTelegramMessage R env
        "✅ Bot is alive and running (webhook mode)."
    else if decide (text = JS.lit "/trigger") then
      Webhook.sendTelegramMessage R env start_text ;;
      try_catch
        (for_of (fun workflow =>
                   Webhook.dispatchWorkflow R env (Webhook.file workflow))
                workflows ;;
         Webhook.sendTelegramMessage R env success_text)
        (fun error =>
           console (LogError error) ;;
           Webhook.sendTelegramMessage R env failure_text)
    else if decide (text = JS.lit "/status") then
      try_catch
        (promises <-
           Webhook.start_all
             (fun workflow =>
                run <- Webhook.getLatestWorkflowRun R env (Webhook.file workflow) ;;
                ret (Webhook.label workflow, run))
             workflows ;;
         statuses <- Webhook.Promise_all schedule promises ;;
         Webhook.sendTelegramMessage R env
           (JS.join JS.newline
              ("📊 Monitor status"
               :: map (Webhook.status_line toUTCString) statuses)))
        (fun error =>
           console (LogError error) ;;
           Webhook.sendTelegramMessage R env
             "❌ Failed to fetch workflow status.")
    else ret tt.
Proof.
  intros Hchat (msg & Hmsg & Hid). unfold Webhook.handleMessage_with, command_of.
  rewrite Hmsg, (truthy_true _ Hchat). cbn [negb].
  destruct (decide _) as [Hne|_]; [contradiction | reflexivity].
Qed.

Lemma poller_sendMessage_sends R token chat body_text :
  adds (Poller.sendMessage R token chat body_text) (sends chat body_text).
Proof.
  intros w. unfold Poller.sendMessage, fetch_sendMessage, await_fetch, bind.
  exists [EvSendMessage chat body_text
            (telegram_sendMessage R (clock w) chat body_text)].
  destruct (telegram_sendMessage R (clock w) chat body_text); simpl;
    (split; [reflexivity |]); (split; [auto |]);
    (split; [discriminate | eauto]).
Qed.

Lemma webhook_sendTelegramMessage_sends R env body_text :
  default "" (TELEGRAM_TOKEN env) <> "" ->
  default "" (TELEGRAM_CHAT_ID env) <> "" ->
  adds (Webhook.sendTelegramMessage R env body_text)
       (sends (default "" (TELEGRAM_CHAT_ID env)) body_text).
Proof.
  intros Ht Hc w.
  destruct (sendTelegramMessage_run R env body_text w Ht Hc) as (r & -> & Hnu & _).
  eexists. simpl. split; [reflexivity |]. split; [auto |].
  split; [exact Hnu | eauto].
Qed.

Lemma poller_dispatch_step R env f :
  adds (Poller.dispatchWorkflow R env f) (trigger_step f).
Proof.
  intros w. unfold Poller.dispatchWorkflow.
  destruct (_ || _)%bool.
  { exists []. simpl. rewrite app_nil_r. repeat split; auto.
    right. eexists. split; [reflexivity | left; reflexivity]. }
  unfold fetch_dispatch, await_fetch, bind.
  set (repo := default "" (GITHUB_REPOSITORY env)).
  set (ref := default "main" (GITHUB_REF_NAME env)).
  exists [EvDispatch repo f ref (github_dispatch R (clock w) repo f ref)].
  destruct (github_dispatch R (clock w) repo f ref) as [|st b]; simpl.
  - repeat split; auto. right. eexists. split; [reflexivity | right; reflexivity].
  - unfold trigger_step, triggers, notifications, reply_ok. simpl.
    destruct (JS.status_ok st); simpl.
    + split; [reflexivity |]. split; [auto |]. split; [reflexivity |].
      left. split; reflexivity.
    + split; [reflexivity |]. split; [auto |]. split; [reflexivity |].
      right. eexists. split; [reflexivity | right; reflexivity].
Qed.

Lemma webhook_dispatch_step R env f :
  adds (Webhook.dispatchWorkflow R env f) (trigger_step f).
Proof.
  intros w. unfold Webhook.dispatchWorkflow, Webhook.githubContext.
  destruct (_ || _)%bool.
  { exists []. simpl. rewrite app_nil_r. repeat split; auto.
    right. eexists. split; [reflexivity | left; reflexivity]. }
  unfold fetch_dispatch, await_fetch, bind, ret. cbn [Webhook.repo Webhook.ref].
  set (repo := default "" (GITHUB_REPOSITORY env)).
  set (ref := default "main" (GITHUB_REF_NAME env)).
  exists [EvDispatch repo f ref (github_dispatch R (clock w) repo f ref)].
  destruct (github_dispatch R (clock w) repo f ref) as [|st b]; simpl.
  - repeat split; auto. right. eexists. split; [reflexivity | right; reflexivity].
  - unfold trigger_step, triggers, notifications, reply_ok. simpl.
    destruct (JS.status_ok st); simpl.
    + split; [reflexivity |]. split; [auto |]. split; [reflexivity |].
      left. split; reflexivity.
    + split; [reflexivity |]. split; [auto |]. split; [reflexivity |].
      right. eexists. split; [reflexivity | right; reflexivity].
Qed.

Lemma nothing_added_properties jobs :
  stops_at_first_failure jobs []
  /\ one_failure_notice []
  /\ success_notice_follows jobs [].
Proof.
  split; [| split].
  - split; [exists 0%nat; reflexivity |].
    intros before f after H. destruct before; discriminate H.
  - intros (f & []).
  - intros Hne H. destruct jobs; [contradiction | discriminate H].
Qed.

(** *** The poller's cycle *)

Lemma Number_of_String n : JS.Number_of_string (JS.String_of_number n) = Some n.
Proof.
  unfold JS.Number_of_string, JS.String_of_number.
  rewrite NilZero.isi.
  - simpl. rewrite DecimalZ.of_to. reflexivity.
  - destruct n; simpl; try discriminate.
    intros H. inversion H as [H']. exact (Unsigned.to_uint_nonnil _ H').
  - destruct n; simpl; try discriminate.
    intros H. inversion H as [H']. exact (Unsigned.to_uint_nonnil _ H').
Qed.

Lemma highest_fold us a b :
  highest (Z.max a b) us
  = Z.max a (foldr (fun u acc => Z.max (update_id u) acc) b us).
Proof.
  revert a b. induction us as [|x us IH]; intros a b; simpl; [reflexivity |].
  unfold highest in *. simpl.
  replace (Z.max (Z.max a b) (update_id x))
    with (Z.max (Z.max a (update_id x)) b) by lia.
  rewrite IH. lia.
Qed.

(** The loop computes the maximum of the previous offset and the
    identifiers of the batch. *)
Lemma highest_max p u us : highest p (u :: us) = Z.max p (max_update_id u us).
Proof. unfold max_update_id. rewrite <- highest_fold. reflexivity. Qed.

Lemma highest_ge p us : p <= highest p us.
Proof.
  revert p. induction us as [|x us IH]; intros p; unfold highest in *; simpl;
    [lia |].
  specialize (IH (Z.max p (update_id x))). lia.
Qed.

Lemma highest_bounds p us : Forall (fun u => update_id u <= highest p us) us.
Proof.
  revert p. induction us as [|x us IH]; intros p; [constructor |].
  constructor.
  - change (highest p (x :: us)) with (highest (Z.max p (update_id x)) us).
    pose proof (highest_ge (Z.max p (update_id x)) us). lia.
  - apply IH.
Qed.

Section PollerCycle.
Variable R : Remote.
Variable env : Env.
Variable jobs : list string.

Lemma process_updates_value token chatId updates n w n' w' :
  Poller.process_updates R env jobs token chatId updates n w = (Ret n', w') ->
  n' = highest n updates.
Proof.
  revert n w. induction updates as [|u us IH]; intros n w H; simpl in H.
  - inversion H. reflexivity.
  - unfold bind in H.
    destruct (Poller.on_update R env jobs token chatId u w) as [[[]|e|] w1];
      try discriminate H.
    apply IH in H. exact H.
Qed.

Hypothesis token_set : default "" (TELEGRAM_TOKEN env) <> "".
Hypothesis chat_set : default "" (TELEGRAM_CHAT_ID env) <> "".

(** A cycle whose fetch brings a non-empty batch: the loop runs, and
    when it returns the offset is persisted. *)
Lemma main_cycle w p st B :
  offset_on_disk (disk w) = Some p ->
  telegram_getUpdates R (clock w) (p + 1) = UpdatesHttp st (Some (true, B)) ->
  JS.status_ok st = true ->
  B <> [] ->
  Poller.main_with R env jobs w
  = match Poller.process_updates R env jobs
            (default "" (TELEGRAM_TOKEN env)) (default "" (TELEGRAM_CHAT_ID env))
            B p
            (waited R (EvGetUpdates (p + 1) (UpdatesHttp st (Some (true, B)))) w)
    with
    | (Ret n, w2) => (Ret tt, persisted n w2)
    | (Throw e, w2) => (Throw e, w2)
    | (Untracked, w2) => (Untracked, w2)
    end.
Proof.
  intros Hp Hr Hok HB. unfold Poller.main_with.
  rewrite !truthy_true by assumption. cbn [negb orb].
  unfold bind at 1. unfold Poller.loadState at 1.
  unfold offset_on_disk in Hp. rewrite Hp.
  unfold bind at 1. unfold fetch_getUpdates, await_fetch. rewrite Hr, Hok.
  cbn [negb]. destruct B as [|u us]; [contradiction |].
  cbn [length Nat.eqb orb]. unfold bind at 1.
  destruct (Poller.process_updates _ _ _ _ _ _ _ _) as [[n|e|] w2];
    reflexivity.
Qed.

(** A cycle whose fetch brings nothing ends without touching the store. *)
Lemma main_empty w p st :
  offset_on_disk (disk w) = Some p ->
  telegram_getUpdates R (clock w) (p + 1) = UpdatesHttp st (Some (true, [])) ->
  JS.status_ok st = true ->
  Poller.main_with R env jobs w
  = (Ret tt,
     waited R (EvGetUpdates (p + 1) (UpdatesHttp st (Some (true, [])))) w).
Proof.
  intros Hp Hr Hok. unfold Poller.main_with.
  rewrite !truthy_true by assumption. cbn [negb orb].
  unfold bind at 1. unfold Poller.loadState at 1.
  unfold offset_on_disk in Hp. rewrite Hp.
  unfold bind at 1. unfold fetch_getUpdates, await_fetch. rewrite Hr, Hok.
  reflexivity.
Qed.
End PollerCycle.

Lemma offset_on_disk_persisted n w :
  offset_on_disk (disk (persisted n w)) = Some n.
Proof.
  unfold offset_on_disk, persisted, Poller.lastId_of. simpl.
  rewrite lookup_insert_eq. simpl. apply Number_of_String.
Qed.

(** *** The state file during the loop *)

Lemma keeps_disk_ret {A} (a : A) : keeps_disk (ret a).
Proof. intros w. reflexivity. Qed.

Lemma keeps_disk_throw {A} e : keeps_disk (@throw A e).
Proof. intros w. reflexivity. Qed.

Lemma keeps_disk_console entry : keeps_disk (console entry).
Proof. intros w. reflexivity. Qed.

Lemma keeps_disk_await R {A} (reply : nat -> A) (ev : A -> Event) :
  quiet R -> keeps_disk (await_fetch R reply ev).
Proof. intros Hq w. simpl. apply Hq. Qed.

Lemma keeps_disk_bind {A B} (m : M A) (k : A -> M B) :
  keeps_disk m -> (forall a, keeps_disk (k a)) -> keeps_disk (bind m k).
Proof.
  intros Hm Hk w. unfold bind. specialize (Hm w).
  destruct (m w) as [[a|e|] w1]; simpl in *; try exact Hm.
  rewrite (Hk a w1). exact Hm.
Qed.

Lemma keeps_disk_try_catch {A} (body : M A) (handler : JS.exn -> M A) :
  keeps_disk body -> (forall e, keeps_disk (handler e)) ->
  keeps_disk (try_catch body handler).
Proof.
  intros Hm Hk w. unfold try_catch. specialize (Hm w).
  destruct (body w) as [[a|e|] w1]; simpl in *; try exact Hm.
  rewrite (Hk e w1). exact Hm.
Qed.

Lemma keeps_disk_for_of {A} (body : A -> M unit) (xs : list A) :
  (forall x, keeps_disk (body x)) -> keeps_disk (for_of body xs).
Proof.
  intros Hb. induction xs as [|x xs IH]; simpl.
  - apply keeps_disk_ret.
  - apply keeps_disk_bind; [apply Hb | intros _; exact IH].
Qed.

Section PollerLoop.
Variable R : Remote.
Variable env : Env.
Variable jobs : list string.
Variables token chatId : string.

Lemma poller_sendMessage_keeps_disk body_text :
  quiet R -> keeps_disk (Poller.sendMessage R token chatId body_text).
Proof.
  intros Hq. unfold Poller.sendMessage.
  apply keeps_disk_bind; [apply keeps_disk_await, Hq |].
  intros [|st b]; [apply keeps_disk_throw | apply keeps_disk_ret].
Qed.

Lemma poller_dispatch_keeps_disk f :
  quiet R -> keeps_disk (Poller.dispatchWorkflow R env f).
Proof.
  intros Hq. unfold Poller.dispatchWorkflow.
  destruct (_ || _)%bool; [apply keeps_disk_throw |].
  apply keeps_disk_bind; [apply keeps_disk_await, Hq |].
  intros [|st b]; [apply keeps_disk_throw |].
  destruct (negb _); [apply keeps_disk_throw | apply keeps_disk_ret].
Qed.

Lemma on_update_keeps_disk update :
  quiet R -> keeps_disk (Poller.on_update R env jobs token chatId update).
Proof.
  intros Hq. unfold Poller.on_update.
  destruct (message update) as [msg|]; [| apply keeps_disk_ret].
  destruct (decide _); [apply keeps_disk_ret |].
  destruct (decide _); [apply poller_sendMessage_keeps_disk, Hq |].
  destruct (decide _); [| apply keeps_disk_ret].
  apply keeps_disk_bind; [apply poller_sendMessage_keeps_disk, Hq |].
  intros _. apply keeps_disk_try_catch.
  - apply keeps_disk_bind;
      [| intros _; apply poller_sendMessage_keeps_disk, Hq].
    apply keeps_disk_for_of. intros f. apply poller_dispatch_keeps_disk, Hq.
  - intros err. apply keeps_disk_bind; [apply keeps_disk_console |].
    intros _. apply poller_sendMessage_keeps_disk, Hq.
Qed.

Lemma process_updates_keeps_disk updates n :
  quiet R ->
  keeps_disk (Poller.process_updates R env jobs token chatId updates n).
Proof.
  intros Hq. revert n. induction updates as [|u us IH]; intros n; simpl.
  - apply keeps_disk_ret.
  - apply keeps_disk_bind; [apply on_update_keeps_disk, Hq |].
    intros _. apply IH.
Qed.

(** When no send meets a network error, no update makes the loop stop:
    a failed trigger is caught, and the reply to a send is not looked
    at. *)
Hypothesis sends_get_a_reply :
  forall t chat body_text, telegram_sendMessage R t chat body_text <> NetworkError.

Lemma poller_sendMessage_returns body_text w :
  fst (Poller.sendMessage R token chatId body_text w) = Ret tt.
Proof.
  unfold Poller.sendMessage, fetch_sendMessage, await_fetch, bind.
  pose proof (sends_get_a_reply (clock w) chatId body_text) as H.
  destruct (telegram_sendMessage R (clock w) chatId body_text);
    [contradiction | reflexivity].
Qed.

Lemma on_update_returns update w :
  fst (Poller.on_update R env jobs token chatId update w) = Ret tt.
Proof.
  unfold Poller.on_update.
  destruct (message update) as [msg|]; [| reflexivity].
  destruct (decide _); [reflexivity |].
  destruct (decide _); [apply poller_sendMessage_returns |].
  destruct (decide _); [| reflexivity].
  unfold bind at 1.
  pose proof (poller_sendMessage_returns "⚡ Triggering monitor workflows..." w)
    as H0.
  destruct (Poller.sendMessage R token chatId _ w) as [r0 w1]; simpl in H0.
  subst r0. unfold try_catch.
  destruct ((for_of (Poller.dispatchWorkflow R env) jobs ;;
             Poller.sendMessage R token chatId
               "✅ Monitor workflows dispatched.") w1)
    as [[[]|err|] w2] eqn:Hbody; [reflexivity | |].
  - unfold bind, console, emit. apply poller_sendMessage_returns.
  - exfalso. unfold bind in Hbody.
    destruct (for_of_trigger_loop (Poller.dispatchWorkflow R env) id jobs
                (poller_dispatch_step R env) w1)
      as (evs & _ & _ & _ & Hl).
    destruct (for_of (Poller.dispatchWorkflow R env) jobs w1)
      as [[[]|err|] w3]; simpl in Hl.
    + pose proof (poller_sendMessage_returns
                    "✅ Monitor workflows dispatched." w3) as H1.
      rewrite Hbody in H1. discriminate H1.
    + discriminate Hbody.
    + destruct Hl as [[Hl _] | (err & ? & ? & ? & Hl & _)]; discriminate Hl.
Qed.

Lemma process_updates_returns updates n w :
  fst (Poller.process_updates R env jobs token chatId updates n w)
  = Ret (highest n updates).
Proof.
  revert n w. induction updates as [|u us IH]; intros n w; simpl;
    [reflexivity |].
  unfold bind. pose proof (on_update_returns u w) as H.
  destruct (Poller.on_update R env jobs token chatId u w) as [r w1].
  simpl in H. subst r. apply IH.
Qed.
End PollerLoop.

(** *** Persisting the offset (C2, C3, C4) *)

(** C2, as the code has it. For a fetched non-empty batch, when no
    notification send of the cycle ends in a network error, the cycle
    returns and the highest update identifier is persisted, whatever the
    triggers do (a failed trigger is caught) and whatever status the
    messaging API answers to a send (its response is not inspected); every
    update of the batch then lies below the next fetch boundary. *)
Theorem offset_persisted_when_sends_get_a_reply
    (R : Remote) (env : Env) (w : World) (p st : Z)
    (B : list TelegramUpdate) :
  default "" (TELEGRAM_TOKEN env) <> "" ->
  default "" (TELEGRAM_CHAT_ID env) <> "" ->
  offset_on_disk (disk w) = Some p ->
  telegram_getUpdates R (clock w) (p + 1) = UpdatesHttp st (Some (true, B)) ->
  JS.status_ok st = true ->
  B <> [] ->
  (forall t chat body_text, telegram_sendMessage R t chat body_text <> NetworkError) ->
  fst (Poller.main R env w) = Ret tt
  /\ offset_on_disk (disk (snd (Poller.main R env w))) = Some (highest p B)
  /\ Forall (fun u => update_id u < highest p B + 1) B.
Proof.
  intros Htok Hchat Hp Hr Hok HB Hsend. unfold Poller.main.
  rewrite (main_cycle R env Poller.MONITOR_WORKFLOWS Htok Hchat w p st B Hp Hr Hok HB).
  pose proof (process_updates_returns R env Poller.MONITOR_WORKFLOWS
                (default "" (TELEGRAM_TOKEN env))
                (default "" (TELEGRAM_CHAT_ID env)) Hsend B p
                (waited R (EvGetUpdates (p + 1) (UpdatesHttp st (Some (true, B)))) w))
    as Hloop.
  destruct (Poller.process_updates _ _ _ _ _ _ _ _) as [r w2]. simpl in Hloop.
  subst r. simpl. split; [reflexivity |].
  split; [apply offset_on_disk_persisted |].
  eapply Forall_impl; [apply (highest_bounds p B) |].
  intros u Hu. simpl in Hu. lia.
Qed.

(** C3, as the code has it. For a previously persisted offset [p] and a
    fetched batch [B], when the cycle runs to its end the offset read back
    from the store is [max p (max of the update identifiers of B)] for a
    non-empty [B], whatever the updates are (from the operator or not, with
    or without a message), and [p] for an empty [B] (provided no other
    process rewrites the reserved key meanwhile). *)
Theorem offset_after_completed_cycle
    (R : Remote) (env : Env) (w : World) (p st : Z)
    (B : list TelegramUpdate) :
  default "" (TELEGRAM_TOKEN env) <> "" ->
  default "" (TELEGRAM_CHAT_ID env) <> "" ->
  offset_on_disk (disk w) = Some p ->
  telegram_getUpdates R (clock w) (p + 1) = UpdatesHttp st (Some (true, B)) ->
  JS.status_ok st = true ->
  reserved_key_untouched R ->
  fst (Poller.main R env w) = Ret tt ->
  offset_on_disk (disk (snd (Poller.main R env w)))
  = Some match B with
         | [] => p
         | u :: us => Z.max p (max_update_id u us)
         end.
Proof.
  intros Htok Hchat Hp Hr Hok Hkey Hret. unfold Poller.main in *.
  destruct B as [|u us].
  - rewrite (main_empty R env Poller.MONITOR_WORKFLOWS Htok Hchat w p st Hp Hr Hok).
    simpl. unfold offset_on_disk, Poller.lastId_of in *.
    rewrite Hkey. exact Hp.
  - assert (HB : u :: us <> []) by discriminate.
    rewrite (main_cycle R env Poller.MONITOR_WORKFLOWS Htok Hchat w p st _
               Hp Hr Hok HB) in *.
    destruct (Poller.process_updates _ _ _ _ _ _ _ _) as [[n|e|] w2] eqn:Hloop;
      try discriminate Hret.
    apply process_updates_value in Hloop. subst n. cbn [snd].
    rewrite offset_on_disk_persisted, highest_max. reflexivity.
Qed.

(** C4. When the poller persists the offset, the store it writes is the
    store as read again just before the write with only the reserved key
    replaced: every other key keeps the value it has on disk at that
    moment, and, when no other process writes the file during the cycle,
    the value it had when the cycle began. *)
Theorem persist_preserves_other_keys
    (R : Remote) (env : Env) (w : World) (p st : Z)
    (B : list TelegramUpdate) :
  let token := default "" (TELEGRAM_TOKEN env) in
  let chatId := default "" (TELEGRAM_CHAT_ID env) in
  let fetched := waited R (EvGetUpdates (p + 1) (UpdatesHttp st (Some (true, B)))) w in
  let reread :=
    Poller.state_of_disk
      (disk (snd (Poller.process_updates R env Poller.MONITOR_WORKFLOWS
                    token chatId B p fetched))) in
  token <> "" ->
  chatId <> "" ->
  offset_on_disk (disk w) = Some p ->
  telegram_getUpdates R (clock w) (p + 1) = UpdatesHttp st (Some (true, B)) ->
  JS.status_ok st = true ->
  B <> [] ->
  fst (Poller.main R env w) = Ret tt ->
  disk (snd (Poller.main R env w))
  = FileObject (<[Poller.BOT_UPDATE_KEY := JS.String_of_number (highest p B)]>
                  reread)
  /\ (forall k, k <> Poller.BOT_UPDATE_KEY ->
        Poller.state_of_disk (disk (snd (Poller.main R env w))) !! k
        = reread !! k)
  /\ (quiet R ->
      forall k, k <> Poller.BOT_UPDATE_KEY ->
        Poller.state_of_disk (disk (snd (Poller.main R env w))) !! k
        = Poller.state_of_disk (disk w) !! k).
Proof.
  intros token chatId fetched reread Htok Hchat Hp Hr Hok HB Hret.
  unfold Poller.main in *.
  rewrite (main_cycle R env Poller.MONITOR_WORKFLOWS Htok Hchat w p st B
             Hp Hr Hok HB) in *.
  fold token chatId fetched in Hret |- *.
  assert (Hdisk : quiet R ->
            disk (snd (Poller.process_updates R env Poller.MONITOR_WORKFLOWS
                         token chatId B p fetched)) = disk w).
  { intros Hq.
    rewrite (process_updates_keeps_disk R env Poller.MONITOR_WORKFLOWS
               token chatId B p Hq fetched).
    unfold fetched. simpl. apply Hq. }
  subst reread.
  destruct (Poller.process_updates _ _ _ _ _ _ _ _) as [[n|e|] w2] eqn:Hloop;
    try discriminate Hret.
  apply process_updates_value in Hloop. subst n. simpl in *.
  split; [reflexivity |]. split.
  - intros k Hk. apply lookup_insert_ne. congruence.
  - intros Hq k Hk. rewrite lookup_insert_ne by congruence.
    rewrite (Hdisk Hq). reflexivity.
Qed.

(** *** Logging of failed sends (C9) *)

Lemma existsb_log_app evs1 e evs2 :
  existsb is_error_log (evs1 ++ EvConsole (LogError e) :: evs2) = true.
Proof.
  rewrite existsb_app. simpl. apply orb_true_iff. right. reflexivity.
Qed.

Lemma failures_logged_app failed evs1 evs2 :
  failures_logged failed evs1 = true ->
  failures_logged failed evs2 = true ->
  failures_logged failed (evs1 ++ evs2) = true.
Proof.
  intros H1 H2. induction evs1 as [|ev evs1 IH]; simpl in *; [exact H2 |].
  apply andb_true_iff in H1 as [Hev Hrest].
  apply andb_true_iff. split; [| apply IH, Hrest].
  destruct (failed_send failed ev); [| reflexivity].
  rewrite existsb_app, Hev. reflexivity.
Qed.

(** Whatever was sent before, an error log accounts for it. *)
Lemma failures_logged_then_log failed evs1 e evs2 :
  failures_logged failed evs2 = true ->
  failures_logged failed (evs1 ++ EvConsole (LogError e) :: evs2) = true.
Proof.
  intros H2. induction evs1 as [|ev evs1 IH]; simpl.
  - exact H2.
  - apply andb_true_iff. split; [| exact IH].
    destruct (failed_send failed ev); [| reflexivity].
    apply existsb_log_app.
Qed.

Lemma failures_logged_no_send failed evs :
  Forall (fun ev => is_notification ev = false) evs ->
  failures_logged failed evs = true.
Proof.
  induction 1 as [|ev evs Hev _ IH]; simpl; [reflexivity |].
  rewrite IH. destruct ev; simpl in *; try reflexivity. discriminate Hev.
Qed.

Lemma accounted_of_only failed {A} (m : M A) :
  adds m (only (fun ev => is_notification ev = false)) ->
  adds m (accounted failed).
Proof.
  intros H. eapply adds_weaken; [exact H |].
  intros r evs [_ Hall]. right. apply failures_logged_no_send, Hall.
Qed.

Lemma accounted_ret failed {A} (a : A) : adds (ret a) (accounted failed).
Proof. apply adds_ret. right. reflexivity. Qed.

Lemma accounted_throw failed {A} e : adds (@throw A e) (accounted failed).
Proof. apply adds_throw. left. eauto. Qed.

Lemma accounted_bind failed {A B} (m : M A) (k : A -> M B) :
  adds m (accounted failed) -> (forall a, adds (k a) (accounted failed)) ->
  adds (bind m k) (accounted failed).
Proof.
  intros Hm Hk.
  apply (adds_bind m k (accounted failed) (fun _ => accounted failed));
    [exact Hm | exact Hk | | |].
  - intros a evs1 r evs2 [(e & He) | H1] [H2 | H2]; try discriminate He.
    + left. exact H2.
    + right. apply failures_logged_app; assumption.
  - intros e evs _. left. eauto.
  - intros evs [(e & He) | H]; [discriminate He | right; exact H].
Qed.

(** A handler that starts by logging the error accounts for every send
    that failed inside the [try]. *)
Lemma accounted_try_catch failed {A} (body : M A) (handler : JS.exn -> M A) :
  adds body (accounted failed) ->
  (forall e, adds (handler e)
               (fun r evs => exists rest,
                             evs = EvConsole (LogError e) :: rest
                             /\ accounted failed r rest)) ->
  adds (try_catch body handler) (accounted failed).
Proof.
  intros Hb Hh.
  apply (adds_try_catch body handler (accounted failed)
           (fun e r evs => exists rest,
                             evs = EvConsole (LogError e) :: rest
                             /\ accounted failed r rest));
    [exact Hb | exact Hh | | |].
  - intros e evs1 r evs2 _ (rest & -> & [Hr | Hr]); [left; exact Hr |].
    right. apply failures_logged_then_log, Hr.
  - intros a evs H. exact H.
  - intros evs H. exact H.
Qed.

Lemma logs_then {A} failed e (h : M A) :
  adds h (accounted failed) ->
  adds (console (LogError e) ;; h)
       (fun r evs => exists rest,
                       evs = EvConsole (LogError e) :: rest
                       /\ accounted failed r rest).
Proof.
  intros Hh w. unfold bind, console, emit.
  set (w1 := {| trace := trace w ++ [EvConsole (LogError e)];
                disk := disk w; headersSent := headersSent w |}).
  destruct (Hh w1) as (rest & Ht & Hhd & Hacc).
  exists (EvConsole (LogError e) :: rest).
  split; [rewrite Ht; unfold w1; simpl; rewrite <- app_assoc; reflexivity |].
  split; [intros H; apply Hhd; exact H |].
  exists rest. split; [reflexivity | exact Hacc].
Qed.

Lemma accounted_for_of failed {A} (body : A -> M unit) (xs : list A) :
  (forall x, adds (body x) (accounted failed)) ->
  adds (for_of body xs) (accounted failed).
Proof.
  intros Hb. induction xs as [|x xs IH]; simpl.
  - apply accounted_ret.
  - apply accounted_bind; [apply Hb | intros _; exact IH].
Qed.

Lemma accounted_await_other failed R {A} (reply : nat -> A) (ev : A -> Event) :
  (forall a, is_notification (ev a) = false) ->
  adds (await_fetch R reply ev) (accounted failed).
Proof.
  intros H. apply accounted_of_only, adds_only_await. exact H.
Qed.

(** In the webhook server a send that fails throws. *)
Lemma webhook_send_accounted R env body_text :
  adds (Webhook.sendTelegramMessage R env body_text) (accounted transport_failed).
Proof.
  intros w. unfold Webhook.sendTelegramMessage.
  destruct (_ || _)%bool.
  { exists []. simpl. rewrite app_nil_r. split; [reflexivity |].
    split; [auto |]. left. eauto. }
  unfold fetch_sendMessage, await_fetch, bind.
  set (chat := default "" (TELEGRAM_CHAT_ID env)).
  exists [EvSendMessage chat body_text
            (telegram_sendMessage R (clock w) chat body_text)].
  destruct (telegram_sendMessage R (clock w) chat body_text) as [|st b]; simpl.
  - split; [reflexivity |]. split; [auto |]. left. eauto.
  - destruct (JS.status_ok st) eqn:Hok; simpl.
    + split; [reflexivity |]. split; [auto |]. right.
      unfold failures_logged, failed_send, transport_failed, reply_ok.
      rewrite Hok. reflexivity.
    + split; [reflexivity |]. split; [auto |]. left. eauto.
Qed.

(** In the poller a send throws only on a network error. *)
Lemma poller_send_accounted R token chat body_text :
  adds (Poller.sendMessage R token chat body_text) (accounted network_failed).
Proof.
  intros w. unfold Poller.sendMessage, fetch_sendMessage, await_fetch, bind.
  exists [EvSendMessage chat body_text
            (telegram_sendMessage R (clock w) chat body_text)].
  destruct (telegram_sendMessage R (clock w) chat body_text) as [|st b]; simpl.
  - split; [reflexivity |]. split; [auto |]. left. eauto.
  - split; [reflexivity |]. split; [auto |]. right. reflexivity.
Qed.

Lemma webhook_dispatch_silent R env f :
  adds (Webhook.dispatchWorkflow R env f) (only silent).
Proof.
  unfold Webhook.dispatchWorkflow.
  apply adds_only_bind; [apply githubContext_only |]. intros ctx.
  apply adds_only_bind.
  - apply adds_only_await. intros a. reflexivity.
  - intros [|st b]; [apply adds_only_throw |].
    destruct (negb _); [apply adds_only_throw | apply adds_only_ret].
Qed.

Lemma poller_dispatch_silent R env f :
  adds (Poller.dispatchWorkflow R env f) (only silent).
Proof.
  unfold Poller.dispatchWorkflow.
  destruct (_ || _)%bool; [apply adds_only_throw |].
  apply adds_only_bind.
  - apply adds_only_await. intros a. reflexivity.
  - intros [|st b]; [apply adds_only_throw |].
    destruct (negb _); [apply adds_only_throw | apply adds_only_ret].
Qed.

Lemma writeJson_silent statusCode payload :
  adds (Webhook.writeJson statusCode payload) (only silent).
Proof.
  intros w. unfold Webhook.writeJson. destruct (headersSent w) eqn:Hh; simpl.
  - exists []. rewrite app_nil_r. split; [reflexivity |]. split; [auto |].
    split; [discriminate | constructor].
  - exists [EvRespond statusCode payload]. split; [reflexivity |].
    split; [auto |]. split; [discriminate | repeat constructor].
Qed.

Section WebhookAccounting.
Variable R : Remote.
Variable env : Env.
Variable toUTCString : string -> string.
Variable workflows : list Webhook.Workflow.
Variable schedule : list nat.

Lemma handleMessage_accounted update :
  adds (Webhook.handleMessage_with R env toUTCString workflows schedule update)
       (accounted transport_failed).
Proof.
  unfold Webhook.handleMessage_with.
  destruct update as [u|]; [| apply accounted_throw].
  destruct (message u) as [msg|]; [| apply accounted_ret].
  destruct (negb _); [apply accounted_ret |].
  destruct (decide _); [apply accounted_ret |].
  destruct (decide _); [apply webhook_send_accounted |].
  destruct (decide _).
  { apply accounted_bind; [apply webhook_send_accounted |]. intros _.
    apply accounted_try_catch.
    - apply accounted_bind; [| intros _; apply webhook_send_accounted].
      apply accounted_of_only, adds_only_for_of.
      intros x. apply webhook_dispatch_silent.
    - intros err. apply logs_then, webhook_send_accounted. }
  destruct (decide _); [| apply accounted_ret].
  apply accounted_try_catch.
  - apply accounted_bind.
    + apply accounted_of_only, adds_only_start_all. intros x.
      apply adds_only_bind; [| intros run; apply adds_only_ret].
      apply getLatestWorkflowRun_only. intros; reflexivity.
    + intros ps. apply accounted_bind.
      * apply accounted_of_only, adds_only_Promise_all.
      * intros sts. apply webhook_send_accounted.
  - intros err. apply logs_then, webhook_send_accounted.
Qed.

Lemma listener_accounted req :
  adds (Webhook.listener_with R env toUTCString workflows schedule req)
       (accounted transport_failed).
Proof.
  unfold Webhook.listener_with.
  apply accounted_try_catch.
  - destruct (_ && _)%bool; [apply accounted_of_only, writeJson_silent |].
    destruct (_ || _)%bool; [apply accounted_of_only, writeJson_silent |].
    destruct (_ && _)%bool; [apply accounted_of_only, writeJson_silent |].
    apply accounted_bind.
    + unfold Webhook.readJsonBody.
      destruct (Webhook.body req);
        [apply accounted_ret | apply accounted_throw | apply accounted_ret].
    + intros payload. apply accounted_bind;
        [apply accounted_of_only, writeJson_silent |].
      intros _. apply handleMessage_accounted.
  - intros err. apply logs_then. intros w.
    destruct (negb (headersSent w)) eqn:Hh.
    + destruct (writeJson_silent 500 PayloadServerError w)
        as (evs & Ht & Hhd & _ & Hall).
      exists evs. split; [exact Ht |]. split; [exact Hhd |].
      right. apply failures_logged_no_send, Hall.
    + exists []. simpl. rewrite app_nil_r. split; [reflexivity |].
      split; [auto |]. right. reflexivity.
Qed.

Lemma listener_tracked req :
  adds (Webhook.listener_with R env toUTCString workflows schedule req)
       (only (fun _ => True)).
Proof.
  assert (Hw : forall c p, adds (Webhook.writeJson c p) (only (fun _ => True))).
  { intros c p. eapply adds_weaken; [apply writeJson_silent |].
    intros r evs [Hnu _]. split; [exact Hnu |].
    apply Forall_forall. trivial. }
  unfold Webhook.listener_with.
  apply adds_only_try_catch.
  - destruct (_ && _)%bool; [apply Hw |].
    destruct (_ || _)%bool; [apply Hw |].
    destruct (_ && _)%bool; [apply Hw |].
    apply adds_only_bind.
    + unfold Webhook.readJsonBody.
      destruct (Webhook.body req);
        [apply adds_only_ret | apply adds_only_throw | apply adds_only_ret].
    + intros payload. apply adds_only_bind; [apply Hw |].
      intros _. eapply adds_weaken; [apply handleMessage_only |].
      intros r evs [Hnu _]. split; [exact Hnu |].
      apply Forall_forall. trivial.
  - intros err. apply adds_only_bind; [apply adds_only_console; exact I |].
    intros _ w. destruct (negb (headersSent w)); [apply Hw |].
    exists []. simpl. rewrite app_nil_r. split; [reflexivity |].
    split; [auto |]. split; [discriminate | constructor].
Qed.

(** The listener never lets an exception escape. *)
Lemma listener_returns req w :
  fst (Webhook.listener_with R env toUTCString workflows schedule req w)
  = Ret tt.
Proof.
  destruct (listener_tracked req w) as (evs & _ & _ & Hnu & _).
  revert Hnu. unfold Webhook.listener_with, try_catch.
  match goal with |- context [match ?body w with _ => _ end] =>
    destruct (body w) as [[[]|e|] w1] end; simpl.
  - reflexivity.
  - intros _. unfold bind, console, emit, Webhook.writeJson.
    cbn [headersSent].
    destruct (headersSent w1); reflexivity.
  - intros H. contradiction.
Qed.
End WebhookAccounting.

Section PollerAccounting.
Variable R : Remote.
Variable env : Env.
Variable jobs : list string.

Lemma on_update_accounted token chatId update :
  adds (Poller.on_update R env jobs token chatId update)
       (accounted network_failed).
Proof.
  unfold Poller.on_update.
  destruct (message update) as [msg|]; [| apply accounted_ret].
  destruct (decide _); [apply accounted_ret |].
  destruct (decide _); [apply poller_send_accounted |].
  destruct (decide _); [| apply accounted_ret].
  apply accounted_bind; [apply poller_send_accounted |]. intros _.
  apply accounted_try_catch.
  - apply accounted_bind; [| intros _; apply poller_send_accounted].
    apply accounted_of_only, adds_only_for_of.
    intros x. apply poller_dispatch_silent.
  - intros err. apply logs_then, poller_send_accounted.
Qed.

Lemma process_updates_accounted token chatId updates n :
  adds (Poller.process_updates R env jobs token chatId updates n)
       (accounted network_failed).
Proof.
  revert n. induction updates as [|u us IH]; intros n; simpl.
  - apply accounted_ret.
  - apply accounted_bind; [apply on_update_accounted | intros _; apply IH].
Qed.

Lemma main_accounted :
  adds (Poller.main_with R env jobs) (accounted network_failed).
Proof.
  unfold Poller.main_with.
  destruct (_ || _)%bool.
  { apply accounted_of_only, adds_only_console. reflexivity. }
  apply accounted_bind.
  { intros w. exists []. simpl. rewrite app_nil_r.
    split; [reflexivity |]. split; [auto |]. right. reflexivity. }
  intros state. destruct (Poller.lastId_of state) as [lastId|].
  2:{ intros w. exists []. simpl. rewrite app_nil_r.
      split; [reflexivity |]. split; [auto |]. right. reflexivity. }
  apply accounted_bind.
  { apply accounted_await_other. intros a. reflexivity. }
  intros [|st [[ok result]|]]; [apply accounted_throw | |].
  - destruct (negb _); [apply accounted_ret |].
    destruct (_ || _)%bool; [apply accounted_ret |].
    apply accounted_bind; [apply process_updates_accounted |].
    intros n. apply accounted_bind.
    { intros w. exists []. simpl. rewrite app_nil_r.
      split; [reflexivity |]. split; [auto |]. right. reflexivity. }
    intros fresh w. exists [EvWriteFile (<[Poller.BOT_UPDATE_KEY :=
                                JS.String_of_number n]> fresh)].
    simpl. split; [reflexivity |]. split; [auto |]. right. reflexivity.
  - destruct (negb _); [apply accounted_ret | apply accounted_throw].
Qed.

Lemma run_accounted :
  adds (try_catch (Poller.main_with R env jobs)
                  (fun error => console (LogError error)))
       (accounted network_failed).
Proof.
  apply accounted_try_catch; [apply main_accounted |].
  intros err. apply adds_emit. exists []. split; [reflexivity |].
  right. reflexivity.
Qed.
End PollerAccounting.

(** *** The command vocabulary of the two programs (C1) *)

Lemma trace_grows (tr evs : list Event) : evs <> [] -> tr ++ evs <> tr.
Proof.
  intros Hne Heq. apply Hne. apply (app_inv_head tr).
  rewrite app_nil_r. exact Heq.
Qed.

Lemma app_not_nil_r {A} (xs ys : list A) : ys <> [] -> xs ++ ys <> [].
Proof. intros H Heq. apply app_eq_nil in Heq as [_ Heq]. contradiction. Qed.

Lemma trigger_shape_not_nil jobs evs : trigger_shape jobs evs -> evs <> [].
Proof.
  intros [(c & r0 & ->)
         | [(c & r0 & loop & r1 & after & -> & _)
           | (c & r0 & loop & e & r1 & done & b & todo & -> & _)]];
    discriminate.
Qed.

Lemma String_of_number_not_empty n : JS.String_of_number n <> "".
Proof.
  intros H. pose proof (Number_of_String n) as Hn. rewrite H in Hn.
  discriminate Hn.
Qed.

Lemma webhook_status_acts R env toUTCString workflows schedule :
  default "" (TELEGRAM_TOKEN env) <> "" ->
  default "" (TELEGRAM_CHAT_ID env) <> "" ->
  adds (try_catch
          (promises <-
             Webhook.start_all
               (fun workflow =>
                  run <- Webhook.getLatestWorkflowRun R env (Webhook.file workflow) ;;
                  ret (Webhook.label workflow, run))
               workflows ;;
           statuses <- Webhook.Promise_all schedule promises ;;
           Webhook.sendTelegramMessage R env
             (JS.join JS.newline
                ("📊 Monitor status"
                 :: map (Webhook.status_line toUTCString) statuses)))
          (fun error =>
             console (LogError error) ;;
             Webhook.sendTelegramMessage R env
               "❌ Failed to fetch workflow status."))
       (fun _ evs => evs <> []).
Proof.
  intros Htok Hchat.
  set (acts := fun (r : Res unit) (evs : list Event) =>
                 r <> Untracked /\ (forall a, r = Ret a -> evs <> [])).
  apply (adds_try_catch _ _ acts (fun _ _ evs => evs <> [])).
  - apply (adds_bind _ _ (only (fun _ => True)) (fun _ => acts)).
    + apply adds_only_start_all. intros x.
      apply adds_only_bind; [| intros run; apply adds_only_ret].
      apply getLatestWorkflowRun_only. intros; exact I.
    + intros ps.
      apply (adds_bind _ _ (only (fun _ => True)) (fun _ => acts)).
      * apply adds_only_Promise_all.
      * intros sts. eapply adds_weaken;
          [apply (webhook_sendTelegramMessage_sends R env _ Htok Hchat) |].
        intros r evs [Hnu (reply & ->)]. split; [exact Hnu |]. discriminate.
      * intros a evs1 r evs2 _ [Hnu Hne]. split; [exact Hnu |].
        intros a' Hr. apply app_not_nil_r. eauto.
      * intros e evs _. split; discriminate.
      * intros evs [Hnu _]. contradiction.
    + intros a evs1 r evs2 _ [Hnu Hne]. split; [exact Hnu |].
      intros a' Hr. apply app_not_nil_r. eauto.
    + intros e evs _. split; discriminate.
    + intros evs [Hnu _]. contradiction.
  - intros err. eapply adds_weaken;
      [apply (logs_then transport_failed), webhook_send_accounted |].
    intros r evs (rest & -> & _). discriminate.
  - intros e evs1 r evs2 _ Hne. apply app_not_nil_r, Hne.
  - intros a evs [_ Hne]. eauto.
  - intros evs [Hnu _]. contradiction.
Qed.

(** ** The theorems at concrete inputs *)

Lemma unauthorized_update_is_dropped_witness :
  let R := Scenario.remote [] Scenario.delivered Scenario.accepted
             Scenario.no_runs in
  let u := Scenario.update 9 7 "/trigger" in
  let w := initial FileAbsent in
  ~ from_operator "42" u
  /\ Poller.on_update R Scenario.env Poller.MONITOR_WORKFLOWS "123:abc" "42" u w
     = (Ret tt, w)
  /\ Webhook.handleMessage_with R Scenario.env Scenario.utc
       Webhook.MONITOR_WORKFLOWS [] (Some u) w = (Ret tt, w).
Proof.
  intros R u w.
  assert (H : ~ from_operator "42" u).
  { intros (msg & Hmsg & Hid). inversion Hmsg; subst msg. discriminate Hid. }
  split; [exact H |].
  destruct (unauthorized_update_is_dropped R Scenario.env Scenario.utc []
              Poller.MONITOR_WORKFLOWS Webhook.MONITOR_WORKFLOWS
              "123:abc" "42" u w H) as [Hp Hw].
  split; [exact Hp | apply Hw; reflexivity].
Defined.

Lemma webhook_acknowledges_before_command_witness :
  let R := Scenario.remote [] Scenario.delivered Scenario.accepted
             Scenario.only_B_ran in
  let u := Scenario.update 7 42 "/status" in
  let req := Scenario.post (Webhook.BodyJson u) None in
  let w := initial FileAbsent in
  exists rest,
    trace (snd (Webhook.listener_with R Scenario.env Scenario.utc
                  Webhook.MONITOR_WORKFLOWS [] req w))
    = trace w ++ EvRespond 200 PayloadOk :: rest
    /\ Forall is_command_effect rest.
Proof.
  intros R u req w.
  refine (proj2 (webhook_acknowledges_before_command R Scenario.env Scenario.utc
                   Webhook.MONITOR_WORKFLOWS [] req (Some u) w
                   eq_refl eq_refl _ eq_refl eq_refl)).
  intros H. discriminate H.
Defined.

Lemma no_secret_no_header_check_witness :
  let R := Scenario.remote [] Scenario.delivered Scenario.accepted
             Scenario.only_B_ran in
  let u := Scenario.update 7 42 "/test" in
  let req := Scenario.post (Webhook.BodyJson u) (Some "not the secret") in
  let w := initial FileAbsent in
  Webhook.listener_with R Scenario.env Scenario.utc Webhook.MONITOR_WORKFLOWS []
    req w
  = caught (Webhook.handleMessage_with R Scenario.env Scenario.utc
              Webhook.MONITOR_WORKFLOWS [] (Some u) (acknowledged w))
  /\ Webhook.listener_with R Scenario.env Scenario.utc Webhook.MONITOR_WORKFLOWS
       [] (with_secret_token None req) w
     = Webhook.listener_with R Scenario.env Scenario.utc
         Webhook.MONITOR_WORKFLOWS [] req w.
Proof.
  intros R u req w.
  destruct (no_secret_no_header_check R Scenario.env Scenario.utc
              Webhook.MONITOR_WORKFLOWS [] req w
              eq_refl eq_refl eq_refl eq_refl) as (Hh & Hadm & _).
  split; [apply Hadm; reflexivity | apply Hh].
Defined.

Lemma status_report_in_declared_order_witness :
  let R := Scenario.remote [] Scenario.delivered Scenario.accepted
             Scenario.only_B_ran in
  let u := Scenario.update 7 42 " /status " in
  let w := initial FileAbsent in
  let report :=
    JS.join JS.newline
      [ "📊 Monitor status";
        "• <b>A</b>: no runs yet";
        "• <b>B</b>: success (schedule, 2024-05-01T10:00:00Z)" ] in
  (* the query for [B] completes first *)
  trace (snd (Webhook.handleMessage_with R Scenario.env Scenario.utc
                [Scenario.job_A; Scenario.job_B] [1%nat; 0%nat] (Some u) w))
  = [ EvListRuns "owner/repo" "A.yml" (RunsHttp 200 "" (Some (Some [])));
      EvListRuns "owner/repo" "B.yml"
        (RunsHttp 200 "" (Some (Some [Scenario.a_run])));
      EvSendMessage "42" report (HttpResponse 200 "{}") ].
Proof.
  intros R u w report.
  assert (Hop : from_operator "42" u).
  { exists {| chat_id := 42; text := Some (JS.lit " /status ") |}.
    split; reflexivity. }
  destruct (status_report_in_declared_order R Scenario.env Scenario.utc
              Scenario.job_A Scenario.job_B u w 200 200 "" ""
              (Some []) (Some [Scenario.a_run]) Scenario.a_run
              ltac:(discriminate) ltac:(discriminate) ltac:(discriminate)
              ltac:(discriminate) Hop eq_refl eq_refl eq_refl eq_refl
              eq_refl eq_refl eq_refl [1%nat; 0%nat])
    as (rest & Ht & Hrest).
  rewrite (Hrest eq_refl) in Ht. exact Ht.
Defined.

(** The same run, computed: [A] is triggered, [B] is triggered and fails,
    [C] is not triggered, and the notifications are the starting notice
    and one failure notice. *)
Example trigger_A_B_C_with_B_failing :
  let R := Scenario.remote [] Scenario.delivered Scenario.B_fails
             Scenario.no_runs in
  let u := Scenario.update 8 42 "/trigger" in
  let poller :=
    trace (snd (Poller.on_update R Scenario.env Scenario.jobs_ABC
                  "123:abc" "42" u (initial FileAbsent))) in
  let webhook :=
    trace (snd (Webhook.handleMessage_with R Scenario.env Scenario.utc
                  Scenario.workflows_ABC [] (Some u) (initial FileAbsent))) in
  triggers poller = [("A.yml", true); ("B.yml", false)]
  /\ notifications poller = [start_text; failure_text]
  /\ triggers webhook = [("A.yml", true); ("B.yml", false)]
  /\ notifications webhook = [start_text; failure_text].
Proof. vm_compute. repeat split. Qed.

Lemma offset_persisted_when_sends_get_a_reply_witness :
  (* the trigger is refused and so is every notification *)
  let B := [Scenario.update 6 42 "/trigger"] in
  let R := Scenario.remote B Scenario.refused Scenario.B_fails
             Scenario.no_runs in
  let w := initial Scenario.store_5 in
  fst (Poller.main R Scenario.env w) = Ret tt
  /\ offset_on_disk (disk (snd (Poller.main R Scenario.env w))) = Some 6
  /\ Forall (fun u => update_id u < 6 + 1) B.
Proof.
  intros B R w.
  refine (offset_persisted_when_sends_get_a_reply R Scenario.env w 5 200 B
            _ _ eq_refl eq_refl eq_refl _ _); discriminate.
Defined.

Lemma offset_after_completed_cycle_witness :
  (* one update without a message, one from somebody else *)
  let B := [Scenario.bare_update 6; Scenario.update 7 99 "/test"] in
  let R := Scenario.remote B Scenario.delivered Scenario.accepted
             Scenario.no_runs in
  let w := initial Scenario.store_5 in
  fst (Poller.main R Scenario.env w) = Ret tt
  /\ offset_on_disk (disk (snd (Poller.main R Scenario.env w))) = Some 7.
Proof.
  intros B R w.
  assert (Hret : fst (Poller.main R Scenario.env w) = Ret tt)
    by (vm_compute; reflexivity).
  split; [exact Hret |].
  refine (offset_after_completed_cycle R Scenario.env w 5 200 B
            _ _ eq_refl eq_refl eq_refl _ Hret); try discriminate.
  intros t d. reflexivity.
Defined.

Lemma persist_preserves_other_keys_witness :
  (* the store of the example: offset 5 and an unrelated key *)
  let B := [Scenario.bare_update 6; Scenario.update 7 42 "/status"] in
  let R := Scenario.remote B Scenario.delivered Scenario.accepted
             Scenario.no_runs in
  let w := initial Scenario.store_5 in
  disk (snd (Poller.main R Scenario.env w)) = Scenario.store_7
  /\ forall k, k <> Poller.BOT_UPDATE_KEY ->
       Poller.state_of_disk (disk (snd (Poller.main R Scenario.env w))) !! k
       = Poller.state_of_disk (disk w) !! k.
Proof.
  intros B R w.
  assert (Hret : fst (Poller.main R Scenario.env w) = Ret tt)
    by (vm_compute; reflexivity).
  destruct (persist_preserves_other_keys R Scenario.env w 5 200 B
              ltac:(discriminate) ltac:(discriminate)
              eq_refl eq_refl eq_refl ltac:(discriminate) Hret)
    as (Hdisk & _ & Hquiet).
  split.
  - rewrite Hdisk. vm_compute. reflexivity.
  - apply Hquiet. intros t d. reflexivity.
Defined.

(** ** Where the specification and the code part *)

(** Against C1: the same "/status" message from the operator. The poller
    polls, does nothing with it and moves the offset; the webhook server
    queries both jobs and sends the report. *)
Lemma poller_has_no_status_command :
  let u := Scenario.update 7 42 "/status" in
  let R := Scenario.remote [u] Scenario.delivered Scenario.accepted
             Scenario.only_B_ran in
  let polled := trace (snd (Poller.run R Scenario.env (initial Scenario.store_5))) in
  let pushed :=
    trace (snd (Webhook.listener R Scenario.env Scenario.utc []
                  (Scenario.post (Webhook.BodyJson u) None)
                  (initial FileAbsent))) in
  existsb is_gateway_call polled = false
  /\ existsb is_notification polled = false
  /\ length (List.filter is_gateway_call pushed) = 2%nat
  /\ length (List.filter is_notification pushed) = 1%nat.
Proof. vm_compute. repeat split. Qed.

(** Against C2: a "/test" from the operator whose reply cannot be sent
    (the request to the messaging API fails). The exception leaves [main]
    before the offset is written: the store still holds 5 although update
    6 was fetched, and the next cycle fetches from 6 again and handles the
    same update a second time. *)
Lemma offset_lost_when_send_raises :
  let B := [Scenario.update 6 42 "/test"] in
  let R := Scenario.remote B Scenario.unreachable Scenario.accepted
             Scenario.no_runs in
  let first := snd (Poller.run R Scenario.env (initial Scenario.store_5)) in
  let second := snd (Poller.run R Scenario.env first) in
  highest 5 B = 6
  /\ offset_on_disk (disk first) = Some 5
  /\ existsb is_file_write (trace second) = false
  /\ polled_offsets (trace second) = [6; 6]
  /\ notifications (trace second)
     = ["✅ Bot is alive and running."; "✅ Bot is alive and running."].
Proof. vm_compute. repeat split. Qed.

(** Against C3: a "/trigger" whose trigger is refused and whose failure
    notice cannot be sent. The batch holds update 12 and the previous
    offset is 10, yet after the cycle the offset is still 10. *)
Lemma offset_not_the_maximum_when_send_raises :
  let u := Scenario.update 12 42 "/trigger" in
  let R := Scenario.remote [u] Scenario.failure_notice_unreachable
             Scenario.refused Scenario.no_runs in
  let after := snd (Poller.run R Scenario.env (initial Scenario.store_10)) in
  offset_on_disk (disk (initial Scenario.store_10)) = Some 10
  /\ Z.max 10 (max_update_id u []) = 12
  /\ offset_on_disk (disk after) = Some 10
  /\ offset_on_disk (disk after) <> Some (Z.max 10 (max_update_id u [])).
Proof. vm_compute. repeat split. discriminate. Qed.


(** * Further properties of the two programs *)

(** ** The poller's store *)

Lemma preserves_ret {A X} (f : Disk -> X) (a : A) : preserves f (ret a).
Proof. intros w. reflexivity. Qed.

Lemma preserves_throw {A X} (f : Disk -> X) e : preserves f (@throw A e).
Proof. intros w. reflexivity. Qed.

Lemma preserves_console {X} (f : Disk -> X) entry : preserves f (console entry).
Proof. intros w. reflexivity. Qed.

Lemma preserves_await R {A X} (f : Disk -> X) (reply : nat -> A)
    (ev : A -> Event) :
  (forall t d, f (other_writers R t d) = f d) ->
  preserves f (await_fetch R reply ev).
Proof. intros Hq w. simpl. apply Hq. Qed.

Lemma preserves_bind {A B X} (f : Disk -> X) (m : M A) (k : A -> M B) :
  preserves f m -> (forall a, preserves f (k a)) -> preserves f (bind m k).
Proof.
  intros Hm Hk w. unfold bind. specialize (Hm w).
  destruct (m w) as [[a|e|] w1]; simpl in *; try exact Hm.
  rewrite (Hk a w1). exact Hm.
Qed.

Lemma preserves_try_catch {A X} (f : Disk -> X) (body : M A)
    (handler : JS.exn -> M A) :
  preserves f body -> (forall e, preserves f (handler e)) ->
  preserves f (try_catch body handler).
Proof.
  intros Hm Hk w. unfold try_catch. specialize (Hm w).
  destruct (body w) as [[a|e|] w1]; simpl in *; try exact Hm.
  rewrite (Hk e w1). exact Hm.
Qed.

Lemma preserves_for_of {A X} (f : Disk -> X) (body : A -> M unit) (xs : list A) :
  (forall x, preserves f (body x)) -> preserves f (for_of body xs).
Proof.
  intros Hb. induction xs as [|x xs IH]; simpl.
  - apply preserves_ret.
  - apply preserves_bind; [apply Hb | intros _; exact IH].
Qed.

Section PollerStore.
Variable R : Remote.
Variable env : Env.
Variable jobs : list string.
Variables token chatId : string.
Variable X : Type.
Variable f : Disk -> X.
Hypothesis others_keep : forall t d, f (other_writers R t d) = f d.

Lemma poller_sendMessage_preserves body_text :
  preserves f (Poller.sendMessage R token chatId body_text).
Proof.
  unfold Poller.sendMessage.
  apply preserves_bind; [apply preserves_await, others_keep |].
  intros [|st b]; [apply preserves_throw | apply preserves_ret].
Qed.

Lemma poller_dispatch_preserves file :
  preserves f (Poller.dispatchWorkflow R env file).
Proof.
  unfold Poller.dispatchWorkflow.
  destruct (_ || _)%bool; [apply preserves_throw |].
  apply preserves_bind; [apply preserves_await, others_keep |].
  intros [|st b]; [apply preserves_throw |].
  destruct (negb _); [apply preserves_throw | apply preserves_ret].
Qed.

Lemma on_update_preserves update :
  preserves f (Poller.on_update R env jobs token chatId update).
Proof.
  unfold Poller.on_update.
  destruct (message update) as [msg|]; [| apply preserves_ret].
  destruct (decide _); [apply preserves_ret |].
  destruct (decide _); [apply poller_sendMessage_preserves |].
  destruct (decide _); [| apply preserves_ret].
  apply preserves_bind; [apply poller_sendMessage_preserves |].
  intros _. apply preserves_try_catch.
  - apply preserves_bind; [| intros _; apply poller_sendMessage_preserves].
    apply preserves_for_of. intros file. apply poller_dispatch_preserves.
  - intros err. apply preserves_bind; [apply preserves_console |].
    intros _. apply poller_sendMessage_preserves.
Qed.

Lemma process_updates_preserves updates n :
  preserves f (Poller.process_updates R env jobs token chatId updates n).
Proof.
  revert n. induction updates as [|u us IH]; intros n; simpl.
  - apply preserves_ret.
  - apply preserves_bind; [apply on_update_preserves | intros _; apply IH].
Qed.
End PollerStore.

Lemma offset_on_disk_entry d :
  offset_on_disk d = JS.Number_of_string (default "0" (reserved_entry d)).
Proof. reflexivity. Qed.

Lemma main_offset_not_below R env jobs w p :
  offset_on_disk (disk w) = Some p ->
  reserved_key_untouched R ->
  exists q, offset_on_disk (disk (snd (Poller.main_with R env jobs w))) = Some q
            /\ p <= q.
Proof.
  intros Hp Hkey.
  assert (Hsame : forall w', reserved_entry (disk w') = reserved_entry (disk w) ->
                    exists q, offset_on_disk (disk w') = Some q /\ p <= q).
  { intros w' He. exists p. rewrite offset_on_disk_entry, He.
    rewrite <- offset_on_disk_entry. split; [exact Hp | lia]. }
  unfold Poller.main_with.
  destruct (_ || _)%bool; [apply Hsame; reflexivity |].
  unfold bind at 1. unfold Poller.loadState at 1.
  change (Poller.lastId_of (Poller.state_of_disk (disk w)))
    with (offset_on_disk (disk w)).
  rewrite Hp. unfold bind at 1. unfold fetch_getUpdates, await_fetch.
  set (reply := telegram_getUpdates R (clock w) (p + 1)).
  set (w1 := waited R (EvGetUpdates (p + 1) reply) w).
  assert (H1 : reserved_entry (disk w1) = reserved_entry (disk w))
    by (apply Hkey).
  destruct reply as [|st [[ok result]|]]; [apply Hsame, H1 | |].
  2:{ destruct (negb _); apply Hsame, H1. }
  destruct (negb _); [apply Hsame, H1 |].
  destruct (_ || _)%bool; [apply Hsame, H1 |].
  unfold bind at 1.
  pose proof (process_updates_preserves R env jobs
                (default "" (TELEGRAM_TOKEN env))
                (default "" (TELEGRAM_CHAT_ID env)) _ reserved_entry Hkey
                result p w1) as H2.
  destruct (Poller.process_updates _ _ _ _ _ _ _ _) as [[n|e|] w2] eqn:Hloop;
    simpl in H2.
  - apply process_updates_value in Hloop. subst n.
    exists (highest p result). split.
    + apply (offset_on_disk_persisted (highest p result) w2).
    + apply highest_ge.
  - apply Hsame. simpl. rewrite H2. exact H1.
  - apply Hsame. simpl. rewrite H2. exact H1.
Qed.

(** X1. The offset in the store never goes down. Whatever the poll cycle
    meets (missing credentials, a failed fetch, an empty or non-empty
    batch, a handler that throws), if the store held offset [p] before
    and no other process rewrites the reserved key, it holds some
    [q >= p] when the program ends. *)
Theorem offset_never_decreases (R : Remote) (env : Env) (w : World) (p : Z) :
  offset_on_disk (disk w) = Some p ->
  reserved_key_untouched R ->
  exists q, offset_on_disk (disk (snd (Poller.run R env w))) = Some q
            /\ p <= q.
Proof.
  intros Hp Hkey. unfold Poller.run, Poller.main, try_catch.
  destruct (main_offset_not_below R env Poller.MONITOR_WORKFLOWS w p Hp Hkey)
    as (q & Hq & Hle).
  destruct (Poller.main_with R env Poller.MONITOR_WORKFLOWS w)
    as [[[]|e|] w1]; simpl in *; eauto.
Qed.

Lemma github_not_configured env :
  github_configured env = false ->
  (negb (JS.truthy (default "" (GITHUB_TOKEN env)))
   || negb (JS.truthy (default "" (GITHUB_REPOSITORY env))))%bool = true.
Proof.
  unfold github_configured.
  destruct (JS.truthy (default "" (GITHUB_TOKEN env))),
           (JS.truthy (default "" (GITHUB_REPOSITORY env)));
    simpl; intros H; try reflexivity; discriminate H.
Qed.

Lemma no_write_of_command_effects evs :
  Forall is_command_effect evs -> existsb is_file_write evs = false.
Proof.
  induction 1 as [|ev evs Hev _ IH]; simpl; [reflexivity |].
  rewrite IH. destruct ev; simpl in *; try reflexivity; contradiction.
Qed.

(** The poller's handlers, for any kind of event that covers what they
    can emit. *)
Section PollerOnly.
Variable R : Remote.
Variable env : Env.
Variable jobs : list string.
Variables token chatId : string.
Variable P : Event -> Prop.
Hypothesis Psend : forall chat body_text r, P (EvSendMessage chat body_text r).
Hypothesis Pconsole : forall entry, P (EvConsole entry).
Hypothesis Pdispatch :
  github_configured env = false
  \/ forall repo file ref r, P (EvDispatch repo file ref r).

Lemma poller_sendMessage_only body_text :
  adds (Poller.sendMessage R token chatId body_text) (only P).
Proof.
  unfold Poller.sendMessage. apply adds_only_bind.
  - apply adds_only_await. intros a. apply Psend.
  - intros [|st b]; [apply adds_only_throw | apply adds_only_ret].
Qed.

Lemma poller_dispatch_only file :
  adds (Poller.dispatchWorkflow R env file) (only P).
Proof.
  unfold Poller.dispatchWorkflow.
  destruct Pdispatch as [Hno | Hev].
  - rewrite (github_not_configured env Hno). apply adds_only_throw.
  - destruct (_ || _)%bool; [apply adds_only_throw |].
    apply adds_only_bind.
    + apply adds_only_await. intros a. apply Hev.
    + intros [|st b]; [apply adds_only_throw |].
      destruct (negb _); [apply adds_only_throw | apply adds_only_ret].
Qed.

Lemma on_update_only update :
  adds (Poller.on_update R env jobs token chatId update) (only P).
Proof.
  unfold Poller.on_update.
  destruct (message update) as [msg|]; [| apply adds_only_ret].
  destruct (decide _); [apply adds_only_ret |].
  destruct (decide _); [apply poller_sendMessage_only |].
  destruct (decide _); [| apply adds_only_ret].
  apply adds_only_bind; [apply poller_sendMessage_only |]. intros _.
  apply adds_only_try_catch.
  - apply adds_only_bind; [| intros _; apply poller_sendMessage_only].
    apply adds_only_for_of. intros file. apply poller_dispatch_only.
  - intros err.
    apply adds_only_bind; [| intros _; apply poller_sendMessage_only].
    apply adds_only_console, Pconsole.
Qed.

Lemma process_updates_only updates n :
  adds (Poller.process_updates R env jobs token chatId updates n) (only P).
Proof.
  revert n. induction updates as [|u us IH]; intros n; simpl.
  - apply adds_only_ret.
  - apply adds_only_bind; [apply on_update_only | intros _; apply IH].
Qed.
End PollerOnly.

Lemma command_effects_cover :
  (forall chat body_text r, is_command_effect (EvSendMessage chat body_text r))
  /\ (forall entry, is_command_effect (EvConsole entry))
  /\ (forall repo file ref r, is_command_effect (EvDispatch repo file ref r)).
Proof. repeat split. Qed.

(** X2. The poller writes the store at most once per cycle, as the last
    thing it does, and only after a fetch that was answered with a
    success status, [ok] and a non-empty batch: the cycle then consists
    of the fetch, the handling of the batch (notifications, triggers,
    console output, nothing else) and the write, which sets the reserved
    key to the highest identifier seen. In every other course of [main]
    the store is not written. *)
Theorem store_written_once_after_successful_fetch
    (R : Remote) (env : Env) (w : World) :
  exists evs,
    trace (snd (Poller.main R env w)) = trace w ++ evs
    /\ (existsb is_file_write evs = false
        \/ exists p st B handled m,
             offset_on_disk (disk w) = Some p
             /\ JS.status_ok st = true
             /\ B <> []
             /\ evs = EvGetUpdates (p + 1) (UpdatesHttp st (Some (true, B)))
                      :: handled ++ [EvWriteFile m]
             /\ Forall is_command_effect handled
             /\ m !! Poller.BOT_UPDATE_KEY
                = Some (JS.String_of_number (highest p B))
             /\ fst (Poller.main R env w) = Ret tt
             /\ disk (snd (Poller.main R env w)) = FileObject m).
Proof.
  set (out := Poller.main R env w).
  assert (Hout : Poller.main R env w = out) by reflexivity. clearbody out.
  revert Hout. unfold Poller.main, Poller.main_with.
  destruct (_ || _)%bool.
  { intros <-. eexists. split; [reflexivity |]. left. reflexivity. }
  unfold bind at 1. unfold Poller.loadState at 1.
  change (Poller.lastId_of (Poller.state_of_disk (disk w)))
    with (offset_on_disk (disk w)).
  destruct (offset_on_disk (disk w)) as [p|] eqn:Hp.
  2:{ intros <-. exists []. rewrite app_nil_r. split; [reflexivity |].
      left. reflexivity. }
  unfold bind at 1. unfold fetch_getUpdates, await_fetch.
  destruct (telegram_getUpdates R (clock w) (p + 1)) as [|st [[ok result]|]].
  { intros <-. eexists. split; [reflexivity |]. left. reflexivity. }
  2:{ destruct (negb _); intros <-;
        (eexists; split; [reflexivity |]; left; reflexivity). }
  destruct (JS.status_ok st) eqn:Hok; cbn [negb].
  2:{ intros <-. eexists. split; [reflexivity |]. left. reflexivity. }
  destruct ok; cbn [negb orb].
  2:{ intros <-. eexists. split; [reflexivity |]. left. reflexivity. }
  destruct result as [|u us]; cbn [length Nat.eqb].
  { intros <-. eexists. split; [reflexivity |]. left. reflexivity. }
  set (B := u :: us).
  set (w1 := waited R (EvGetUpdates (p + 1) (UpdatesHttp st (Some (true, B)))) w).
  unfold bind at 1.
  destruct command_effects_cover as (Hs & Hc & Hd).
  destruct (process_updates_only R env Poller.MONITOR_WORKFLOWS
              (default "" (TELEGRAM_TOKEN env)) (default "" (TELEGRAM_CHAT_ID env))
              is_command_effect Hs Hc (or_intror Hd) B p w1)
    as (handled & Ht & _ & _ & Hall).
  destruct (Poller.process_updates _ _ _ _ _ _ _ _) as [[n|e|] w2] eqn:Hloop;
    simpl in Ht; intros <-.
  - apply process_updates_value in Hloop. subst n.
    exists (EvGetUpdates (p + 1) (UpdatesHttp st (Some (true, B)))
            :: handled
               ++ [EvWriteFile (<[Poller.BOT_UPDATE_KEY :=
                                   JS.String_of_number (highest p B)]>
                                  (Poller.state_of_disk (disk w2)))]).
    split.
    { simpl. rewrite Ht. unfold w1. simpl. rewrite <- !app_assoc. reflexivity. }
    right. exists p, st, B, handled. eexists.
    split; [reflexivity |]. split; [exact Hok |]. split; [discriminate |].
    split; [reflexivity |]. split; [exact Hall |].
    split; [apply lookup_insert_eq |]. split; reflexivity.
  - exists (EvGetUpdates (p + 1) (UpdatesHttp st (Some (true, B))) :: handled).
    split.
    { simpl. rewrite Ht. unfold w1. simpl. rewrite <- !app_assoc. reflexivity. }
    left. simpl. apply no_write_of_command_effects, Hall.
  - exists (EvGetUpdates (p + 1) (UpdatesHttp st (Some (true, B))) :: handled).
    split.
    { simpl. rewrite Ht. unfold w1. simpl. rewrite <- !app_assoc. reflexivity. }
    left. simpl. apply no_write_of_command_effects, Hall.
Qed.

Lemma main_starts_with_fetch R env jobs w q :
  default "" (TELEGRAM_TOKEN env) <> "" ->
  default "" (TELEGRAM_CHAT_ID env) <> "" ->
  offset_on_disk (disk w) = Some q ->
  exists rest,
    trace (snd (Poller.main_with R env jobs w))
    = trace w ++ EvGetUpdates (q + 1) (telegram_getUpdates R (clock w) (q + 1))
                 :: rest.
Proof.
  intros Htok Hchat Hq. unfold Poller.main_with.
  rewrite !truthy_true by assumption. cbn [negb orb].
  unfold bind at 1. unfold Poller.loadState at 1.
  change (Poller.lastId_of (Poller.state_of_disk (disk w)))
    with (offset_on_disk (disk w)).
  rewrite Hq. unfold bind at 1. unfold fetch_getUpdates, await_fetch.
  set (reply := telegram_getUpdates R (clock w) (q + 1)).
  set (w1 := waited R (EvGetUpdates (q + 1) reply) w).
  assert (Hnil : exists rest : list Event,
             trace w1 = trace w ++ EvGetUpdates (q + 1) reply :: rest)
    by (exists []; reflexivity).
  destruct reply as [|st [[ok result]|]]; [exact Hnil | |].
  2:{ destruct (negb _); exact Hnil. }
  destruct (negb _); [exact Hnil |].
  destruct (_ || _)%bool; [exact Hnil |].
  unfold bind at 1.
  destruct (process_updates_accounted R env jobs
              (default "" (TELEGRAM_TOKEN env)) (default "" (TELEGRAM_CHAT_ID env))
              result q w1) as (evs & Ht & _).
  destruct (Poller.process_updates _ _ _ _ _ _ _ _) as [[n|e|] w2];
    simpl in Ht |- *.
  - eexists. rewrite Ht. unfold w1. simpl. rewrite <- !app_assoc. simpl.
    reflexivity.
  - exists evs. rewrite Ht. unfold w1. simpl. rewrite <- !app_assoc. reflexivity.
  - exists evs. rewrite Ht. unfold w1. simpl. rewrite <- !app_assoc. reflexivity.
Qed.

(** X3. What one cycle writes the next one reads. After a cycle that
    handled a non-empty batch [B] and returned, the next run of [main]
    starts by asking [getUpdates] for the offset one past the highest
    identifier of [B] (and of the previous offset), so no update of [B]
    is asked for again. *)
Theorem next_poll_asks_past_the_batch
    (R : Remote) (env : Env) (w : World) (p st : Z)
    (B : list TelegramUpdate) :
  default "" (TELEGRAM_TOKEN env) <> "" ->
  default "" (TELEGRAM_CHAT_ID env) <> "" ->
  offset_on_disk (disk w) = Some p ->
  telegram_getUpdates R (clock w) (p + 1) = UpdatesHttp st (Some (true, B)) ->
  JS.status_ok st = true ->
  B <> [] ->
  fst (Poller.main R env w) = Ret tt ->
  let w1 := snd (Poller.main R env w) in
  let boundary := highest p B + 1 in
  (exists rest,
     trace (snd (Poller.main R env w1))
     = trace w1 ++ EvGetUpdates boundary
                     (telegram_getUpdates R (clock w1) boundary) :: rest)
  /\ Forall (fun u => update_id u < boundary) B.
Proof.
  intros Htok Hchat Hp Hr Hok HB Hret w1 boundary. split.
  - apply main_starts_with_fetch; try assumption.
    subst w1. revert Hret. unfold Poller.main.
    rewrite (main_cycle R env Poller.MONITOR_WORKFLOWS Htok Hchat w p st B
               Hp Hr Hok HB).
    destruct (Poller.process_updates _ _ _ _ _ _ _ _) as [[n|e|] w2] eqn:Hloop;
      intros Hret; try discriminate Hret.
    apply process_updates_value in Hloop. subst n. cbn [snd].
    apply offset_on_disk_persisted.
  - eapply Forall_impl; [apply (highest_bounds p B) |].
    intros u Hu. simpl in Hu. subst boundary. lia.
Qed.

Lemma next_poll_asks_past_the_batch_witness :
  let B := [Scenario.bare_update 6; Scenario.update 7 42 "/status"] in
  let R := Scenario.remote B Scenario.delivered Scenario.accepted
             Scenario.no_runs in
  let w1 := snd (Poller.main R Scenario.env (initial Scenario.store_5)) in
  exists rest,
    trace (snd (Poller.main R Scenario.env w1))
    = trace w1 ++ EvGetUpdates 8 (UpdatesHttp 200 (Some (true, B))) :: rest.
Proof.
  intros B R w1.
  assert (Hret : fst (Poller.main R Scenario.env (initial Scenario.store_5))
                 = Ret tt) by (vm_compute; reflexivity).
  exact (proj1 (next_poll_asks_past_the_batch R Scenario.env
                  (initial Scenario.store_5) 5 200 B
                  ltac:(discriminate) ltac:(discriminate)
                  eq_refl eq_refl eq_refl ltac:(discriminate) Hret)).
Defined.

Lemma offset_never_decreases_witness :
  (* the reply to "/test" cannot be sent and the cycle is cut short *)
  let B := [Scenario.update 6 42 "/test"] in
  let R := Scenario.remote B Scenario.unreachable Scenario.accepted
             Scenario.no_runs in
  exists q,
    offset_on_disk
      (disk (snd (Poller.run R Scenario.env (initial Scenario.store_5))))
    = Some q /\ 5 <= q.
Proof.
  intros B R.
  refine (offset_never_decreases R Scenario.env (initial Scenario.store_5) 5
            eq_refl _).
  intros t d. reflexivity.
Defined.

(** ** Updates that are not the operator's *)

Lemma returning_returning {A B C} (b : B) (c : C) (r : Res A) :
  returning c (returning b r) = returning c r.
Proof. destruct r; reflexivity. Qed.

Lemma poller_drops R env jobs token chatId update w :
  is_from_operator chatId update = false ->
  Poller.on_update R env jobs token chatId update w = (Ret tt, w).
Proof.
  unfold is_from_operator, Poller.on_update.
  destruct (message update) as [msg|]; [| reflexivity].
  intros H. apply bool_decide_eq_false in H.
  destruct (decide _) as [_|Hn]; [reflexivity | contradiction].
Qed.

Lemma process_updates_offset_irrelevant R env jobs token chatId B n m w :
  snd (Poller.process_updates R env jobs token chatId B n w)
  = snd (Poller.process_updates R env jobs token chatId B m w)
  /\ fst (Poller.process_updates R env jobs token chatId B n w)
     = returning (highest n B)
         (fst (Poller.process_updates R env jobs token chatId B m w)).
Proof.
  revert n m w. induction B as [|u us IH]; intros n m w; simpl.
  - split; reflexivity.
  - unfold bind.
    destruct (Poller.on_update R env jobs token chatId u w) as [[[]|e|] w1];
      [| split; reflexivity | split; reflexivity].
    apply IH.
Qed.

(** X4. Updates that are not from the operator (or carry no message)
    count for the offset and for nothing else: running the loop over a
    batch has the same effects, and ends the same way, as running it
    over the operator's updates of that batch alone; only the value it
    returns is the maximum over the whole batch. *)
Theorem other_updates_only_move_the_offset
    (R : Remote) (env : Env) (jobs : list string) (token chatId : string)
    (B : list TelegramUpdate) (n : Z) (w : World) :
  let mine := List.filter (is_from_operator chatId) B in
  snd (Poller.process_updates R env jobs token chatId B n w)
  = snd (Poller.process_updates R env jobs token chatId mine n w)
  /\ fst (Poller.process_updates R env jobs token chatId B n w)
     = returning (highest n B)
         (fst (Poller.process_updates R env jobs token chatId mine n w)).
Proof.
  revert n w. induction B as [|u us IH]; intros n w; cbn zeta.
  - split; reflexivity.
  - cbn [List.filter]. destruct (is_from_operator chatId u) eqn:Hop.
    + cbn [Poller.process_updates]. unfold bind.
      destruct (Poller.on_update R env jobs token chatId u w)
        as [[[]|e|] w1]; [| split; reflexivity | split; reflexivity].
      apply (IH (Z.max n (update_id u)) w1).
    + cbn [Poller.process_updates]. unfold bind.
      rewrite (poller_drops R env jobs token chatId u w Hop).
      destruct (IH (Z.max n (update_id u)) w) as [Hw Hr].
      destruct (process_updates_offset_irrelevant R env jobs token chatId
                  (List.filter (is_from_operator chatId) us)
                  (Z.max n (update_id u)) n w) as [Hw' Hr'].
      split.
      * rewrite Hw. exact Hw'.
      * rewrite Hr, Hr'. apply returning_returning.
Qed.

(** ** Missing GitHub credentials *)

Lemma existsb_false_of_Forall (b : Event -> bool) evs :
  Forall (fun ev => b ev = false) evs -> existsb b evs = false.
Proof.
  induction 1 as [|ev evs Hev _ IH]; simpl; [reflexivity |].
  rewrite Hev, IH. reflexivity.
Qed.

Lemma adds_only_bind_throw P {A B} e (k : A -> M B) :
  adds (bind (throw e) k) (only P).
Proof. exact (adds_only_throw P e). Qed.

(** The webhook's handlers and listener, for any kind of event that
    covers what they can emit. *)
Section WebhookOnly.
Variable R : Remote.
Variable env : Env.
Variable toUTCString : string -> string.
Variable workflows : list Webhook.Workflow.
Variable schedule : list nat.
Variable P : Event -> Prop.
Hypothesis Psend : forall chat body_text r, P (EvSendMessage chat body_text r).
Hypothesis Pconsole : forall entry, P (EvConsole entry).
Hypothesis Prespond : forall statusCode payload, P (EvRespond statusCode payload).
Hypothesis Pgithub :
  github_configured env = false
  \/ ((forall repo file ref r, P (EvDispatch repo file ref r))
      /\ (forall repo file r, P (EvListRuns repo file r))).

Lemma webhook_send_only body_text :
  adds (Webhook.sendTelegramMessage R env body_text) (only P).
Proof.
  unfold Webhook.sendTelegramMessage.
  destruct (_ || _)%bool; [apply adds_only_throw |].
  apply adds_only_bind.
  - apply adds_only_await. intros a. apply Psend.
  - intros [|st b]; [apply adds_only_throw |].
    destruct (negb _); [apply adds_only_throw | apply adds_only_ret].
Qed.

Lemma webhook_dispatch_only file :
  adds (Webhook.dispatchWorkflow R env file) (only P).
Proof.
  unfold Webhook.dispatchWorkflow, Webhook.githubContext.
  destruct Pgithub as [Hno | [Hev _]].
  - rewrite (github_not_configured env Hno). apply adds_only_bind_throw.
  - apply adds_only_bind.
    + destruct (_ || _)%bool; [apply adds_only_throw | apply adds_only_ret].
    + intros ctx. apply adds_only_bind.
      * apply adds_only_await. intros a. apply Hev.
      * intros [|st b]; [apply adds_only_throw |].
        destruct (negb _); [apply adds_only_throw | apply adds_only_ret].
Qed.
Lemma webhook_runs_only file :
  adds (Webhook.getLatestWorkflowRun R env file) (only P).
Proof.
  unfold Webhook.getLatestWorkflowRun, Webhook.githubContext.
  destruct Pgithub as [Hno | [_ Hev]].
  - rewrite (github_not_configured env Hno). apply adds_only_bind_throw.
  - apply adds_only_bind.
    + destruct (_ || _)%bool; [apply adds_only_throw | apply adds_only_ret].
    + intros ctx. apply adds_only_bind.
      * apply adds_only_await. intros a. apply Hev.
      * intros [|st b [runs|]]; [apply adds_only_throw | |].
        -- destruct (negb _); [apply adds_only_throw | apply adds_only_ret].
        -- destruct (negb _); apply adds_only_throw.
Qed.

Lemma webhook_handleMessage_only update :
  adds (Webhook.handleMessage_with R env toUTCString workflows schedule update)
       (only P).
Proof.
  unfold Webhook.handleMessage_with.
  destruct update as [u|]; [| apply adds_only_throw].
  destruct (message u) as [msg|]; [| apply adds_only_ret].
  destruct (negb _); [apply adds_only_ret |].
  destruct (decide _); [apply adds_only_ret |].
  destruct (decide _); [apply webhook_send_only |].
  destruct (decide _).
  { apply adds_only_bind; [apply webhook_send_only |]. intros _.
    apply adds_only_try_catch.
    - apply adds_only_bind; [| intros _; apply webhook_send_only].
      apply adds_only_for_of. intros x. apply webhook_dispatch_only.
    - intros err.
      apply adds_only_bind; [| intros _; apply webhook_send_only].
      apply adds_only_console, Pconsole. }
  destruct (decide _); [| apply adds_only_ret].
  apply adds_only_try_catch.
  - apply adds_only_bind.
    + apply adds_only_start_all. intros x.
      apply adds_only_bind; [| intros run; apply adds_only_ret].
      apply webhook_runs_only.
    + intros ps. apply adds_only_bind; [apply adds_only_Promise_all |].
      intros sts. apply webhook_send_only.
  - intros err.
    apply adds_only_bind; [| intros _; apply webhook_send_only].
    apply adds_only_console, Pconsole.
Qed.

Lemma writeJson_only statusCode payload :
  adds (Webhook.writeJson statusCode payload) (only P).
Proof.
  intros w. unfold Webhook.writeJson. destruct (headersSent w) eqn:Hh; simpl.
  - exists []. rewrite app_nil_r. split; [reflexivity |]. split; [auto |].
    split; [discriminate | constructor].
  - exists [EvRespond statusCode payload]. split; [reflexivity |].
    split; [auto |]. split; [discriminate |].
    repeat constructor. apply Prespond.
Qed.

Lemma webhook_listener_only req :
  adds (Webhook.listener_with R env toUTCString workflows schedule req)
       (only P).
Proof.
  unfold Webhook.listener_with.
  apply adds_only_try_catch.
  - destruct (_ && _)%bool; [apply writeJson_only |].
    destruct (_ || _)%bool; [apply writeJson_only |].
    destruct (_ && _)%bool; [apply writeJson_only |].
    apply adds_only_bind.
    + unfold Webhook.readJsonBody.
      destruct (Webhook.body req);
        [apply adds_only_ret | apply adds_only_throw | apply adds_only_ret].
    + intros payload. apply adds_only_bind; [apply writeJson_only |].
      intros _. apply webhook_handleMessage_only.
  - intros err. apply adds_only_bind; [apply adds_only_console, Pconsole |].
    intros _ w. destruct (negb (headersSent w)); [apply writeJson_only |].
    exists []. simpl. rewrite app_nil_r. split; [reflexivity |].
    split; [auto |]. split; [discriminate | constructor].
Qed.
End WebhookOnly.

Lemma poller_main_only R env jobs (P : Event -> Prop) :
  (forall chat body_text r, P (EvSendMessage chat body_text r)) ->
  (forall entry, P (EvConsole entry)) ->
  (forall offset r, P (EvGetUpdates offset r)) ->
  (forall m, P (EvWriteFile m)) ->
  (github_configured env = false
   \/ forall repo file ref r, P (EvDispatch repo file ref r)) ->
  forall w, exists evs,
    trace (snd (Poller.main_with R env jobs w)) = trace w ++ evs
    /\ Forall P evs.
Proof.
  intros Ps Pc Pf Pw Pd w. unfold Poller.main_with.
  assert (Hnone : exists evs : list Event, trace w = trace w ++ evs /\ Forall P evs)
    by (exists []; rewrite app_nil_r; split; [reflexivity | constructor]).
  destruct (_ || _)%bool.
  { exists [EvConsole (LogText "[bot] credentials not set")].
    split; [reflexivity | repeat constructor; apply Pc]. }
  unfold bind at 1. unfold Poller.loadState at 1.
  destruct (Poller.lastId_of _) as [p|]; [| exact Hnone].
  unfold bind at 1. unfold fetch_getUpdates, await_fetch.
  set (reply := telegram_getUpdates R (clock w) (p + 1)).
  set (w1 := waited R (EvGetUpdates (p + 1) reply) w).
  assert (Hone : exists evs : list Event,
             trace w1 = trace w ++ evs /\ Forall P evs).
  { exists [EvGetUpdates (p + 1) reply].
    split; [reflexivity | repeat constructor; apply Pf]. }
  destruct reply as [|st [[ok result]|]]; [exact Hone | |].
  2:{ destruct (negb _); exact Hone. }
  destruct (negb _); [exact Hone |].
  destruct (_ || _)%bool; [exact Hone |].
  unfold bind at 1.
  destruct (process_updates_only R env jobs
              (default "" (TELEGRAM_TOKEN env)) (default "" (TELEGRAM_CHAT_ID env))
              P Ps Pc Pd result p w1) as (evs & Ht & _ & _ & Hall).
  clear Hone.
  destruct (Poller.process_updates _ _ _ _ _ _ _ _) as [[n|e|] w2];
    cbn [fst snd] in Ht |- *.
  - exists ([EvGetUpdates (p + 1) (UpdatesHttp st (Some (ok, result)))]
            ++ evs
            ++ [EvWriteFile (<[Poller.BOT_UPDATE_KEY := JS.String_of_number n]>
                               (Poller.state_of_disk (disk w2)))]).
    split.
    + unfold bind, Poller.loadState, Poller.saveState. cbn [fst snd trace].
      rewrite Ht. unfold w1. cbn [trace waited]. rewrite <- !app_assoc.
      reflexivity.
    + apply Forall_app. split; [repeat constructor; apply Pf |].
      apply Forall_app. split; [exact Hall | repeat constructor; apply Pw].
  - exists ([EvGetUpdates (p + 1) (UpdatesHttp st (Some (ok, result)))] ++ evs).
    split.
    + rewrite Ht. unfold w1. cbn [trace waited]. rewrite <- !app_assoc.
      reflexivity.
    + apply Forall_app. split; [repeat constructor; apply Pf | exact Hall].
  - exists ([EvGetUpdates (p + 1) (UpdatesHttp st (Some (ok, result)))] ++ evs).
    split.
    + rewrite Ht. unfold w1. cbn [trace waited]. rewrite <- !app_assoc.
      reflexivity.
    + apply Forall_app. split; [repeat constructor; apply Pf | exact Hall].
Qed.

(** X5. Without GitHub credentials (token or repository missing or
    empty) neither program ever contacts the automation platform: no run
    of the poller and no request to the webhook server, whatever the
    update and the command, issues a trigger or a status query. The
    check is made before each request is built. *)
Theorem no_gateway_call_without_github_credentials
    (R : Remote) (env : Env) (toUTCString : string -> string)
    (workflows : list Webhook.Workflow) (schedule : list nat) :
  github_configured env = false ->
  (forall w, exists evs,
     trace (snd (Poller.run R env w)) = trace w ++ evs
     /\ existsb is_gateway_call evs = false)
  /\ (forall req w, exists evs,
        trace (snd (Webhook.listener_with R env toUTCString workflows
                      schedule req w)) = trace w ++ evs
        /\ existsb is_gateway_call evs = false).
Proof.
  intros Hno. split.
  - intros w. unfold Poller.run, Poller.main, try_catch.
    destruct (poller_main_only R env Poller.MONITOR_WORKFLOWS
                (fun ev => is_gateway_call ev = false)
                ltac:(reflexivity) ltac:(reflexivity) ltac:(reflexivity)
                ltac:(reflexivity) (or_introl Hno) w) as (evs & Ht & Hall).
    destruct (Poller.main_with R env Poller.MONITOR_WORKFLOWS w)
      as [[[]|e|] w1]; simpl in *.
    + exists evs. split; [exact Ht | apply existsb_false_of_Forall, Hall].
    + exists (evs ++ [EvConsole (LogError e)]). rewrite Ht, <- app_assoc.
      split; [reflexivity |]. apply existsb_false_of_Forall.
      apply Forall_app. split; [exact Hall | repeat constructor].
    + exists evs. split; [exact Ht | apply existsb_false_of_Forall, Hall].
  - intros req w.
    destruct (webhook_listener_only R env toUTCString workflows schedule
                (fun ev => is_gateway_call ev = false)
                ltac:(reflexivity) ltac:(reflexivity) ltac:(reflexivity)
                (or_introl Hno) req w) as (evs & Ht & _ & _ & Hall).
    exists evs. split; [exact Ht | apply existsb_false_of_Forall, Hall].
Qed.

Lemma no_gateway_call_without_github_credentials_witness :
  let env :=
    {| TELEGRAM_TOKEN := Some "123:abc"; TELEGRAM_CHAT_ID := Some "42";
       GITHUB_TOKEN := Some "ghp_x"; GITHUB_REPOSITORY := None;
       GITHUB_REF_NAME := None; TELEGRAM_WEBHOOK_PATH := None;
       TELEGRAM_WEBHOOK_SECRET := None |} in
  let u := Scenario.update 6 42 "/trigger" in
  let R := Scenario.remote [u] Scenario.delivered Scenario.accepted
             Scenario.no_runs in
  exists evs,
    trace (snd (Poller.run R env (initial Scenario.store_5))) = [] ++ evs
    /\ existsb is_gateway_call evs = false.
Proof.
  intros env u R.
  exact (proj1 (no_gateway_call_without_github_credentials R env Scenario.utc
                  Webhook.MONITOR_WORKFLOWS [] eq_refl)
           (initial Scenario.store_5)).
Defined.

Lemma poller_for_of_without_github R env job jobs w :
  github_configured env = false ->
  for_of (Poller.dispatchWorkflow R env) (job :: jobs) w
  = (Throw (JS.Error "GitHub dispatch credentials not available"), w).
Proof.
  intros Hno. cbn [for_of]. unfold bind, Poller.dispatchWorkflow.
  rewrite (github_not_configured env Hno). reflexivity.
Qed.

Lemma webhook_for_of_without_github R env (job : Webhook.Workflow) jobs w :
  github_configured env = false ->
  for_of (fun workflow => Webhook.dispatchWorkflow R env (Webhook.file workflow))
         (job :: jobs) w
  = (Throw (JS.Error
       "GitHub credentials not configured (GITHUB_TOKEN/GITHUB_REPOSITORY)"), w).
Proof.
  intros Hno. cbn [for_of].
  unfold bind, Webhook.dispatchWorkflow, Webhook.githubContext.
  rewrite (github_not_configured env Hno). reflexivity.
Qed.

(** X6. "/trigger" without GitHub credentials. When the operator sends
    "/trigger", the job list is not empty and the starting notification
    goes out, the first trigger fails before any request: the poller and
    the webhook server each log the configuration error and send one
    failure notification, and that is all they do. *)
Theorem trigger_without_github_credentials_is_reported
    (R : Remote) (env : Env) (toUTCString : string -> string)
    (schedule : list nat) (job : string) (jobs : list string)
    (workflow : Webhook.Workflow) (workflows : list Webhook.Workflow)
    (token chatId : string) (update : TelegramUpdate) (w : World) :
  github_configured env = false ->
  from_operator chatId update ->
  command_of update = JS.lit "/trigger" ->
  (telegram_sendMessage R (clock w) chatId start_text <> NetworkError ->
   exists r0 r1,
     trace (snd (Poller.on_update R env (job :: jobs) token chatId update w))
     = trace w ++
       [ EvSendMessage chatId start_text r0;
         EvConsole (LogError
           (JS.Error "GitHub dispatch credentials not available"));
         EvSendMessage chatId failure_text r1 ])
  /\ (default "" (TELEGRAM_CHAT_ID env) = chatId ->
      default "" (TELEGRAM_TOKEN env) <> "" ->
      reply_ok (telegram_sendMessage R (clock w) chatId start_text) = true ->
      exists r0 r1,
        trace (snd (Webhook.handleMessage_with R env toUTCString
                      (workflow :: workflows) schedule (Some update) w))
        = trace w ++
          [ EvSendMessage chatId start_text r0;
            EvConsole (LogError
              (JS.Error
                 "GitHub credentials not configured (GITHUB_TOKEN/GITHUB_REPOSITORY)"));
            EvSendMessage chatId failure_text r1 ]).
Proof.
  intros Hno Hop Hcmd. split.
  - intros Hstart.
    rewrite (poller_route R env (job :: jobs) token chatId update Hop).
    cbv zeta. rewrite Hcmd.
    repeat case_decide; try discriminate; try contradiction.
    unfold bind at 1.
    unfold Poller.sendMessage at 1, fetch_sendMessage, await_fetch, bind at 1.
    destruct (telegram_sendMessage R (clock w) chatId start_text)
      as [|st0 b0] eqn:Hr0; [contradiction |].
    cbn [ret]. unfold try_catch, bind at 1.
    rewrite (poller_for_of_without_github R env job jobs _ Hno).
    unfold console, emit, Poller.sendMessage, fetch_sendMessage, await_fetch, bind.
    cbn [ret]. exists (HttpResponse st0 b0).
    match goal with
    | |- context [telegram_sendMessage R ?t chatId failure_text] =>
        destruct (telegram_sendMessage R t chatId failure_text) eqn:Hr1
    end; eexists; cbn; rewrite <- !app_assoc; reflexivity.
  - intros Hchat Htok Hstart. subst chatId.
    assert (Hset : default "" (TELEGRAM_CHAT_ID env) <> "").
    { destruct Hop as (msg & _ & <-). apply String_of_number_not_empty. }
    rewrite (webhook_route R env toUTCString (workflow :: workflows) schedule
               update Hset Hop).
    cbv zeta. rewrite Hcmd.
    repeat case_decide; try discriminate; try contradiction.
    unfold bind at 1.
    destruct (sendTelegramMessage_run R env start_text w Htok Hset)
      as (r0 & Hrun0 & _ & Hret0).
    rewrite Hrun0. apply Hret0 in Hstart. subst r0.
    unfold try_catch, bind at 1.
    rewrite (webhook_for_of_without_github R env workflow workflows _ Hno).
    unfold bind at 1, console, emit.
    match goal with
    | |- context [Webhook.sendTelegramMessage R env failure_text ?w3] =>
        destruct (sendTelegramMessage_run R env failure_text w3 Htok Hset)
          as (r1 & Hrun1 & _ & _); rewrite Hrun1
    end.
    do 2 eexists. cbn. rewrite <- !app_assoc. reflexivity.
Qed.

(** ** Triggers the platform accepts *)

Lemma github_is_configured env :
  github_configured env = true ->
  (negb (JS.truthy (default "" (GITHUB_TOKEN env)))
   || negb (JS.truthy (default "" (GITHUB_REPOSITORY env))))%bool = false.
Proof.
  unfold github_configured.
  destruct (JS.truthy (default "" (GITHUB_TOKEN env))),
           (JS.truthy (default "" (GITHUB_REPOSITORY env)));
    simpl; intros H; try reflexivity; discriminate H.
Qed.

Lemma for_of_all_accepted {A} (body : A -> M unit) (name : A -> string)
    (xs : list A) :
  (forall x, adds (body x)
               (fun r evs => r = Ret tt /\ triggers evs = [(name x, true)]
                             /\ Forall (fun ev => is_trigger ev = true) evs)) ->
  adds (for_of body xs)
       (fun r evs => r = Ret tt /\ triggers evs = all_ok (map name xs)
                     /\ Forall (fun ev => is_trigger ev = true) evs).
Proof.
  intros Hbody. induction xs as [|x xs IH]; simpl.
  - apply adds_ret. repeat split. constructor.
  - apply (adds_bind _ _
             (fun r evs => r = Ret tt /\ triggers evs = [(name x, true)]
                           /\ Forall (fun ev => is_trigger ev = true) evs)
             (fun _ r evs => r = Ret tt /\ triggers evs = all_ok (map name xs)
                             /\ Forall (fun ev => is_trigger ev = true) evs));
      [apply Hbody | intros ?; exact IH | | |].
    + intros [] evs1 r evs2 (_ & Ht1 & Ha1) (-> & Ht2 & Ha2).
      split; [reflexivity |]. split.
      * rewrite triggers_app, Ht1, Ht2. reflexivity.
      * apply Forall_app. split; assumption.
    + intros e evs (H & _). discriminate H.
    + intros evs (H & _). discriminate H.
Qed.

Lemma trigger_command_all_accepted (send : string -> M unit) (loop : M unit)
    (jobs : list string) (chat : string) :
  (forall body_text,
     adds (send body_text)
       (fun r evs => r = Ret tt
                     /\ exists reply, evs = [EvSendMessage chat body_text reply])) ->
  adds loop
    (fun r evs => r = Ret tt /\ triggers evs = all_ok jobs
                  /\ Forall (fun ev => is_trigger ev = true) evs) ->
  adds (send start_text ;;
        try_catch (loop ;; send success_text)
                  (fun error => console (LogError error) ;; send failure_text))
       (fun r evs =>
          r = Ret tt
          /\ exists r0 fan_out r1,
               evs = EvSendMessage chat start_text r0
                     :: fan_out ++ [EvSendMessage chat success_text r1]
               /\ triggers fan_out = all_ok jobs
               /\ Forall (fun ev => is_trigger ev = true) fan_out).
Proof.
  intros Hsend Hloop.
  apply (adds_bind _ _
           (fun r evs => r = Ret tt
              /\ exists reply, evs = [EvSendMessage chat start_text reply])
           (fun _ r evs => r = Ret tt
              /\ exists fan_out r1,
                   evs = fan_out ++ [EvSendMessage chat success_text r1]
                   /\ triggers fan_out = all_ok jobs
                   /\ Forall (fun ev => is_trigger ev = true) fan_out));
    [apply Hsend | intros ? | | |].
  - eapply (adds_try_catch _ _
              (fun r evs => r = Ret tt
                 /\ exists fan_out r1,
                      evs = fan_out ++ [EvSendMessage chat success_text r1]
                      /\ triggers fan_out = all_ok jobs
                      /\ Forall (fun ev => is_trigger ev = true) fan_out)
              (fun _ _ _ => True)).
    + apply (adds_bind _ _
               (fun r evs => r = Ret tt /\ triggers evs = all_ok jobs
                             /\ Forall (fun ev => is_trigger ev = true) evs)
               (fun _ r evs => r = Ret tt
                  /\ exists reply, evs = [EvSendMessage chat success_text reply]));
        [exact Hloop | intros ?; apply Hsend | | |].
      * intros [] evs1 r evs2 (_ & Ht & Ha) (-> & r1 & ->).
        split; [reflexivity |]. exists evs1, r1. auto.
      * intros e evs (H & _). discriminate H.
      * intros evs (H & _). discriminate H.
    + intros e w. destruct (adds_only_bind (fun _ => True)
                              (console (LogError e)) (fun _ => send failure_text)
                              (adds_only_console _ _ I)) with (w := w)
        as (evs & Ht & Hh & _).
      { intros _. eapply adds_weaken; [apply Hsend |].
        intros r evs (-> & _). split; [discriminate |].
        apply Forall_forall. trivial. }
      exists evs. auto.
    + intros e evs1 r evs2 (H & _). discriminate H.
    + intros v evs H. exact H.
    + intros evs (H & _). discriminate H.
  - intros [] evs1 r evs2 (_ & r0 & ->) (-> & fan_out & r1 & -> & Ht & Ha).
    split; [reflexivity |]. exists r0, fan_out, r1. auto.
  - intros e evs (H & _). discriminate H.
  - intros evs (H & _). discriminate H.
Qed.

Lemma poller_dispatch_accepted R env file :
  github_configured env = true ->
  (forall t repo f ref, reply_ok (github_dispatch R t repo f ref) = true) ->
  adds (Poller.dispatchWorkflow R env file)
       (fun r evs => r = Ret tt /\ triggers evs = [(file, true)]
                     /\ Forall (fun ev => is_trigger ev = true) evs).
Proof.
  intros Hgh Hok w. unfold Poller.dispatchWorkflow.
  rewrite (github_is_configured env Hgh).
  unfold fetch_dispatch, await_fetch, bind.
  set (repo := default "" (GITHUB_REPOSITORY env)).
  set (ref := default "main" (GITHUB_REF_NAME env)).
  pose proof (Hok (clock w) repo file ref) as Hr.
  exists [EvDispatch repo file ref (github_dispatch R (clock w) repo file ref)].
  unfold triggers. cbn [omap list_omap]. rewrite Hr.
  destruct (github_dispatch R (clock w) repo file ref) as [|st b];
    [discriminate Hr |].
  simpl in Hr. rewrite Hr. cbn.
  split; [reflexivity |]. split; [auto |]. split; [reflexivity |].
  split; [reflexivity | repeat constructor].
Qed.

Lemma webhook_dispatch_accepted R env file :
  github_configured env = true ->
  (forall t repo f ref, reply_ok (github_dispatch R t repo f ref) = true) ->
  adds (Webhook.dispatchWorkflow R env file)
       (fun r evs => r = Ret tt /\ triggers evs = [(file, true)]
                     /\ Forall (fun ev => is_trigger ev = true) evs).
Proof.
  intros Hgh Hok w. unfold Webhook.dispatchWorkflow, Webhook.githubContext.
  rewrite (github_is_configured env Hgh).
  unfold fetch_dispatch, await_fetch, bind, ret. cbn [Webhook.repo Webhook.ref].
  set (repo := default "" (GITHUB_REPOSITORY env)).
  set (ref := default "main" (GITHUB_REF_NAME env)).
  pose proof (Hok (clock w) repo file ref) as Hr.
  exists [EvDispatch repo file ref (github_dispatch R (clock w) repo file ref)].
  unfold triggers. cbn [omap list_omap]. rewrite Hr.
  destruct (github_dispatch R (clock w) repo file ref) as [|st b];
    [discriminate Hr |].
  simpl in Hr. rewrite Hr. cbn.
  split; [reflexivity |]. split; [auto |]. split; [reflexivity |].
  split; [reflexivity | repeat constructor].
Qed.

Lemma poller_send_delivered R token chat body_text :
  (forall t c x, telegram_sendMessage R t c x <> NetworkError) ->
  adds (Poller.sendMessage R token chat body_text)
       (fun r evs => r = Ret tt
                     /\ exists reply, evs = [EvSendMessage chat body_text reply]).
Proof.
  intros Hr w.
  destruct (poller_sendMessage_sends R token chat body_text w)
    as (evs & Ht & Hh & _ & Hev).
  exists evs. split; [exact Ht |]. split; [exact Hh |].
  split; [| exact Hev].
  apply (poller_sendMessage_returns R token chat Hr).
Qed.

Lemma webhook_send_delivered R env body_text :
  telegram_configured env = true ->
  (forall t c x, reply_ok (telegram_sendMessage R t c x) = true) ->
  adds (Webhook.sendTelegramMessage R env body_text)
       (fun r evs => r = Ret tt
                     /\ exists reply,
                          evs = [EvSendMessage (default "" (TELEGRAM_CHAT_ID env))
                                   body_text reply]).
Proof.
  intros Hcfg Hr w. unfold telegram_configured in Hcfg.
  apply andb_true_iff in Hcfg as [Ht Hc].
  assert (Htok : default "" (TELEGRAM_TOKEN env) <> "")
    by (intros E; rewrite E in Ht; discriminate Ht).
  assert (Hchat : default "" (TELEGRAM_CHAT_ID env) <> "")
    by (intros E; rewrite E in Hc; discriminate Hc).
  destruct (sendTelegramMessage_run R env body_text w Htok Hchat)
    as (r & Hrun & _ & Hret).
  rewrite Hrun. eexists. split; [reflexivity |]. split; [auto |].
  split; [apply Hret, Hr | eauto].
Qed.

(** X7. "/trigger" when nothing fails. With GitHub credentials set, a
    platform that accepts every trigger and a messaging API that
    delivers, the command of the operator triggers every job of the list
    exactly once, in list order, between the starting notification and
    the one success notification; nothing is logged and no failure
    notice is sent. This holds in the poller and in the webhook
    server. *)
Theorem trigger_reaches_every_job
    (R : Remote) (env : Env) (toUTCString : string -> string)
    (schedule : list nat) (jobs : list string)
    (workflows : list Webhook.Workflow)
    (token chatId : string) (update : TelegramUpdate) (w : World) :
  github_configured env = true ->
  (forall t repo f ref, reply_ok (github_dispatch R t repo f ref) = true) ->
  (forall t c x, reply_ok (telegram_sendMessage R t c x) = true) ->
  from_operator chatId update ->
  command_of update = JS.lit "/trigger" ->
  (fst (Poller.on_update R env jobs token chatId update w) = Ret tt
   /\ exists r0 fan_out r1,
        trace (snd (Poller.on_update R env jobs token chatId update w))
        = trace w ++ EvSendMessage chatId start_text r0
                     :: fan_out ++ [EvSendMessage chatId success_text r1]
        /\ triggers fan_out = all_ok jobs
        /\ Forall (fun ev => is_trigger ev = true) fan_out)
  /\ (telegram_configured env = true ->
      default "" (TELEGRAM_CHAT_ID env) = chatId ->
      fst (Webhook.handleMessage_with R env toUTCString workflows schedule
             (Some update) w) = Ret tt
      /\ exists r0 fan_out r1,
           trace (snd (Webhook.handleMessage_with R env toUTCString workflows
                         schedule (Some update) w))
           = trace w ++ EvSendMessage chatId start_text r0
                        :: fan_out ++ [EvSendMessage chatId success_text r1]
           /\ triggers fan_out = all_ok (map Webhook.file workflows)
           /\ Forall (fun ev => is_trigger ev = true) fan_out).
Proof.
  intros Hgh Hdisp Hsend Hop Hcmd.
  assert (Hnet : forall t c x, telegram_sendMessage R t c x <> NetworkError).
  { intros t c x E. pose proof (Hsend t c x) as H. rewrite E in H.
    discriminate H. }
  split.
  - rewrite (poller_route R env jobs token chatId update Hop).
    cbv zeta. rewrite Hcmd.
    repeat case_decide; try discriminate; try contradiction.
    destruct (trigger_command_all_accepted
                (Poller.sendMessage R token chatId)
                (for_of (Poller.dispatchWorkflow R env) jobs) jobs chatId
                (fun t => poller_send_delivered R token chatId t Hnet)
                (eq_rect _ (fun js => adds _ (fun r evs =>
                     r = Ret tt /\ triggers evs = all_ok js
                     /\ Forall (fun ev => is_trigger ev = true) evs))
                   (for_of_all_accepted (Poller.dispatchWorkflow R env) id jobs
                      (fun f => poller_dispatch_accepted R env f Hgh Hdisp))
                   _ (map_id jobs)) w)
      as (evs & Ht & _ & Hret & r0 & fan_out & r1 & -> & Htr & Hall).
    split; [exact Hret |]. exists r0, fan_out, r1. auto.
  - intros Hcfg Hchat. subst chatId.
    assert (Hset : default "" (TELEGRAM_CHAT_ID env) <> "").
    { destruct Hop as (msg & _ & <-). apply String_of_number_not_empty. }
    rewrite (webhook_route R env toUTCString workflows schedule update Hset Hop).
    cbv zeta. rewrite Hcmd.
    repeat case_decide; try discriminate; try contradiction.
    destruct (trigger_command_all_accepted
                (Webhook.sendTelegramMessage R env)
                (for_of (fun workflow =>
                           Webhook.dispatchWorkflow R env (Webhook.file workflow))
                        workflows)
                (map Webhook.file workflows)
                (default "" (TELEGRAM_CHAT_ID env))
                (fun t => webhook_send_delivered R env t Hcfg Hsend)
                (for_of_all_accepted _ Webhook.file workflows
                   (fun x => webhook_dispatch_accepted R env (Webhook.file x)
                               Hgh Hdisp)) w)
      as (evs & Ht & _ & Hret & r0 & fan_out & r1 & -> & Htr & Hall).
    split; [exact Hret |]. exists r0, fan_out, r1. auto.
Qed.

(** ** The webhook server's responses *)

Lemma no_response_among_command_effects evs :
  Forall is_command_effect evs -> List.filter is_response evs = [].
Proof.
  induction 1 as [|ev evs Hev _ IH]; simpl; [reflexivity |].
  destruct ev; simpl in *; try exact IH; contradiction.
Qed.

Lemma filter_response_app evs1 evs2 :
  List.filter is_response (evs1 ++ evs2)
  = List.filter is_response evs1 ++ List.filter is_response evs2.
Proof. apply List.filter_app. Qed.

(** What the listener does with a POST to the webhook path that passed
    the secret check, from a world where nothing has been sent yet. *)
Lemma listener_after_checks R env toUTCString workflows schedule req w :
  is_health_check req = false ->
  is_webhook_post env req = true ->
  secret_accepted env req = true ->
  headersSent w = false ->
  Webhook.listener_with R env toUTCString workflows schedule req w
  = match payload_of (Webhook.body req) with
    | Some payload =>
        caught (Webhook.handleMessage_with R env toUTCString workflows schedule
                  payload (acknowledged w))
    | None =>
        (Ret tt,
         {| trace := trace w
                     ++ [EvConsole (LogError (JS.SyntaxError "Unexpected token"));
                         EvRespond 500 PayloadServerError];
            disk := disk w;
            headersSent := true |})
    end.
Proof.
  intros Hhealth Hpost Hsecret Hh.
  unfold is_webhook_post in Hpost. apply andb_true_iff in Hpost as [Hm Hu].
  apply bool_decide_eq_true in Hm. apply bool_decide_eq_true in Hu.
  destruct (payload_of (Webhook.body req)) as [payload|] eqn:Hb.
  - apply listener_passes_checks; try assumption.
    intros Ht. unfold secret_accepted in Hsecret. rewrite Ht in Hsecret.
    simpl in Hsecret. apply bool_decide_eq_true in Hsecret. exact Hsecret.
  - destruct (Webhook.body req) eqn:Hbody; simpl in Hb; try discriminate Hb.
    unfold Webhook.listener_with.
    fold (is_health_check req). rewrite Hhealth.
    rewrite Hm, Hu.
    rewrite (bool_decide_eq_true_2 ("POST" = "POST")) by reflexivity.
    rewrite (bool_decide_eq_true_2 (Webhook.webhookPath env = Webhook.webhookPath env))
      by reflexivity.
    cbn [negb orb].
    unfold secret_accepted in Hsecret.
    destruct (JS.truthy (Webhook.webhookSecret env)); simpl in Hsecret.
    + rewrite Hsecret. cbn [negb andb].
      unfold Webhook.readJsonBody. rewrite Hbody.
      unfold try_catch, bind, throw, console, emit, Webhook.writeJson.
      cbn. rewrite Hh. cbn. rewrite <- app_assoc. reflexivity.
    + cbn [andb]. unfold Webhook.readJsonBody. rewrite Hbody.
      unfold try_catch, bind, throw, console, emit, Webhook.writeJson.
      cbn. rewrite Hh. cbn. rewrite <- app_assoc. reflexivity.
Qed.

(** What it does with every other request: one response and nothing
    else. *)
Lemma listener_before_checks R env toUTCString workflows schedule req w :
  (is_health_check req = true
   \/ is_webhook_post env req = false
   \/ secret_accepted env req = false) ->
  headersSent w = false ->
  Webhook.listener_with R env toUTCString workflows schedule req w
  = (Ret tt,
     {| trace := trace w ++ [response_for env req];
        disk := disk w;
        headersSent := true |}).
Proof.
  intros Hcase Hh. unfold Webhook.listener_with, response_for.
  fold (is_health_check req).
  destruct (is_health_check req).
  { unfold try_catch, Webhook.writeJson. rewrite Hh. reflexivity. }
  destruct Hcase as [H | Hcase]; [discriminate H |].
  assert (Hpost : (negb (bool_decide (Webhook.method req = "POST"))
                   || negb (bool_decide (default "/" (Webhook.url req)
                                         = Webhook.webhookPath env)))%bool
                  = negb (is_webhook_post env req)).
  { unfold is_webhook_post. destruct (bool_decide _), (bool_decide _); reflexivity. }
  rewrite Hpost.
  destruct (is_webhook_post env req); cbn [negb].
  2:{ unfold try_catch, Webhook.writeJson. rewrite Hh. reflexivity. }
  destruct Hcase as [H | Hsecret]; [discriminate H |].
  assert (Hsec : (JS.truthy (Webhook.webhookSecret env)
                  && negb (bool_decide (Webhook.secret_token req
                                        = Some (Webhook.webhookSecret env))))%bool
                 = negb (secret_accepted env req)).
  { unfold secret_accepted. destruct (JS.truthy _), (bool_decide _); reflexivity. }
  rewrite Hsec, Hsecret. cbn [negb].
  unfold try_catch, Webhook.writeJson. rewrite Hh. reflexivity.
Qed.

(** X8. Every request gets exactly one response, and it is decided by the
    request alone: the health payload for GET on "/" or "/healthz", 404
    for anything else that is not a POST to the webhook path, 401 when a
    secret is configured and the header is not exactly that secret, 500
    when the body does not parse, and 200 otherwise. In that last case
    the response is not changed by what happens afterwards: an error in
    the command handler is logged and no second response is sent. The
    listener itself always returns normally. *)
Theorem one_response_per_request
    (R : Remote) (env : Env) (toUTCString : string -> string)
    (workflows : list Webhook.Workflow) (schedule : list nat)
    (req : Webhook.Request) (w : World) :
  headersSent w = false ->
  let out := Webhook.listener_with R env toUTCString workflows schedule req w in
  fst out = Ret tt
  /\ headersSent (snd out) = true
  /\ exists evs,
       trace (snd out) = trace w ++ evs
       /\ List.filter is_response evs = [response_for env req].
Proof.
  intros Hh out. subst out.
  destruct (is_health_check req) eqn:Hhealth.
  { rewrite listener_before_checks by auto. cbn.
    split; [reflexivity |]. split; [reflexivity |].
    eexists. split; [reflexivity |].
    unfold response_for. rewrite Hhealth. reflexivity. }
  destruct (is_webhook_post env req) eqn:Hpost.
  2:{ rewrite listener_before_checks by auto. cbn.
      split; [reflexivity |]. split; [reflexivity |].
      eexists. split; [reflexivity |].
      unfold response_for. rewrite Hhealth, Hpost. reflexivity. }
  destruct (secret_accepted env req) eqn:Hsecret.
  2:{ rewrite listener_before_checks by auto. cbn.
      split; [reflexivity |]. split; [reflexivity |].
      eexists. split; [reflexivity |].
      unfold response_for. rewrite Hhealth, Hpost, Hsecret. reflexivity. }
  rewrite listener_after_checks by assumption.
  unfold response_for. rewrite Hhealth, Hpost, Hsecret. cbn [negb].
  destruct (Webhook.body req) eqn:Hbody; cbn [payload_of].
  2:{ cbn. split; [reflexivity |]. split; [reflexivity |].
      eexists. split; [reflexivity | reflexivity]. }
  all: match goal with
       | |- context [Webhook.handleMessage_with _ _ _ _ _ ?payload _] =>
           destruct (handleMessage_only R env toUTCString workflows schedule
                       payload (acknowledged w)) as (evs & Ht & Hsent & Hnu & Hall);
           destruct (Webhook.handleMessage_with R env toUTCString workflows
                       schedule payload (acknowledged w)) as [[[]|e|] w2]
       end; cbn in Ht, Hsent, Hnu |- *; try contradiction.
  all: split; [reflexivity |]; split; [apply Hsent; reflexivity |].
  1,3: exists (EvRespond 200 PayloadOk :: evs);
       (split; [rewrite Ht, <- app_assoc; reflexivity |]);
       cbn; rewrite (no_response_among_command_effects evs Hall); reflexivity.
  all: exists (EvRespond 200 PayloadOk :: evs ++ [EvConsole (LogError e)]);
       (split; [rewrite Ht, <- !app_assoc; reflexivity |]);
       cbn; rewrite filter_response_app,
              (no_response_among_command_effects evs Hall); reflexivity.
Qed.

(** ** Who can make the webhook server act *)

Lemma is_from_operator_true chatId update :
  is_from_operator chatId update = true <-> from_operator chatId update.
Proof.
  unfold is_from_operator, from_operator. split.
  - destruct (message update) as [msg|]; [| discriminate].
    intros H. apply bool_decide_eq_true in H. eauto.
  - intros (msg & -> & H). apply bool_decide_eq_true. exact H.
Qed.

Lemma webhook_drops R env toUTCString workflows schedule update w :
  is_from_operator (default "" (TELEGRAM_CHAT_ID env)) update = false ->
  Webhook.handleMessage_with R env toUTCString workflows schedule (Some update) w
  = (Ret tt, w).
Proof.
  unfold is_from_operator, Webhook.handleMessage_with.
  destruct (message update) as [msg|]; [| reflexivity].
  intros H. apply bool_decide_eq_false in H.
  destruct (negb _); [reflexivity |].
  destruct (decide _) as [_|Hn]; [reflexivity | contradiction].
Qed.

Lemma no_command_call_in_responses evs :
  Forall (fun ev => is_response ev = true \/ is_console ev = true) evs ->
  existsb is_command_call evs = false.
Proof.
  induction 1 as [|ev evs Hev _ IH]; simpl; [reflexivity |].
  rewrite IH. destruct ev; simpl in *; try reflexivity;
    destruct Hev as [H|H]; discriminate H.
Qed.

(** X9. The webhook server notifies the operator or calls the automation
    platform only for a request that is a POST to the webhook path, that
    passed the secret check, and whose body is an update with a message
    from the configured operator. Any other request (wrong method or
    path, wrong or missing secret, empty or malformed body, another
    sender) causes no notification and no gateway call. *)
Theorem webhook_acts_only_for_the_operator
    (R : Remote) (env : Env) (toUTCString : string -> string)
    (workflows : list Webhook.Workflow) (schedule : list nat)
    (req : Webhook.Request) (w : World) (evs : list Event) :
  headersSent w = false ->
  trace (snd (Webhook.listener_with R env toUTCString workflows schedule req w))
  = trace w ++ evs ->
  existsb is_command_call evs = true ->
  is_webhook_post env req = true
  /\ secret_accepted env req = true
  /\ exists update,
       Webhook.body req = Webhook.BodyJson update
       /\ from_operator (default "" (TELEGRAM_CHAT_ID env)) update.
Proof.
  intros Hh Ht Hact.
  assert (Hquiet : forall evs' : list Event,
             trace w ++ evs = trace w ++ evs' ->
             Forall (fun ev => is_response ev = true \/ is_console ev = true) evs' ->
             False).
  { intros evs' Heq Hall. apply app_inv_head in Heq. subst evs'.
    rewrite (no_command_call_in_responses evs Hall) in Hact. discriminate Hact. }
  assert (Hone : (is_health_check req = true
                  \/ is_webhook_post env req = false
                  \/ secret_accepted env req = false) -> False).
  { intros Hcase.
    rewrite (listener_before_checks R env toUTCString workflows schedule req w
               Hcase Hh) in Ht.
    apply (Hquiet [response_for env req]); [symmetry; exact Ht |].
    constructor; [| constructor]. left. unfold response_for.
    repeat match goal with |- context [if ?c then _ else _] => destruct c end;
      try reflexivity.
    destruct (Webhook.body req); reflexivity. }
  destruct (is_health_check req) eqn:Hhealth; [exfalso; auto |].
  destruct (is_webhook_post env req) eqn:Hpost; [| exfalso; auto].
  destruct (secret_accepted env req) eqn:Hsecret; [| exfalso; auto].
  split; [reflexivity |]. split; [reflexivity |].
  rewrite (listener_after_checks R env toUTCString workflows schedule req w
             Hhealth Hpost Hsecret Hh) in Ht.
  destruct (Webhook.body req) as [| |update] eqn:Hbody; cbn [payload_of] in Ht.
  - (* no body: the handler throws on the null payload *)
    exfalso. cbn in Ht. rewrite <- app_assoc in Ht.
    apply (Hquiet _ (eq_sym Ht)).
    constructor; [left; reflexivity |].
    constructor; [right; reflexivity | constructor].
  - exfalso. cbn in Ht. apply (Hquiet _ (eq_sym Ht)).
    constructor; [right; reflexivity |].
    constructor; [left; reflexivity | constructor].
  - exists update. split; [reflexivity |].
    apply is_from_operator_true.
    destruct (is_from_operator (default "" (TELEGRAM_CHAT_ID env)) update)
      eqn:Hop; [reflexivity |].
    exfalso.
    rewrite (webhook_drops R env toUTCString workflows schedule update _ Hop)
      in Ht.
    cbn in Ht. apply (Hquiet _ (eq_sym Ht)).
    constructor; [left; reflexivity | constructor].
Qed.

Lemma webhook_acts_only_for_the_operator_witness :
  let u := Scenario.update 7 42 "/test" in
  let R := Scenario.remote [] Scenario.delivered Scenario.accepted
             Scenario.no_runs in
  let req := Scenario.post (Webhook.BodyJson u) None in
  is_webhook_post Scenario.env req = true
  /\ secret_accepted Scenario.env req = true
  /\ exists update,
       Webhook.body req = Webhook.BodyJson update
       /\ from_operator "42" update.
Proof.
  intros u R req.
  exact (webhook_acts_only_for_the_operator R Scenario.env Scenario.utc
           Webhook.MONITOR_WORKFLOWS [] req (initial FileAbsent)
           [EvRespond 200 PayloadOk;
            EvSendMessage "42" "✅ Bot is alive and running (webhook mode)."
              (HttpResponse 200 "{}")]
           eq_refl eq_refl eq_refl).
Defined.

Lemma one_response_per_request_witness :
  (* a valid "/trigger" from the operator, but with the wrong secret *)
  let env :=
    {| TELEGRAM_TOKEN := Some "123:abc"; TELEGRAM_CHAT_ID := Some "42";
       GITHUB_TOKEN := Some "ghp_x"; GITHUB_REPOSITORY := Some "owner/repo";
       GITHUB_REF_NAME := None; TELEGRAM_WEBHOOK_PATH := None;
       TELEGRAM_WEBHOOK_SECRET := Some "s3cret" |} in
  let R := Scenario.remote [] Scenario.delivered Scenario.accepted
             Scenario.no_runs in
  let req := Scenario.post (Webhook.BodyJson (Scenario.update 7 42 "/trigger"))
               (Some "guess") in
  exists evs,
    trace (snd (Webhook.listener R env Scenario.utc [] req (initial FileAbsent)))
    = [] ++ evs
    /\ List.filter is_response evs = [EvRespond 401 PayloadUnauthorized].
Proof.
  intros env R req.
  exact (proj2 (proj2 (one_response_per_request R env Scenario.utc
                         Webhook.MONITOR_WORKFLOWS [] req (initial FileAbsent)
                         eq_refl))).
Defined.

(** ** Missing messaging credentials *)

Lemma listener_only_from_handler R env toUTCString workflows schedule
    (P : Event -> Prop) req :
  (forall statusCode payload, P (EvRespond statusCode payload)) ->
  (forall entry, P (EvConsole entry)) ->
  (forall payload,
     adds (Webhook.handleMessage_with R env toUTCString workflows schedule
             payload) (only P)) ->
  adds (Webhook.listener_with R env toUTCString workflows schedule req)
       (only P).
Proof.
  intros Prespond Pconsole Hhandler.
  assert (Hw : forall c p, adds (Webhook.writeJson c p) (only P)).
  { intros c p w. unfold Webhook.writeJson.
    destruct (headersSent w) eqn:Hh; simpl.
    - exists []. rewrite app_nil_r. split; [reflexivity |]. split; [auto |].
      split; [discriminate | constructor].
    - exists [EvRespond c p]. split; [reflexivity |].
      split; [auto |]. split; [discriminate |].
      repeat constructor. apply Prespond. }
  unfold Webhook.listener_with.
  apply adds_only_try_catch.
  - destruct (_ && _)%bool; [apply Hw |].
    destruct (_ || _)%bool; [apply Hw |].
    destruct (_ && _)%bool; [apply Hw |].
    apply adds_only_bind.
    + unfold Webhook.readJsonBody.
      destruct (Webhook.body req);
        [apply adds_only_ret | apply adds_only_throw | apply adds_only_ret].
    + intros payload. apply adds_only_bind; [apply Hw |].
      intros _. apply Hhandler.
  - intros err. apply adds_only_bind; [apply adds_only_console, Pconsole |].
    intros _ w. destruct (negb (headersSent w)); [apply Hw |].
    exists []. simpl. rewrite app_nil_r. split; [reflexivity |].
    split; [auto |]. split; [discriminate | constructor].
Qed.

Lemma webhook_send_unconfigured R env body_text :
  telegram_configured env = false ->
  Webhook.sendTelegramMessage R env body_text
  = throw (JS.Error "Telegram credentials not configured").
Proof.
  intros Hno. unfold Webhook.sendTelegramMessage.
  assert (H : (negb (JS.truthy (default "" (TELEGRAM_TOKEN env)))
               || negb (JS.truthy (default "" (TELEGRAM_CHAT_ID env))))%bool
              = true).
  { unfold telegram_configured in Hno.
    destruct (JS.truthy (default "" (TELEGRAM_TOKEN env))),
             (JS.truthy (default "" (TELEGRAM_CHAT_ID env)));
      simpl in *; try reflexivity; discriminate Hno. }
  rewrite H. reflexivity.
Qed.

Lemma handleMessage_unconfigured R env toUTCString workflows schedule
    (P : Event -> Prop) update :
  telegram_configured env = false ->
  (forall entry, P (EvConsole entry)) ->
  (forall repo file r, P (EvListRuns repo file r)) ->
  adds (Webhook.handleMessage_with R env toUTCString workflows schedule update)
       (only P).
Proof.
  intros Hno Pconsole Pruns. unfold Webhook.handleMessage_with.
  destruct update as [u|]; [| apply adds_only_throw].
  destruct (message u) as [msg|]; [| apply adds_only_ret].
  destruct (negb _); [apply adds_only_ret |].
  destruct (decide _); [apply adds_only_ret |].
  rewrite !(webhook_send_unconfigured R env _ Hno).
  destruct (decide _); [apply adds_only_throw |].
  destruct (decide _); [apply adds_only_bind_throw |].
  destruct (decide _); [| apply adds_only_ret].
  apply adds_only_try_catch.
  - apply adds_only_bind.
    + apply adds_only_start_all. intros x.
      apply adds_only_bind; [| intros run; apply adds_only_ret].
      apply getLatestWorkflowRun_only. intros repo r. apply Pruns.
    + intros ps. apply adds_only_bind; [apply adds_only_Promise_all |].
      intros sts. rewrite (webhook_send_unconfigured R env _ Hno).
      apply adds_only_throw.
  - intros err. apply adds_only_bind; [apply adds_only_console, Pconsole |].
    intros _. apply adds_only_throw.
Qed.

(** X10. Without messaging credentials (token or operator chat missing
    or empty) the webhook server never sends a notification and never
    triggers a job, whatever it receives: [sendTelegramMessage] throws
    before building a request, and "/trigger" sends its starting
    notification before the first trigger. *)
Theorem nothing_sent_or_triggered_without_telegram_credentials
    (R : Remote) (env : Env) (toUTCString : string -> string)
    (workflows : list Webhook.Workflow) (schedule : list nat)
    (req : Webhook.Request) (w : World) :
  telegram_configured env = false ->
  exists evs,
    trace (snd (Webhook.listener_with R env toUTCString workflows schedule req w))
    = trace w ++ evs
    /\ existsb is_notification evs = false
    /\ existsb is_trigger evs = false.
Proof.
  intros Hno.
  set (P := fun ev => is_notification ev = false /\ is_trigger ev = false).
  assert (Prespond : forall statusCode payload, P (EvRespond statusCode payload))
    by (intros; split; reflexivity).
  assert (Pconsole : forall entry, P (EvConsole entry))
    by (intros; split; reflexivity).
  assert (Pruns : forall repo file r, P (EvListRuns repo file r))
    by (intros; split; reflexivity).
  destruct (listener_only_from_handler R env toUTCString workflows schedule
              P req Prespond Pconsole
              (fun payload =>
                 handleMessage_unconfigured R env toUTCString workflows schedule
                   P payload Hno Pconsole Pruns) w)
    as (evs & Ht & _ & _ & Hall).
  exists evs. split; [exact Ht |]. split.
  - apply existsb_false_of_Forall. eapply Forall_impl; [exact Hall |].
    intros ev [H _]. exact H.
  - apply existsb_false_of_Forall. eapply Forall_impl; [exact Hall |].
    intros ev [_ H]. exact H.
Qed.

Lemma nothing_sent_or_triggered_without_telegram_credentials_witness :
  let env :=
    {| TELEGRAM_TOKEN := None; TELEGRAM_CHAT_ID := Some "42";
       GITHUB_TOKEN := Some "ghp_x"; GITHUB_REPOSITORY := Some "owner/repo";
       GITHUB_REF_NAME := None; TELEGRAM_WEBHOOK_PATH := None;
       TELEGRAM_WEBHOOK_SECRET := None |} in
  let R := Scenario.remote [] Scenario.delivered Scenario.accepted
             Scenario.no_runs in
  let req := Scenario.post (Webhook.BodyJson (Scenario.update 7 42 "/trigger"))
               None in
  exists evs,
    trace (snd (Webhook.listener R env Scenario.utc [] req (initial FileAbsent)))
    = trace (initial FileAbsent) ++ evs
    /\ existsb is_notification evs = false
    /\ existsb is_trigger evs = false.
Proof.
  intros env R req.
  exact (nothing_sent_or_triggered_without_telegram_credentials R env
           Scenario.utc Webhook.MONITOR_WORKFLOWS [] req (initial FileAbsent)
           eq_refl).
Defined.

(** ** The status fan-out over any job list *)

Lemma first_rejected_finds {A} (promises : list (Res A)) (order : list nat)
    i e :
  promises !! i = Some (Throw e) ->
  In i order ->
  exists e', Webhook.first_rejected promises order = Some e'.
Proof.
  intros Hi. induction order as [|j order IH]; intros Hin; [destruct Hin |].
  simpl. destruct (promises !! j) as [[a|e'|]|] eqn:Hj; eauto;
    destruct Hin as [-> | Hin]; auto; rewrite Hi in Hj; discriminate Hj.
Qed.

Lemma Promise_all_rejects {A} schedule (promises : list (Res A)) i e w :
  promises !! i = Some (Throw e) ->
  exists e', Webhook.Promise_all schedule promises w = (Throw e', w).
Proof.
  intros Hi. unfold Webhook.Promise_all.
  destruct (first_rejected_finds promises
              (schedule ++ seq 0 (length promises)) i e Hi) as (e' & ->).
  - apply in_or_app. right. apply in_seq.
    apply lookup_lt_Some in Hi. lia.
  - eauto.
Qed.

Section StatusFanOut.
Variable R : Remote.
Variable env : Env.
Variable toUTCString : string -> string.
Hypothesis github_set : github_configured env = true.

Lemma status_query_run (workflow : Webhook.Workflow) w :
  let repo := default "" (GITHUB_REPOSITORY env) in
  let reply := github_runs R (clock w) repo (Webhook.file workflow) in
  (run <- Webhook.getLatestWorkflowRun R env (Webhook.file workflow) ;;
   ret (Webhook.label workflow, run)) w
  = (promise_of workflow reply,
     waited R (EvListRuns repo (Webhook.file workflow) reply) w).
Proof.
  intros repo reply.
  unfold Webhook.getLatestWorkflowRun, Webhook.githubContext.
  rewrite (github_is_configured env github_set).
  unfold fetch_runs, await_fetch, bind, ret. cbn [Webhook.repo].
  fold repo. fold reply. unfold promise_of.
  destruct reply as [|st b [runs|]]; [reflexivity | |];
    destruct (negb (JS.status_ok st)); reflexivity.
Qed.

Lemma status_replies_length (workflows : list Webhook.Workflow) repo t :
  length (status_replies R repo workflows t) = length workflows.
Proof.
  revert t. induction workflows as [|x xs IH]; intros t; simpl;
    [reflexivity | rewrite IH; reflexivity].
Qed.

Lemma start_all_run (workflows : list Webhook.Workflow) w :
  let replies := status_replies R (default "" (GITHUB_REPOSITORY env))
                   workflows (clock w) in
  exists w',
    Webhook.start_all
      (fun workflow =>
         run <- Webhook.getLatestWorkflowRun R env (Webhook.file workflow) ;;
         ret (Webhook.label workflow, run)) workflows w
    = (Ret (zip_with promise_of workflows replies), w')
    /\ trace w' = trace w ++ status_queries (default "" (GITHUB_REPOSITORY env))
                               workflows replies
    /\ headersSent w' = headersSent w.
Proof.
  revert w. induction workflows as [|x xs IH]; intros w.
  - exists w. simpl. rewrite app_nil_r. auto.
  - set (reply := github_runs R (clock w) (default "" (GITHUB_REPOSITORY env))
                    (Webhook.file x)).
    set (w1 := waited R (EvListRuns (default "" (GITHUB_REPOSITORY env))
                           (Webhook.file x) reply) w).
    assert (Hfirst :
      Webhook.async_start
        (run <- Webhook.getLatestWorkflowRun R env (Webhook.file x) ;;
         ret (Webhook.label x, run)) w
      = (Ret (promise_of x reply), w1)).
    { unfold Webhook.async_start. rewrite status_query_run. reflexivity. }
    destruct (IH w1) as (w' & Hrun & Ht & Hh).
    assert (Hclock : clock w1 = S (clock w)) by apply clock_waited.
    rewrite Hclock in Hrun, Ht.
    cbv zeta. cbn [status_replies]. fold reply.
    exists w'. split.
    + cbn [Webhook.start_all].
      rewrite (bind_run _ _ _ _ _ Hfirst), (bind_run _ _ _ _ _ Hrun).
      reflexivity.
    + split; [| rewrite Hh; reflexivity].
      rewrite Ht. unfold w1. simpl. rewrite <- app_assoc. reflexivity.
Qed.

Lemma promises_of_good_replies (workflows : list Webhook.Workflow) replies runs :
  length replies = length workflows ->
  Forall2 (fun reply run => run_of_reply reply = Some run) replies runs ->
  Forall (fun p => forall e, p <> Throw e) (zip_with promise_of workflows replies)
  /\ Webhook.fulfilled (zip_with promise_of workflows replies)
     = zip_with (fun workflow run => (Webhook.label workflow, run)) workflows runs.
Proof.
  intros Hlen Hgood. revert workflows Hlen.
  induction Hgood as [|reply run replies runs Hr _ IH]; intros workflows Hlen.
  - destruct workflows; [| discriminate Hlen]. split; [constructor | reflexivity].
  - destruct workflows as [|x xs]; [discriminate Hlen |].
    simpl in Hlen. injection Hlen as Hlen.
    destruct (IH xs Hlen) as [Hall Hful].
    assert (Hp : promise_of x reply = Ret (Webhook.label x, run)).
    { unfold promise_of, run_of_reply in *.
      destruct reply as [|st b [wr|]]; try discriminate Hr.
      destruct (JS.status_ok st); [| discriminate Hr].
      injection Hr as <-. reflexivity. }
    cbn [zip_with]. rewrite Hp. split.
    + constructor; [discriminate | exact Hall].
    + unfold Webhook.fulfilled in *. cbn [omap list_omap]. fold (@omap list _).
      cbn. f_equal. exact Hful.
Qed.

Lemma promise_of_bad_reply (workflows : list Webhook.Workflow) replies :
  length replies = length workflows ->
  Exists (fun reply => run_of_reply reply = None) replies ->
  exists i e, zip_with promise_of workflows replies !! i = Some (Throw e).
Proof.
  intros Hlen Hbad. revert workflows Hlen.
  induction Hbad as [reply replies Hr | reply replies _ IH];
    intros workflows Hlen;
    (destruct workflows as [|x xs]; [discriminate Hlen |]).
  - exists 0%nat. cbn [zip_with]. unfold promise_of, run_of_reply in *.
    destruct reply as [|st b [wr|]]; [eexists; reflexivity | |].
    + destruct (JS.status_ok st); [discriminate Hr |].
      eexists; reflexivity.
    + destruct (JS.status_ok st); eexists; reflexivity.
  - simpl in Hlen. injection Hlen as Hlen.
    destruct (IH xs Hlen) as (i & e & Hi). exists (S i), e. exact Hi.
Qed.
End StatusFanOut.

Lemma telegram_is_configured env :
  telegram_configured env = true ->
  default "" (TELEGRAM_TOKEN env) <> "" /\ default "" (TELEGRAM_CHAT_ID env) <> "".
Proof.
  unfold telegram_configured. intros H. apply andb_true_iff in H as [Ht Hc].
  split; intros E; [rewrite E in Ht; discriminate Ht
                   | rewrite E in Hc; discriminate Hc].
Qed.

(** X11. The status report for any job list. When the operator sends
    "/status", every job of the list is queried, in list order, before
    anything else happens; and when every query is answered with a
    success, the notification sent next is the report: the heading
    followed by one line per job, in list order, whatever the order in
    which the queries complete. A job without a run (no [workflow_runs]
    field, or an empty list) gets its line like the others. *)
Theorem status_report_covers_every_job
    (R : Remote) (env : Env) (toUTCString : string -> string)
    (workflows : list Webhook.Workflow) (schedule : list nat)
    (update : TelegramUpdate) (w : World) :
  let chatId := default "" (TELEGRAM_CHAT_ID env) in
  let repo := default "" (GITHUB_REPOSITORY env) in
  github_configured env = true ->
  telegram_configured env = true ->
  from_operator chatId update ->
  command_of update = JS.lit "/status" ->
  let replies := status_replies R repo workflows (clock w) in
  forall runs,
    Forall2 (fun reply run => run_of_reply reply = Some run) replies runs ->
    exists sent rest,
      trace (snd (Webhook.handleMessage_with R env toUTCString workflows
                    schedule (Some update) w))
      = trace w ++ status_queries repo workflows replies
                ++ EvSendMessage chatId
                     (status_report toUTCString workflows runs) sent
                   :: rest
      /\ (reply_ok sent = true -> rest = []).
Proof.
  intros chatId repo Hgh Htg Hop Hcmd replies runs Hgood.
  pose proof (status_replies_length R workflows repo (clock w)) as Hlen.
  fold replies in Hlen.
  destruct (telegram_is_configured env Htg) as [Htok Hchat].
  rewrite (webhook_route R env toUTCString workflows schedule update Hchat Hop).
  cbv zeta. rewrite Hcmd.
  repeat case_decide; try discriminate; try contradiction.
  destruct (start_all_run R env Hgh workflows w) as (w1 & Hstart & Ht1 & _).
  fold repo in Hstart, Ht1. fold replies in Hstart, Ht1.
  destruct (promises_of_good_replies workflows replies runs Hlen Hgood)
    as [Hnone Hful].
  unfold try_catch. rewrite (bind_run _ _ _ _ _ Hstart).
  unfold bind at 1. unfold Webhook.Promise_all.
  rewrite first_rejected_none by exact Hnone.
  cbn [ret]. rewrite Hful.
  assert (Hlines :
    JS.join JS.newline
      ("📊 Monitor status"
       :: map (Webhook.status_line toUTCString)
            (zip_with (fun workflow run => (Webhook.label workflow, run))
               workflows runs))
    = status_report toUTCString workflows runs).
  { unfold status_report. do 2 f_equal.
    clear. revert runs. induction workflows as [|x xs IH]; intros [|r rs];
      simpl; try reflexivity. f_equal. apply IH. }
  rewrite Hlines.
  destruct (sendTelegramMessage_run R env
              (status_report toUTCString workflows runs) w1 Htok Hchat)
    as (r & Hsend & Hnu & Hret).
  rewrite Hsend. fold chatId in Hret |- *.
  set (sent := telegram_sendMessage R (clock w1) chatId
                 (status_report toUTCString workflows runs)) in *.
  exists sent.
  destruct r as [[]|e|]; [| | contradiction].
  - exists []. cbn. rewrite Ht1, <- !app_assoc. split; reflexivity.
  - destruct (adds_only_bind is_command_effect
                (console (LogError e))
                (fun _ => Webhook.sendTelegramMessage R env
                            "❌ Failed to fetch workflow status.")
                (adds_only_console _ _ I)
                (fun _ => sendTelegramMessage_only R env _)
                (waited R (EvSendMessage chatId
                             (status_report toUTCString workflows runs) sent) w1))
      as (rest & Ht & _).
    exists rest. rewrite Ht. cbn. rewrite Ht1, <- !app_assoc.
    split; [reflexivity |].
    intros Hok. apply Hret in Hok. discriminate Hok.
Qed.

(** X12. All or nothing. When any of the status queries fails (the
    request cannot be made, the status is not a success, or the body is
    not JSON), no report is sent: after the queries, which are all
    issued, the error is logged and the one notification is the failure
    notice. *)
Theorem failed_status_query_sends_no_report
    (R : Remote) (env : Env) (toUTCString : string -> string)
    (workflows : list Webhook.Workflow) (schedule : list nat)
    (update : TelegramUpdate) (w : World) :
  let chatId := default "" (TELEGRAM_CHAT_ID env) in
  let repo := default "" (GITHUB_REPOSITORY env) in
  github_configured env = true ->
  telegram_configured env = true ->
  from_operator chatId update ->
  command_of update = JS.lit "/status" ->
  let replies := status_replies R repo workflows (clock w) in
  Exists (fun reply => run_of_reply reply = None) replies ->
  exists e r,
    trace (snd (Webhook.handleMessage_with R env toUTCString workflows
                  schedule (Some update) w))
    = trace w ++ status_queries repo workflows replies
              ++ [EvConsole (LogError e);
                  EvSendMessage chatId status_failure_text r].
Proof.
  intros chatId repo Hgh Htg Hop Hcmd replies Hbad.
  pose proof (status_replies_length R workflows repo (clock w)) as Hlen.
  fold replies in Hlen.
  destruct (telegram_is_configured env Htg) as [Htok Hchat].
  rewrite (webhook_route R env toUTCString workflows schedule update Hchat Hop).
  cbv zeta. rewrite Hcmd.
  repeat case_decide; try discriminate; try contradiction.
  destruct (start_all_run R env Hgh workflows w) as (w1 & Hstart & Ht1 & _).
  fold repo in Hstart, Ht1. fold replies in Hstart, Ht1.
  destruct (promise_of_bad_reply workflows replies Hlen Hbad) as (i & e0 & Hi).
  unfold try_catch. rewrite (bind_run _ _ _ _ _ Hstart).
  destruct (Promise_all_rejects schedule _ i e0 w1 Hi) as (e & Hall).
  rewrite (bind_throw _ _ _ _ _ Hall).
  unfold bind, console, emit.
  match goal with
  | |- context [Webhook.sendTelegramMessage R env ?t ?w3] =>
      destruct (sendTelegramMessage_run R env t w3 Htok Hchat)
        as (r & Hsend & _ & _); rewrite Hsend
  end.
  exists e. eexists. cbn. rewrite Ht1, <- !app_assoc. reflexivity.
Qed.

(** ** The registration script and the server *)

(** X13. The server accepts what the script registers. Whenever the
    registration script sends its request, the URL it registers is the
    public base URL resolved against the very path the server listens
    on, and the secret it registers (none when the variable is unset or
    empty) is the one the server checks: an update posted with exactly
    that secret header (or without one when none was registered) passes
    the server's secret check, and when a secret was registered an
    update with any other header, or none, does not. *)
Theorem server_accepts_what_the_script_registers
    (env : Env) (base : option string)
    (resolve : string -> string -> option string)
    (setWebhook : string -> string -> option string -> SetWebhook.Reply)
    (token url : string) (registered : option string) (r : SetWebhook.Reply) :
  In (SetWebhook.Request token url registered r)
     (snd (SetWebhook.script env base resolve setWebhook)) ->
  resolve (Webhook.webhookPath env) (default "" base) = Some url
  /\ token = default "" (TELEGRAM_TOKEN env)
  /\ token <> ""
  /\ (forall req, Webhook.secret_token req = registered ->
                  secret_accepted env req = true)
  /\ (forall secret req, registered = Some secret ->
                         Webhook.secret_token req <> Some secret ->
                         secret_accepted env req = false).
Proof.
  unfold SetWebhook.script, Webhook.webhookPath, secret_accepted,
    Webhook.webhookSecret.
  destruct (JS.truthy (default "" (TELEGRAM_TOKEN env))) eqn:Htok.
  2:{ cbn. intros [H | H]; [discriminate H | destruct H]. }
  destruct (JS.truthy (default "" base));
    [| cbn; intros [H | H]; [discriminate H | destruct H]].
  cbn [negb orb].
  destruct (resolve _ _) as [u|]; [| cbn; intros H; destruct H].
  set (secret := default "" (TELEGRAM_WEBHOOK_SECRET env)).
  set (st := if JS.truthy secret then Some secret else None).
  assert (Hin : SetWebhook.Request (default "" (TELEGRAM_TOKEN env)) u st
                  (setWebhook (default "" (TELEGRAM_TOKEN env)) u st)
                = SetWebhook.Request token url registered r ->
                Some u = Some url
                /\ token = default "" (TELEGRAM_TOKEN env)
                /\ token <> ""
                /\ (forall req, Webhook.secret_token req = registered ->
                      (negb (JS.truthy secret)
                       || bool_decide (Webhook.secret_token req = Some secret))%bool
                      = true)
                /\ (forall s req, registered = Some s ->
                      Webhook.secret_token req <> Some s ->
                      (negb (JS.truthy secret)
                       || bool_decide (Webhook.secret_token req = Some secret))%bool
                      = false)).
  { intros H. injection H as <- <- <- _.
    split; [reflexivity |]. split; [reflexivity |].
    split; [intros E; rewrite E in Htok; discriminate Htok |].
    subst st. destruct (JS.truthy secret); cbn [negb orb].
    - split.
      + intros req ->. apply bool_decide_eq_true. reflexivity.
      + intros s req [= <-] Hne. apply bool_decide_eq_false. exact Hne.
    - split; [reflexivity | intros s req H; discriminate H]. }
  destruct (setWebhook _ _ _) as [|status [j|]] eqn:Hreply.
  - cbn. intros [H | H]; [apply Hin; exact H | destruct H].
  - destruct (negb (JS.status_ok status)); cbn;
      (intros [H | [H | H]];
       [apply Hin; exact H | discriminate H | destruct H]).
  - cbn. intros [H | H]; [apply Hin; exact H | destruct H].
Qed.

(** ** Whitespace around a command *)

Lemma trimStart_whitespace s :
  forallb JS.is_whitespace s = true -> JS.trimStart s = [].
Proof.
  induction s as [|c s IH]; [reflexivity |]. simpl.
  destruct (JS.is_whitespace c); [exact IH | discriminate].
Qed.

Lemma trimStart_app s t :
  JS.trimStart (s ++ t)
  = if forallb JS.is_whitespace s then JS.trimStart t else JS.trimStart s ++ t.
Proof.
  induction s as [|c s IH]; [reflexivity |]. simpl.
  destruct (JS.is_whitespace c); [exact IH | reflexivity].
Qed.

Lemma forallb_rev {A} (f : A -> bool) l : forallb f (rev l) = forallb f l.
Proof.
  induction l as [|x l IH]; [reflexivity |]. simpl.
  rewrite forallb_app, IH. simpl. rewrite andb_true_r. apply andb_comm.
Qed.

Lemma trim_padding pre body post :
  forallb JS.is_whitespace pre = true ->
  forallb JS.is_whitespace post = true ->
  JS.trim (pre ++ body ++ post) = JS.trim body.
Proof.
  intros Hpre Hpost. unfold JS.trim.
  rewrite trimStart_app, Hpre, trimStart_app.
  destruct (forallb JS.is_whitespace body) eqn:Hbody.
  - rewrite (trimStart_whitespace post Hpost),
      (trimStart_whitespace body Hbody). reflexivity.
  - rewrite rev_app_distr, trimStart_app, forallb_rev, Hpost. reflexivity.
Qed.

(** X14. Whitespace around a command does not matter. An update whose
    text is padded with white space or line terminators, before or
    after, is handled exactly as the update with the bare text, by the
    poller and by the webhook server: same effects, same result. *)
Theorem surrounding_whitespace_is_ignored
    (R : Remote) (env : Env) (toUTCString : string -> string)
    (schedule : list nat) (jobs : list string)
    (workflows : list Webhook.Workflow) (token chatId : string)
    (id chat : Z) (pre body post : JS.jsstring) (w : World) :
  forallb JS.is_whitespace pre = true ->
  forallb JS.is_whitespace post = true ->
  Poller.on_update R env jobs token chatId
    (text_update id chat (pre ++ body ++ post)) w
  = Poller.on_update R env jobs token chatId (text_update id chat body) w
  /\ Webhook.handleMessage_with R env toUTCString workflows schedule
       (Some (text_update id chat (pre ++ body ++ post))) w
     = Webhook.handleMessage_with R env toUTCString workflows schedule
         (Some (text_update id chat body)) w.
Proof.
  intros Hpre Hpost.
  unfold Poller.on_update, Webhook.handleMessage_with, text_update.
  cbn [message text chat_id fmap option_fmap option_map].
  rewrite (trim_padding pre body post Hpre Hpost). split; reflexivity.
Qed.

(** ** The properties above on concrete runs *)

Lemma trigger_without_github_credentials_is_reported_witness :
  let env :=
    {| TELEGRAM_TOKEN := Some "123:abc"; TELEGRAM_CHAT_ID := Some "42";
       GITHUB_TOKEN := None; GITHUB_REPOSITORY := Some "owner/repo";
       GITHUB_REF_NAME := None; TELEGRAM_WEBHOOK_PATH := None;
       TELEGRAM_WEBHOOK_SECRET := None |} in
  let R := Scenario.remote [] Scenario.delivered Scenario.accepted
             Scenario.no_runs in
  let u := Scenario.update 8 42 "/trigger" in
  let w := initial FileAbsent in
  (exists r0 r1,
     trace (snd (Poller.on_update R env Scenario.jobs_ABC "123:abc" "42" u w))
     = trace w ++
       [ EvSendMessage "42" start_text r0;
         EvConsole (LogError
           (JS.Error "GitHub dispatch credentials not available"));
         EvSendMessage "42" failure_text r1 ])
  /\ (exists r0 r1,
        trace (snd (Webhook.handleMessage_with R env Scenario.utc
                      Scenario.workflows_ABC [] (Some u) w))
        = trace w ++
          [ EvSendMessage "42" start_text r0;
            EvConsole (LogError
              (JS.Error
                 "GitHub credentials not configured (GITHUB_TOKEN/GITHUB_REPOSITORY)"));
            EvSendMessage "42" failure_text r1 ]).
Proof.
  intros env R u w.
  assert (Hop : from_operator "42" u).
  { exists {| chat_id := 42; text := Some (JS.lit "/trigger") |}.
    split; reflexivity. }
  destruct (trigger_without_github_credentials_is_reported R env Scenario.utc
              [] "A.yml" ["B.yml"; "C.yml"] Scenario.job_A
              [Scenario.job_B; {| Webhook.file := "C.yml"; Webhook.label := "C" |}]
              "123:abc" "42" u w eq_refl Hop eq_refl)
    as [Hp Hw].
  split.
  - apply Hp. discriminate.
  - apply Hw; [reflexivity | discriminate | reflexivity].
Defined.

Lemma trigger_reaches_every_job_witness :
  let R := Scenario.remote [] Scenario.delivered Scenario.accepted
             Scenario.no_runs in
  let u := Scenario.update 8 42 "/trigger" in
  let w := initial FileAbsent in
  exists r0 fan_out r1,
    trace (snd (Poller.on_update R Scenario.env Scenario.jobs_ABC
                  "123:abc" "42" u w))
    = trace w ++ EvSendMessage "42" start_text r0
                 :: fan_out ++ [EvSendMessage "42" success_text r1]
    /\ triggers fan_out = all_ok Scenario.jobs_ABC
    /\ Forall (fun ev => is_trigger ev = true) fan_out.
Proof.
  intros R u w.
  assert (Hop : from_operator "42" u).
  { exists {| chat_id := 42; text := Some (JS.lit "/trigger") |}.
    split; reflexivity. }
  exact (proj2 (proj1 (trigger_reaches_every_job R Scenario.env Scenario.utc
                         [] Scenario.jobs_ABC Scenario.workflows_ABC
                         "123:abc" "42" u w eq_refl
                         (fun _ _ _ _ => eq_refl) (fun _ _ _ => eq_refl)
                         Hop eq_refl))).
Defined.

Lemma status_report_covers_every_job_witness :
  let R := Scenario.remote [] Scenario.delivered Scenario.accepted
             Scenario.only_B_ran in
  let u := Scenario.update 7 42 "/status" in
  let w := initial FileAbsent in
  let jobs := [Scenario.job_A; Scenario.job_B] in
  exists sent rest,
    (* the query for [B] completes first *)
    trace (snd (Webhook.handleMessage_with R Scenario.env Scenario.utc jobs
                  [1%nat; 0%nat] (Some u) w))
    = trace w
      ++ status_queries "owner/repo" jobs
           (status_replies R "owner/repo" jobs (clock w))
      ++ EvSendMessage "42"
           (status_report Scenario.utc jobs [None; Some Scenario.a_run]) sent
         :: rest
    /\ (reply_ok sent = true -> rest = []).
Proof.
  intros R u w jobs.
  assert (Hop : from_operator "42" u).
  { exists {| chat_id := 42; text := Some (JS.lit "/status") |}.
    split; reflexivity. }
  apply (status_report_covers_every_job R Scenario.env Scenario.utc jobs
           [1%nat; 0%nat] u w eq_refl eq_refl Hop eq_refl
           [None; Some Scenario.a_run]).
  constructor; [reflexivity |]. constructor; [reflexivity |]. constructor.
Defined.

Lemma failed_status_query_sends_no_report_witness :
  (* the platform answers the query for [B] only *)
  let on_runs := fun workflowFile : string =>
                   if String.eqb workflowFile "B.yml" then Scenario.no_runs workflowFile
                   else RunsHttp 404 "Not Found" None in
  let R := Scenario.remote [] Scenario.delivered Scenario.accepted on_runs in
  let u := Scenario.update 7 42 "/status" in
  let w := initial FileAbsent in
  let jobs := [Scenario.job_A; Scenario.job_B] in
  exists e r,
    trace (snd (Webhook.handleMessage_with R Scenario.env Scenario.utc jobs
                  [] (Some u) w))
    = trace w
      ++ status_queries "owner/repo" jobs
           (status_replies R "owner/repo" jobs (clock w))
      ++ [EvConsole (LogError e);
          EvSendMessage "42" status_failure_text r].
Proof.
  intros on_runs R u w jobs.
  assert (Hop : from_operator "42" u).
  { exists {| chat_id := 42; text := Some (JS.lit "/status") |}.
    split; reflexivity. }
  apply (failed_status_query_sends_no_report R Scenario.env Scenario.utc jobs
           [] u w eq_refl eq_refl Hop eq_refl).
  left. reflexivity.
Defined.

Lemma server_accepts_what_the_script_registers_witness :
  let env :=
    {| TELEGRAM_TOKEN := Some "123:abc"; TELEGRAM_CHAT_ID := Some "42";
       GITHUB_TOKEN := None; GITHUB_REPOSITORY := None;
       GITHUB_REF_NAME := None; TELEGRAM_WEBHOOK_PATH := Some "/hook";
       TELEGRAM_WEBHOOK_SECRET := Some "s3cret" |} in
  let resolve := fun path base : string => Some (base ++ path)%string in
  resolve (Webhook.webhookPath env) "https://bot.example"
  = Some "https://bot.example/hook"
  /\ "123:abc" = default "" (TELEGRAM_TOKEN env)
  /\ "123:abc" <> ""
  /\ (forall req, Webhook.secret_token req = Some "s3cret" ->
                  secret_accepted env req = true)
  /\ (forall secret req, Some "s3cret" = Some secret ->
                         Webhook.secret_token req <> Some secret ->
                         secret_accepted env req = false).
Proof.
  intros env resolve.
  apply (server_accepts_what_the_script_registers env
           (Some "https://bot.example") resolve
           (fun _ _ _ => SetWebhook.Response 200 (Some "{ }"))
           "123:abc" "https://bot.example/hook" (Some "s3cret")
           (SetWebhook.Response 200 (Some "{ }"))).
  left. reflexivity.
Defined.

Lemma surrounding_whitespace_is_ignored_witness :
  let R := Scenario.remote [] Scenario.delivered Scenario.accepted
             Scenario.no_runs in
  let w := initial FileAbsent in
  let padded := JS.lit "  " ++ JS.lit "/trigger" ++ [9; 10]%N in
  Poller.on_update R Scenario.env Scenario.jobs_ABC "123:abc" "42"
    (text_update 8 42 padded) w
  = Poller.on_update R Scenario.env Scenario.jobs_ABC "123:abc" "42"
      (text_update 8 42 (JS.lit "/trigger")) w
  /\ Webhook.handleMessage_with R Scenario.env Scenario.utc
       Scenario.workflows_ABC [] (Some (text_update 8 42 padded)) w
     = Webhook.handleMessage_with R Scenario.env Scenario.utc
         Scenario.workflows_ABC [] (Some (text_update 8 42 (JS.lit "/trigger"))) w.
Proof.
  intros R w padded.
  exact (surrounding_whitespace_is_ignored R Scenario.env Scenario.utc []
           Scenario.jobs_ABC Scenario.workflows_ABC "123:abc" "42" 8 42
           (JS.lit "  ") (JS.lit "/trigger") [9; 10]%N w eq_refl eq_refl).
Defined.

(** ** The trigger fan-out, request by request (C6) *)

Lemma triggers_dispatch repo f ref r evs :
  triggers (EvDispatch repo f ref r :: evs) = (f, reply_ok r) :: triggers evs.
Proof. reflexivity. Qed.

Section TriggerRun.
Variable R : Remote.
Variables repo ref : string.
Variable A : Type.
Variable body : A -> M unit.
Variable name : A -> string.

(* one trigger: the request is made, and the call returns exactly when
   the reply is a success *)
Hypothesis body_run :
  forall x w,
    exists res,
      body x w
      = (res, waited R (EvDispatch repo (name x) ref
                          (github_dispatch R (clock w) repo (name x) ref)) w)
      /\ (reply_ok (github_dispatch R (clock w) repo (name x) ref) = true ->
          res = Ret tt)
      /\ (reply_ok (github_dispatch R (clock w) repo (name x) ref) = false ->
          exists e, res = Throw e).

Lemma for_of_trigger_requests xs w :
  exists res w',
    for_of body xs w = (res, w')
    /\ trace w' = trace w ++ trigger_requests R repo ref (map name xs) (clock w)
    /\ ((res = Ret tt
         /\ triggers (trigger_requests R repo ref (map name xs) (clock w))
            = all_ok (map name xs))
        \/ (exists e done b todo,
              res = Throw e
              /\ map name xs = done ++ b :: todo
              /\ triggers (trigger_requests R repo ref (map name xs) (clock w))
                 = all_ok done ++ [(b, false)])).
Proof.
  revert w. induction xs as [|x xs IH]; intros w.
  - exists (Ret tt), w. simpl. rewrite app_nil_r. auto.
  - destruct (body_run x w) as (res & Hrun & Hok & Hko).
    set (r := github_dispatch R (clock w) repo (name x) ref) in *.
    set (w1 := waited R (EvDispatch repo (name x) ref r) w) in *.
    cbn [for_of map trigger_requests]. fold r.
    destruct (reply_ok r) eqn:Hr.
    + rewrite (Hok eq_refl) in Hrun.
      destruct (IH w1) as (res' & w' & Hfor & Ht & Hout).
      assert (Hclock : clock w1 = S (clock w)) by apply clock_waited.
      rewrite Hclock in Ht, Hout.
      exists res', w'. rewrite (bind_run _ _ _ _ _ Hrun).
      split; [exact Hfor |]. split.
      * rewrite Ht. unfold w1. simpl. rewrite <- app_assoc. reflexivity.
      * rewrite triggers_dispatch, Hr.
        destruct Hout as [[-> Htr] | (e & done & b & todo & -> & Hjobs & Htr)].
        -- left. split; [reflexivity |]. rewrite Htr. reflexivity.
        -- right. exists e, (name x :: done), b, todo.
           split; [reflexivity |]. split; [rewrite Hjobs; reflexivity |].
           rewrite Htr. reflexivity.
    + destruct (Hko eq_refl) as (e & ->).
      exists (Throw e), w1. rewrite (bind_throw _ _ _ _ _ Hrun).
      split; [reflexivity |]. split; [reflexivity |].
      right. exists e, [], (name x), (map name xs).
      split; [reflexivity |]. split; [reflexivity |].
      rewrite triggers_dispatch, Hr. reflexivity.
Qed.

Variable chat : string.
Variable delivered : HttpReply -> bool.
Variable send : string -> M unit.

(* one notification: the request is made, and the call returns exactly
   when the reply counts as delivered *)
Hypothesis send_run :
  forall body_text w,
    exists res,
      send body_text w
      = (res, waited R (EvSendMessage chat body_text
                          (telegram_sendMessage R (clock w) chat body_text)) w)
      /\ (delivered (telegram_sendMessage R (clock w) chat body_text) = true ->
          res = Ret tt)
      /\ (delivered (telegram_sendMessage R (clock w) chat body_text) = false ->
          exists e, res = Throw e).

Lemma trigger_command_run xs w :
  delivered (telegram_sendMessage R (clock w) chat start_text) = true ->
  exists r0 tail,
    trace (snd ((send start_text ;;
                 try_catch (for_of body xs ;; send success_text)
                   (fun error => console (LogError error) ;; send failure_text))
                  w))
    = trace w ++ EvSendMessage chat start_text r0
                 :: trigger_requests R repo ref (map name xs) (S (clock w))
                 ++ tail
    /\ fan_out_outcome delivered chat (map name xs)
         (trigger_requests R repo ref (map name xs) (S (clock w))) tail.
Proof.
  intros Hstart.
  destruct (send_run start_text w) as (res0 & Hs0 & Hok0 & _).
  rewrite (Hok0 Hstart) in Hs0.
  set (r0 := telegram_sendMessage R (clock w) chat start_text) in *.
  set (w1 := waited R (EvSendMessage chat start_text r0) w) in *.
  rewrite (bind_run _ _ _ _ _ Hs0).
  destruct (for_of_trigger_requests xs w1) as (res & w2 & Hfor & Ht2 & Hout).
  assert (Hclock : clock w1 = S (clock w)) by apply clock_waited.
  rewrite Hclock in Ht2, Hout.
  set (loop := trigger_requests R repo ref (map name xs) (S (clock w))) in *.
  assert (Ht2' : trace w2 = trace w ++ EvSendMessage chat start_text r0 :: loop).
  { rewrite Ht2. unfold w1. simpl. rewrite <- app_assoc. reflexivity. }
  exists r0. unfold try_catch.
  destruct Hout as [[-> Htr] | (e & done & b & todo & -> & Hjobs & Htr)].
  - rewrite (bind_run _ _ _ _ _ Hfor).
    destruct (send_run success_text w2) as (res1 & Hs1 & Hok1 & Hko1).
    set (r1 := telegram_sendMessage R (clock w2) chat success_text) in *.
    rewrite Hs1.
    destruct (delivered r1) eqn:Hd.
    + rewrite (Hok1 eq_refl). exists [EvSendMessage chat success_text r1].
      split.
      * simpl. rewrite Ht2', <- app_assoc. reflexivity.
      * left. split; [exact Htr |]. exists r1, [].
        split; [reflexivity |].
        split; [intros _; reflexivity | intros H; congruence].
    + destruct (Hko1 eq_refl) as (e & ->).
      unfold bind at 1, console, emit.
      match goal with
      | |- context [send failure_text ?w4] =>
          destruct (send_run failure_text w4) as (res2 & Hs2 & _ & _);
          rewrite Hs2;
          set (r2 := telegram_sendMessage R (clock w4) chat failure_text)
      end.
      exists [EvSendMessage chat success_text r1; EvConsole (LogError e);
              EvSendMessage chat failure_text r2].
      split.
      * simpl. rewrite Ht2', <- !app_assoc. reflexivity.
      * left. split; [exact Htr |].
        exists r1, [EvConsole (LogError e); EvSendMessage chat failure_text r2].
        split; [reflexivity |]. split; [intros H; congruence |].
        intros _. exists e, r2. reflexivity.
  - rewrite (bind_throw _ _ _ _ _ Hfor).
    unfold bind at 1, console, emit.
    match goal with
    | |- context [send failure_text ?w4] =>
        destruct (send_run failure_text w4) as (res2 & Hs2 & _ & _);
        rewrite Hs2;
        set (r2 := telegram_sendMessage R (clock w4) chat failure_text)
    end.
    exists [EvConsole (LogError e); EvSendMessage chat failure_text r2].
    split.
    + simpl. rewrite Ht2', <- !app_assoc. reflexivity.
    + right. exists done, b, todo, e, r2. auto.
Qed.
End TriggerRun.

Lemma poller_dispatch_run R env f w :
  github_configured env = true ->
  let repo := default "" (GITHUB_REPOSITORY env) in
  let ref := default "main" (GITHUB_REF_NAME env) in
  exists res,
    Poller.dispatchWorkflow R env f w
    = (res, waited R (EvDispatch repo f ref
                        (github_dispatch R (clock w) repo f ref)) w)
    /\ (reply_ok (github_dispatch R (clock w) repo f ref) = true -> res = Ret tt)
    /\ (reply_ok (github_dispatch R (clock w) repo f ref) = false ->
        exists e, res = Throw e).
Proof.
  intros Hgh repo ref. unfold Poller.dispatchWorkflow.
  rewrite (github_is_configured env Hgh).
  unfold fetch_dispatch, await_fetch, bind. fold repo. fold ref.
  destruct (github_dispatch R (clock w) repo f ref) as [|st b]; cbn.
  - eexists. split; [reflexivity |]. split; [discriminate | eauto].
  - destruct (JS.status_ok st); cbn; eexists;
      (split; [reflexivity |]); split; try discriminate; eauto.
Qed.

Lemma webhook_dispatch_run R env f w :
  github_configured env = true ->
  let repo := default "" (GITHUB_REPOSITORY env) in
  let ref := default "main" (GITHUB_REF_NAME env) in
  exists res,
    Webhook.dispatchWorkflow R env f w
    = (res, waited R (EvDispatch repo f ref
                        (github_dispatch R (clock w) repo f ref)) w)
    /\ (reply_ok (github_dispatch R (clock w) repo f ref) = true -> res = Ret tt)
    /\ (reply_ok (github_dispatch R (clock w) repo f ref) = false ->
        exists e, res = Throw e).
Proof.
  intros Hgh repo ref. unfold Webhook.dispatchWorkflow, Webhook.githubContext.
  rewrite (github_is_configured env Hgh).
  unfold fetch_dispatch, await_fetch, bind, ret. cbn [Webhook.repo Webhook.ref].
  fold repo. fold ref.
  destruct (github_dispatch R (clock w) repo f ref) as [|st b]; cbn.
  - eexists. split; [reflexivity |]. split; [discriminate | eauto].
  - destruct (JS.status_ok st); cbn; eexists;
      (split; [reflexivity |]); split; try discriminate; eauto.
Qed.

Lemma poller_send_run R token chat body_text w :
  exists res,
    Poller.sendMessage R token chat body_text w
    = (res, waited R (EvSendMessage chat body_text
                        (telegram_sendMessage R (clock w) chat body_text)) w)
    /\ (got_a_reply (telegram_sendMessage R (clock w) chat body_text) = true ->
        res = Ret tt)
    /\ (got_a_reply (telegram_sendMessage R (clock w) chat body_text) = false ->
        res = Throw fetch_failed).
Proof.
  unfold Poller.sendMessage, fetch_sendMessage, await_fetch, bind.
  destruct (telegram_sendMessage R (clock w) chat body_text) as [|st b]; cbn;
    eexists; (split; [reflexivity |]); split; try discriminate; reflexivity.
Qed.

Lemma webhook_send_run R env body_text w :
  default "" (TELEGRAM_TOKEN env) <> "" ->
  default "" (TELEGRAM_CHAT_ID env) <> "" ->
  let chat := default "" (TELEGRAM_CHAT_ID env) in
  exists res,
    Webhook.sendTelegramMessage R env body_text w
    = (res, waited R (EvSendMessage chat body_text
                        (telegram_sendMessage R (clock w) chat body_text)) w)
    /\ (reply_ok (telegram_sendMessage R (clock w) chat body_text) = true ->
        res = Ret tt)
    /\ (reply_ok (telegram_sendMessage R (clock w) chat body_text) = false ->
        exists e, res = Throw e).
Proof.
  intros Htok Hchat chat.
  destruct (sendTelegramMessage_run R env body_text w Htok Hchat)
    as (res & Hrun & Hnu & Hret).
  exists res. split; [exact Hrun |]. split; [apply Hret |].
  intros Hko. destruct res as [[]|e|]; [| eauto | contradiction].
  pose proof (proj1 Hret eq_refl) as Hok. fold chat in Hok.
  rewrite Hko in Hok. discriminate Hok.
Qed.

(** C6. The "/trigger" command of an update from the operator, in the
    poller and in the webhook server, over any job list.

    Whatever happens, the jobs triggered are an initial part of the list,
    in list order, nothing is triggered after a trigger that failed (for
    [A; B; C] with [B] failing: [A], then [B], and never [C]), a failed
    trigger is followed by exactly one failure notification and no
    success notification, and when all jobs have been triggered
    successfully exactly one success notification is sent, after the last
    trigger.

    And the triggers are made: with GitHub credentials configured, once
    the starting notification has been sent, the command issues the
    trigger requests one after the other in list order, every job up to
    and including the first whose request is not answered with a
    success; after them it sends the success notification when all went
    through, and otherwise logs the error and sends the one failure
    notification. *)
Theorem trigger_fan_out
    (R : Remote) (env : Env) (toUTCString : string -> string)
    (schedule : list nat) (jobs : list string)
    (workflows : list Webhook.Workflow)
    (token chatId : string) (update : TelegramUpdate) (w : World) :
  from_operator chatId update ->
  command_of update = JS.lit "/trigger" ->
  let repo := default "" (GITHUB_REPOSITORY env) in
  let ref := default "main" (GITHUB_REF_NAME env) in
  ((exists evs,
      trace (snd (Poller.on_update R env jobs token chatId update w))
      = trace w ++ evs
      /\ stops_at_first_failure jobs evs
      /\ one_failure_notice evs
      /\ success_notice_follows jobs evs)
   /\ (github_configured env = true ->
       got_a_reply (telegram_sendMessage R (clock w) chatId start_text) = true ->
       exists r0 tail,
         trace (snd (Poller.on_update R env jobs token chatId update w))
         = trace w ++ EvSendMessage chatId start_text r0
                      :: trigger_requests R repo ref jobs (S (clock w)) ++ tail
         /\ fan_out_outcome got_a_reply chatId jobs
              (trigger_requests R repo ref jobs (S (clock w))) tail))
  /\ (default "" (TELEGRAM_CHAT_ID env) = chatId ->
      (exists evs,
         trace (snd (Webhook.handleMessage_with R env toUTCString workflows
                       schedule (Some update) w))
         = trace w ++ evs
         /\ stops_at_first_failure (map Webhook.file workflows) evs
         /\ one_failure_notice evs
         /\ success_notice_follows (map Webhook.file workflows) evs)
      /\ (github_configured env = true ->
          default "" (TELEGRAM_TOKEN env) <> "" ->
          reply_ok (telegram_sendMessage R (clock w) chatId start_text) = true ->
          exists r0 tail,
            trace (snd (Webhook.handleMessage_with R env toUTCString workflows
                          schedule (Some update) w))
            = trace w ++ EvSendMessage chatId start_text r0
                         :: trigger_requests R repo ref
                              (map Webhook.file workflows) (S (clock w))
                         ++ tail
            /\ fan_out_outcome reply_ok chatId (map Webhook.file workflows)
                 (trigger_requests R repo ref (map Webhook.file workflows)
                    (S (clock w))) tail)).
Proof.
  intros Hop Hcmd repo ref. split; [split |].
  - rewrite (poller_route R env jobs token chatId update Hop).
    cbv zeta. rewrite Hcmd.
    repeat case_decide; try discriminate; try contradiction.
    destruct (trigger_command_shape
                (Poller.sendMessage R token chatId)
                (for_of (Poller.dispatchWorkflow R env) jobs) jobs chatId
                (poller_sendMessage_sends R token chatId)
                (eq_rect _ (fun js => adds _ (trigger_loop js))
                   (for_of_trigger_loop (Poller.dispatchWorkflow R env) id jobs
                      (poller_dispatch_step R env))
                   _ (map_id jobs)) w)
      as (evs & Ht & _ & Hshape).
    exists evs. split; [exact Ht |]. apply trigger_shape_properties, Hshape.
  - intros Hgh Hstart.
    rewrite (poller_route R env jobs token chatId update Hop).
    cbv zeta. rewrite Hcmd.
    repeat case_decide; try discriminate; try contradiction.
    destruct (trigger_command_run R repo ref string
                (Poller.dispatchWorkflow R env) id
                (fun f w0 => poller_dispatch_run R env f w0 Hgh)
                chatId got_a_reply (Poller.sendMessage R token chatId)
                (fun x w0 =>
                   match poller_send_run R token chatId x w0 with
                   | ex_intro _ res (conj Hrun (conj Hok Hko)) =>
                       ex_intro _ res
                         (conj Hrun
                            (conj Hok (fun H => ex_intro _ fetch_failed (Hko H))))
                   end)
                jobs w Hstart) as (r0 & tail & Ht & Hout).
    rewrite map_id in Ht, Hout. exists r0, tail. split; assumption.
  - intros Hchat. subst chatId. split.
    + destruct (decide (default "" (TELEGRAM_CHAT_ID env) = "")) as [Hempty|Hset].
      { (* no operator configured: every update is dropped *)
        exists []. rewrite app_nil_r.
        split; [| apply nothing_added_properties].
        destruct Hop as (msg & Hmsg & _).
        unfold Webhook.handleMessage_with. rewrite Hmsg, Hempty. reflexivity. }
      rewrite (webhook_route R env toUTCString workflows schedule update Hset Hop).
      cbv zeta. rewrite Hcmd.
      repeat case_decide; try discriminate; try contradiction.
      destruct (decide (default "" (TELEGRAM_TOKEN env) = "")) as [Hnotok|Htok].
      { (* no token: the starting notification throws before any request *)
        exists []. rewrite app_nil_r.
        split; [| apply nothing_added_properties].
        unfold bind, Webhook.sendTelegramMessage. rewrite Hnotok. reflexivity. }
      destruct (trigger_command_shape
                  (Webhook.sendTelegramMessage R env)
                  (for_of (fun workflow =>
                             Webhook.dispatchWorkflow R env (Webhook.file workflow))
                          workflows)
                  (map Webhook.file workflows)
                  (default "" (TELEGRAM_CHAT_ID env))
                  (fun t => webhook_sendTelegramMessage_sends R env t Htok Hset)
                  (for_of_trigger_loop _ Webhook.file workflows
                     (fun x => webhook_dispatch_step R env (Webhook.file x))) w)
        as (evs & Ht & _ & Hshape).
      exists evs. split; [exact Ht |]. apply trigger_shape_properties, Hshape.
    + intros Hgh Htok Hstart.
      assert (Hset : default "" (TELEGRAM_CHAT_ID env) <> "").
      { destruct Hop as (msg & _ & <-). apply String_of_number_not_empty. }
      rewrite (webhook_route R env toUTCString workflows schedule update Hset Hop).
      cbv zeta. rewrite Hcmd.
      repeat case_decide; try discriminate; try contradiction.
      exact (trigger_command_run R repo ref Webhook.Workflow
               (fun workflow =>
                  Webhook.dispatchWorkflow R env (Webhook.file workflow))
               Webhook.file
               (fun x w0 => webhook_dispatch_run R env (Webhook.file x) w0 Hgh)
               (default "" (TELEGRAM_CHAT_ID env)) reply_ok
               (Webhook.sendTelegramMessage R env)
               (fun x w0 => webhook_send_run R env x w0 Htok Hset)
               workflows w Hstart).
Qed.

Lemma trigger_fan_out_witness :
  let R := Scenario.remote [] Scenario.delivered Scenario.B_fails
             Scenario.no_runs in
  let u := Scenario.update 8 42 "/trigger" in
  let w := initial FileAbsent in
  let requests :=
    trigger_requests R "owner/repo" "main" Scenario.jobs_ABC 1 in
  ((exists evs,
      trace (snd (Poller.on_update R Scenario.env Scenario.jobs_ABC
                    "123:abc" "42" u w)) = trace w ++ evs
      /\ stops_at_first_failure Scenario.jobs_ABC evs
      /\ one_failure_notice evs
      /\ success_notice_follows Scenario.jobs_ABC evs)
   /\ (exists r0 tail,
         trace (snd (Poller.on_update R Scenario.env Scenario.jobs_ABC
                       "123:abc" "42" u w))
         = trace w ++ EvSendMessage "42" start_text r0 :: requests ++ tail
         /\ fan_out_outcome got_a_reply "42" Scenario.jobs_ABC requests tail))
  /\ ((exists evs,
         trace (snd (Webhook.handleMessage_with R Scenario.env Scenario.utc
                       Scenario.workflows_ABC [] (Some u) w)) = trace w ++ evs
         /\ stops_at_first_failure Scenario.jobs_ABC evs
         /\ one_failure_notice evs
         /\ success_notice_follows Scenario.jobs_ABC evs)
      /\ (exists r0 tail,
            trace (snd (Webhook.handleMessage_with R Scenario.env Scenario.utc
                          Scenario.workflows_ABC [] (Some u) w))
            = trace w ++ EvSendMessage "42" start_text r0 :: requests ++ tail
            /\ fan_out_outcome reply_ok "42" Scenario.jobs_ABC requests tail)).
Proof.
  intros R u w requests.
  assert (Hop : from_operator "42" u).
  { exists {| chat_id := 42; text := Some (JS.lit "/trigger") |}.
    split; reflexivity. }
  destruct (trigger_fan_out R Scenario.env Scenario.utc [] Scenario.jobs_ABC
              Scenario.workflows_ABC "123:abc" "42" u w Hop eq_refl)
    as [[Hp Hrun] Hw].
  destruct (Hw eq_refl) as [Hw1 Hw2].
  split; [split; [exact Hp | exact (Hrun eq_refl eq_refl)] |].
  split; [exact Hw1 |].
  apply Hw2; [reflexivity | discriminate | reflexivity].
Defined.

(** The trigger requests of that run: [A] is accepted, [B] is refused,
    and no request is made for [C]. *)
Example trigger_requests_A_B_C_with_B_failing :
  let R := Scenario.remote [] Scenario.delivered Scenario.B_fails
             Scenario.no_runs in
  trigger_requests R "owner/repo" "main" Scenario.jobs_ABC 1
  = [ EvDispatch "owner/repo" "A.yml" "main" (HttpResponse 204 "");
      EvDispatch "owner/repo" "B.yml" "main"
        (HttpResponse 422 "no such workflow") ].
Proof. reflexivity. Qed.

(** ** What a failed send does to the poll cycle (C9) *)

Lemma forallb_of_Forall (evs : list Event) :
  Forall (fun ev => carries_on ev = true) evs -> forallb carries_on evs = true.
Proof.
  induction 1 as [|ev evs Hev _ IH]; [reflexivity |].
  simpl. rewrite Hev, IH. reflexivity.
Qed.

Lemma stops_bind {A B} (m : M A) (k : A -> M B) :
  adds m stops_only_at_a_send ->
  (forall a, adds (k a) stops_only_at_a_send) ->
  adds (bind m k) stops_only_at_a_send.
Proof.
  intros Hm Hk.
  apply (adds_bind m k stops_only_at_a_send (fun _ => stops_only_at_a_send));
    [exact Hm | exact Hk | | |].
  - intros a evs1 r evs2 [[_ H1] | [H1 _]] H2; [| discriminate H1].
    destruct H2 as [[Hr H2] | (Hr & before & chat & x & -> & Hx & H2)].
    + left. split; [exact Hr |]. rewrite forallb_app, H1, H2. reflexivity.
    + right. split; [exact Hr |]. exists (evs1 ++ before), chat, x.
      split; [apply app_assoc |]. split; [exact Hx |].
      rewrite forallb_app, H1, H2. reflexivity.
  - intros e evs [[(a & Ha) _] | (He & H)]; [discriminate Ha |].
    right. injection He as ->. split; [reflexivity | exact H].
  - intros evs [[(a & Ha) _] | (He & _)]; [discriminate Ha | discriminate He].
Qed.

Lemma stops_try_catch {A} (body : M A) (handler : JS.exn -> M A) :
  adds body (only (fun ev => carries_on ev = true)) ->
  (forall e, adds (handler e) stops_only_at_a_send) ->
  adds (try_catch body handler) stops_only_at_a_send.
Proof.
  intros Hbody Hhandler.
  apply (adds_try_catch body handler (only (fun ev => carries_on ev = true))
           (fun _ => stops_only_at_a_send));
    [exact Hbody | exact Hhandler | | |].
  - intros e evs1 r evs2 [_ H1] H2. apply forallb_of_Forall in H1.
    destruct H2 as [[Hr H2] | (Hr & before & chat & x & -> & Hx & H2)].
    + left. split; [exact Hr |]. rewrite forallb_app, H1, H2. reflexivity.
    + right. split; [exact Hr |]. exists (evs1 ++ before), chat, x.
      split; [apply app_assoc |]. split; [exact Hx |].
      rewrite forallb_app, H1, H2. reflexivity.
  - intros a evs [_ H]. left. split; [eauto | apply forallb_of_Forall, H].
  - intros evs [H _]. contradiction.
Qed.

Section PollerStops.
Variable R : Remote.
Variable env : Env.
Variable jobs : list string.
Variables token chatId : string.

Lemma poller_send_stops body_text :
  body_text <> success_text ->
  adds (Poller.sendMessage R token chatId body_text) stops_only_at_a_send.
Proof.
  intros Hx w.
  destruct (poller_send_run R token chatId body_text w)
    as (res & Hrun & Hok & Hko).
  rewrite Hrun.
  exists [EvSendMessage chatId body_text
            (telegram_sendMessage R (clock w) chatId body_text)].
  split; [reflexivity |]. split; [auto |]. cbn [fst].
  destruct (telegram_sendMessage R (clock w) chatId body_text) as [|st b].
  - right. split; [apply Hko; reflexivity |].
    exists [], chatId, body_text. auto.
  - left. split; [rewrite (Hok eq_refl); eauto | reflexivity].
Qed.

Lemma poller_try_block_carries_on :
  adds (for_of (Poller.dispatchWorkflow R env) jobs ;;
        Poller.sendMessage R token chatId success_text)
       (only (fun ev => carries_on ev = true)).
Proof.
  apply adds_only_bind.
  - apply adds_only_for_of. intros file. apply poller_dispatch_only.
    right. reflexivity.
  - intros _. unfold Poller.sendMessage. apply adds_only_bind.
    + apply adds_only_await. intros [|st b]; reflexivity.
    + intros [|st b]; [apply adds_only_throw | apply adds_only_ret].
Qed.

Lemma on_update_stops update :
  adds (Poller.on_update R env jobs token chatId update) stops_only_at_a_send.
Proof.
  unfold Poller.on_update.
  destruct (message update) as [msg|];
    [| apply adds_ret; left; split; [eauto | reflexivity]].
  destruct (decide _); [apply adds_ret; left; split; [eauto | reflexivity] |].
  destruct (decide _); [apply poller_send_stops; discriminate |].
  destruct (decide _); [| apply adds_ret; left; split; [eauto | reflexivity]].
  apply stops_bind; [apply poller_send_stops; discriminate |]. intros _.
  apply stops_try_catch; [apply poller_try_block_carries_on |].
  intros err. apply stops_bind; [| intros _; apply poller_send_stops; discriminate].
  apply adds_emit. left. split; [eauto | reflexivity].
Qed.

Lemma process_updates_stops updates n :
  adds (Poller.process_updates R env jobs token chatId updates n)
       stops_only_at_a_send.
Proof.
  revert n. induction updates as [|u us IH]; intros n; simpl.
  - apply adds_ret. left. split; [eauto | reflexivity].
  - apply stops_bind; [apply on_update_stops | intros _; apply IH].
Qed.
End PollerStops.

(** The webhook's command handler, with the messaging credentials
    configured: it is cut short by a failed send and by nothing else. *)
Lemma failed_send_bind {A B} (m : M A) (k : A -> M B) :
  adds m returns_or_stops_at_failed_send ->
  (forall a, adds (k a) returns_or_stops_at_failed_send) ->
  adds (bind m k) returns_or_stops_at_failed_send.
Proof.
  intros Hm Hk.
  apply (adds_bind m k returns_or_stops_at_failed_send
           (fun _ => returns_or_stops_at_failed_send));
    [exact Hm | exact Hk | | |].
  - intros a evs1 r evs2 _ [Hr | (e & before & chat & x & reply & Hr & -> & Hko)].
    + left. exact Hr.
    + right. exists e, (evs1 ++ before), chat, x, reply.
      split; [exact Hr |]. split; [apply app_assoc | exact Hko].
  - intros e evs [(a & Ha) | (e' & before & chat & x & reply & He & Hev & Hko)];
      [discriminate Ha |].
    right. injection He as <-. exists e, before, chat, x, reply. auto.
  - intros evs [(a & Ha) | (e' & before & chat & x & reply & He & _)];
      [discriminate Ha | discriminate He].
Qed.

Lemma failed_send_try_catch {A} (body : M A) (handler : JS.exn -> M A) :
  adds body (only is_command_effect) ->
  (forall e, adds (handler e) returns_or_stops_at_failed_send) ->
  adds (try_catch body handler) returns_or_stops_at_failed_send.
Proof.
  intros Hbody Hhandler.
  apply (adds_try_catch body handler (only is_command_effect)
           (fun _ => returns_or_stops_at_failed_send));
    [exact Hbody | exact Hhandler | | |].
  - intros e evs1 r evs2 _ [Hr | (e' & before & chat & x & reply & Hr & -> & Hko)].
    + left. exact Hr.
    + right. exists e', (evs1 ++ before), chat, x, reply.
      split; [exact Hr |]. split; [apply app_assoc | exact Hko].
  - intros a evs _. left. eauto.
  - intros evs [H _]. contradiction.
Qed.

Section WebhookStops.
Variable R : Remote.
Variable env : Env.
Variable toUTCString : string -> string.
Variable workflows : list Webhook.Workflow.
Variable schedule : list nat.
Hypothesis token_set : default "" (TELEGRAM_TOKEN env) <> "".
Hypothesis chat_set : default "" (TELEGRAM_CHAT_ID env) <> "".

Lemma webhook_send_stops body_text :
  adds (Webhook.sendTelegramMessage R env body_text)
       returns_or_stops_at_failed_send.
Proof.
  intros w.
  destruct (webhook_send_run R env body_text w token_set chat_set)
    as (res & Hrun & Hok & Hko).
  rewrite Hrun. eexists. split; [reflexivity |]. split; [auto |]. cbn [fst].
  destruct (reply_ok (telegram_sendMessage R (clock w)
                        (default "" (TELEGRAM_CHAT_ID env)) body_text)) eqn:Hr.
  - left. rewrite (Hok eq_refl). eauto.
  - right. destruct (Hko eq_refl) as (e & ->).
    exists e, []. do 3 eexists. split; [reflexivity |].
    split; [reflexivity | exact Hr].
Qed.

Lemma handleMessage_stops update :
  adds (Webhook.handleMessage_with R env toUTCString workflows schedule
          (Some update))
       returns_or_stops_at_failed_send.
Proof.
  unfold Webhook.handleMessage_with.
  destruct (message update) as [msg|]; [| apply adds_ret; left; eauto].
  destruct (negb _); [apply adds_ret; left; eauto |].
  destruct (decide _); [apply adds_ret; left; eauto |].
  destruct (decide _); [apply webhook_send_stops |].
  destruct (decide _).
  { apply failed_send_bind; [apply webhook_send_stops |]. intros _.
    apply failed_send_try_catch.
    - apply adds_only_bind; [| intros _; apply sendTelegramMessage_only].
      apply adds_only_for_of. intros x. apply dispatchWorkflow_only.
    - intros err.
      apply failed_send_bind; [| intros _; apply webhook_send_stops].
      apply adds_emit. left. eauto. }
  destruct (decide _); [| apply adds_ret; left; eauto].
  apply failed_send_try_catch.
  - apply adds_only_bind.
    + apply adds_only_start_all. intros x.
      apply adds_only_bind; [| intros run; apply adds_only_ret].
      apply getLatestWorkflowRun_only. intros; exact I.
    + intros ps. apply adds_only_bind; [apply adds_only_Promise_all |].
      intros sts. apply sendTelegramMessage_only.
  - intros err.
    apply failed_send_bind; [| intros _; apply webhook_send_stops].
    apply adds_emit. left. eauto.
Qed.
End WebhookStops.

(** C9, as the code has it. A failed notifier send never crashes its
    caller, but it can cut short the work in progress.

    The webhook's request listener always returns normally, and every
    failed send (network error or non-success response) is followed by an
    error written to the console. The poller's program ([main] under the
    top-level [catch] of line 114, whatever [main] does) never ends in an
    exception, and every send that ends in a network error is followed by
    an error written to the console.

    In a poll cycle over a fetched, non-empty batch the program returns
    normally, and the cycle either runs to its end and writes the store,
    or is cut short by a send that met a network error: that send is then
    the last thing [main] does, the only effect after it is the error
    logged by the top-level [catch], and neither the remaining updates
    are handled nor the store is written. Nothing else cuts the cycle
    short: not a send answered with a non-success status (the response is
    not inspected), and not a network error of the success notification
    of "/trigger" (the command's own [catch] handles it).

    In the webhook server, with the messaging credentials configured, an
    accepted update is acknowledged first; its command then either
    returns or is cut short by a failed send, which is then the last
    thing the handler does, and the only effect after it is the error
    logged by the listener's [catch]. *)
Theorem failed_sends_do_not_crash_the_caller
    (R : Remote) (env : Env) (toUTCString : string -> string)
    (workflows : list Webhook.Workflow) (schedule : list nat) :
  (forall req w,
     fst (Webhook.listener_with R env toUTCString workflows schedule req w)
     = Ret tt
     /\ exists evs,
          trace (snd (Webhook.listener_with R env toUTCString workflows
                        schedule req w)) = trace w ++ evs
          /\ failures_logged transport_failed evs = true)
  /\ (forall w,
        (forall e, fst (Poller.run R env w) <> Throw e)
        /\ exists evs,
             trace (snd (Poller.run R env w)) = trace w ++ evs
             /\ failures_logged network_failed evs = true)
  /\ (forall w p st B,
        default "" (TELEGRAM_TOKEN env) <> "" ->
        default "" (TELEGRAM_CHAT_ID env) <> "" ->
        offset_on_disk (disk w) = Some p ->
        telegram_getUpdates R (clock w) (p + 1) = UpdatesHttp st (Some (true, B)) ->
        JS.status_ok st = true ->
        B <> [] ->
        fst (Poller.run R env w) = Ret tt
        /\ exists handled ending,
             trace (snd (Poller.run R env w))
             = trace w ++ EvGetUpdates (p + 1) (UpdatesHttp st (Some (true, B)))
                          :: handled ++ ending
             /\ forallb carries_on handled = true
             /\ ((fst (Poller.main R env w) = Ret tt
                  /\ exists m, ending = [EvWriteFile m])
                 \/ (fst (Poller.main R env w) = Throw fetch_failed
                     /\ exists chat body_text,
                          body_text <> success_text
                          /\ ending = [EvSendMessage chat body_text NetworkError;
                                       EvConsole (LogError fetch_failed)])))
  /\ (forall req update w,
        telegram_configured env = true ->
        is_webhook_post env req = true ->
        secret_accepted env req = true ->
        Webhook.body req = Webhook.BodyJson update ->
        headersSent w = false ->
        let handler :=
          Webhook.handleMessage_with R env toUTCString workflows schedule
            (Some update) (acknowledged w) in
        exists handled ending,
          trace (snd (Webhook.listener_with R env toUTCString workflows
                        schedule req w))
          = trace w ++ EvRespond 200 PayloadOk :: handled ++ ending
          /\ ((fst handler = Ret tt /\ ending = [])
              \/ (exists e chat body_text reply,
                    fst handler = Throw e
                    /\ reply_ok reply = false
                    /\ ending = [EvSendMessage chat body_text reply;
                                 EvConsole (LogError e)]))).
Proof.
  split; [| split; [| split]].
  - intros req w.
    pose proof (listener_returns R env toUTCString workflows schedule req w)
      as Hret.
    split; [exact Hret |].
    destruct (listener_accounted R env toUTCString workflows schedule req w)
      as (evs & Ht & _ & [(e & He) | Hlog]).
    + rewrite Hret in He. discriminate He.
    + exists evs. split; assumption.
  - intros w. unfold Poller.run, Poller.main. split.
    + intros e. unfold try_catch.
      destruct (Poller.main_with R env Poller.MONITOR_WORKFLOWS w)
        as [[[]|e'|] w1]; simpl; discriminate.
    + destruct (run_accounted R env Poller.MONITOR_WORKFLOWS w)
        as (evs & Ht & _ & Hacc).
      exists evs. split; [exact Ht |].
      destruct Hacc as [(e & He) | Hlog]; [| exact Hlog].
      exfalso. revert He. unfold try_catch.
      destruct (Poller.main_with R env Poller.MONITOR_WORKFLOWS w)
        as [[[]|e'|] w1]; simpl; discriminate.
  - intros w p st B Htok Hchat Hp Hr Hok HB.
    unfold Poller.run, Poller.main, try_catch.
    rewrite (main_cycle R env Poller.MONITOR_WORKFLOWS Htok Hchat w p st B
               Hp Hr Hok HB).
    set (w1 := waited R (EvGetUpdates (p + 1) (UpdatesHttp st (Some (true, B)))) w).
    destruct (process_updates_stops R env Poller.MONITOR_WORKFLOWS
                (default "" (TELEGRAM_TOKEN env))
                (default "" (TELEGRAM_CHAT_ID env)) B p w1)
      as (evs & Ht & _ & Hstops).
    destruct (Poller.process_updates _ _ _ _ _ _ _ _) as [r w2].
    cbn [fst snd] in Ht, Hstops.
    assert (Ht' : trace w2
                  = trace w ++ EvGetUpdates (p + 1) (UpdatesHttp st (Some (true, B)))
                               :: evs).
    { rewrite Ht. unfold w1. simpl. rewrite <- app_assoc. reflexivity. }
    destruct Hstops as [[(n & ->) Hall]
                       | (-> & before & chat & x & -> & Hx & Hall)].
    + cbn. split; [reflexivity |].
      exists evs. eexists. split; [| split; [exact Hall |]].
      * rewrite Ht', <- app_assoc. reflexivity.
      * left. split; [reflexivity | eauto].
    + cbn. split; [reflexivity |].
      exists before. eexists. split; [| split; [exact Hall |]].
      * rewrite Ht', <- !app_assoc. cbn. rewrite <- !app_assoc. reflexivity.
      * right. split; [reflexivity |]. exists chat, x. split; [exact Hx |].
        reflexivity.
  - intros req update w Htg Hpost Hsecret Hbody Hh handler.
    destruct (telegram_is_configured env Htg) as [Htok Hset].
    assert (Hhealth : is_health_check req = false).
    { unfold is_webhook_post in Hpost. apply andb_true_iff in Hpost as [Hm _].
      apply bool_decide_eq_true in Hm. unfold is_health_check. rewrite Hm.
      reflexivity. }
    rewrite (listener_after_checks R env toUTCString workflows schedule req w
               Hhealth Hpost Hsecret Hh).
    rewrite Hbody. cbn [payload_of]. fold handler.
    destruct (handleMessage_stops R env toUTCString workflows schedule
                Htok Hset update (acknowledged w))
      as (evs & Ht & _ & Hstops).
    fold handler in Ht, Hstops.
    destruct handler as [r w2]. cbn [fst snd] in *.
    assert (Ht' : trace w2 = trace w ++ EvRespond 200 PayloadOk :: evs).
    { rewrite Ht. simpl. rewrite <- app_assoc. reflexivity. }
    destruct Hstops as [([] & ->)
                       | (e & before & chat & x & reply & -> & -> & Hko)].
    + exists evs, []. cbn. rewrite app_nil_r. split; [exact Ht' |].
      left. split; reflexivity.
    + exists before. eexists. split.
      * cbn. rewrite Ht', <- !app_assoc. cbn. rewrite <- !app_assoc.
        reflexivity.
      * right. exists e, chat, x, reply. auto.
Qed.

Lemma failed_sends_do_not_crash_the_caller_witness :
  (* two "/test" updates, and a messaging API that cannot be reached *)
  let B := [Scenario.update 6 42 "/test"; Scenario.update 7 42 "/test"] in
  let R := Scenario.remote B Scenario.unreachable Scenario.accepted
             Scenario.no_runs in
  let req := Scenario.post (Webhook.BodyJson (Scenario.update 6 42 "/test"))
               None in
  let w := initial Scenario.store_5 in
  let handler :=
    Webhook.handleMessage_with R Scenario.env Scenario.utc
      Webhook.MONITOR_WORKFLOWS [] (Some (Scenario.update 6 42 "/test"))
      (acknowledged (initial FileAbsent)) in
  fst (Webhook.listener R Scenario.env Scenario.utc [] req (initial FileAbsent))
  = Ret tt
  /\ (forall e, fst (Poller.run R Scenario.env w) <> Throw e)
  /\ (fst (Poller.run R Scenario.env w) = Ret tt
      /\ exists handled ending,
           trace (snd (Poller.run R Scenario.env w))
           = trace w ++ EvGetUpdates (5 + 1) (UpdatesHttp 200 (Some (true, B)))
                        :: handled ++ ending
           /\ forallb carries_on handled = true
           /\ ((fst (Poller.main R Scenario.env w) = Ret tt
                /\ exists m, ending = [EvWriteFile m])
               \/ (fst (Poller.main R Scenario.env w) = Throw fetch_failed
                   /\ exists chat body_text,
                        body_text <> success_text
                        /\ ending = [EvSendMessage chat body_text NetworkError;
                                     EvConsole (LogError fetch_failed)])))
  /\ exists handled ending,
       trace (snd (Webhook.listener R Scenario.env Scenario.utc [] req
                     (initial FileAbsent)))
       = trace (initial FileAbsent)
         ++ EvRespond 200 PayloadOk :: handled ++ ending
       /\ ((fst handler = Ret tt /\ ending = [])
           \/ (exists e chat body_text reply,
                 fst handler = Throw e
                 /\ reply_ok reply = false
                 /\ ending = [EvSendMessage chat body_text reply;
                              EvConsole (LogError e)])).
Proof.
  intros B R req w handler.
  destruct (failed_sends_do_not_crash_the_caller R Scenario.env Scenario.utc
              Webhook.MONITOR_WORKFLOWS []) as (Hw & Hp & Hc & Hh).
  split; [apply Hw |]. split; [apply Hp |]. split.
  - refine (Hc w 5 200 B _ _ eq_refl eq_refl eq_refl _); discriminate.
  - exact (Hh req (Scenario.update 6 42 "/test") (initial FileAbsent)
             eq_refl eq_refl eq_refl eq_refl eq_refl).
Defined.

(** ** Where the specification and the code part on failed sends *)

(** Against C9. First, in the poller, a "/test" whose reply the messaging
    API refuses with status 500: the poller does not look at the
    response, so the send failed and yet nothing at all is written to the
    console. Then two "/test" updates while the messaging API cannot be
    reached: the first send raises, the error is logged, and that is the
    end of the cycle; the second update is never handled and the offset
    is not written, so the store still holds 5 although updates 6 and 7
    were fetched. Last, in the webhook server, a "/trigger" whose
    starting notification is refused: the update is acknowledged, the
    error is logged, and no job is triggered. *)
Lemma send_failure_unlogged_or_work_cut_short :
  let alive := "✅ Bot is alive and running." in
  let refused :=
    let B := [Scenario.update 6 42 "/test"] in
    let R := Scenario.remote B Scenario.refused Scenario.accepted
               Scenario.no_runs in
    trace (snd (Poller.run R Scenario.env (initial Scenario.store_5))) in
  let B := [Scenario.update 6 42 "/test"; Scenario.update 7 42 "/test"] in
  let R := Scenario.remote B Scenario.unreachable Scenario.accepted
             Scenario.no_runs in
  let cut_short := snd (Poller.run R Scenario.env (initial Scenario.store_5)) in
  let pushed :=
    let R := Scenario.remote [] Scenario.refused Scenario.accepted
               Scenario.no_runs in
    trace (snd (Webhook.listener R Scenario.env Scenario.utc []
                  (Scenario.post
                     (Webhook.BodyJson (Scenario.update 8 42 "/trigger")) None)
                  (initial FileAbsent))) in
  (List.filter (failed_send transport_failed) refused
   = [EvSendMessage "42" alive (HttpResponse 500 "Internal Server Error")]
   /\ existsb is_console refused = false
   /\ failures_logged transport_failed refused = false)
  /\ (trace cut_short
      = [ EvGetUpdates 6 (UpdatesHttp 200 (Some (true, B)));
          EvSendMessage "42" alive NetworkError;
          EvConsole (LogError fetch_failed) ]
      /\ count_text alive (trace cut_short) = 1%nat
      /\ existsb is_file_write (trace cut_short) = false
      /\ offset_on_disk (disk cut_short) = Some 5
      /\ highest 5 B = 7)
  /\ (pushed
      = [ EvRespond 200 PayloadOk;
          EvSendMessage "42" start_text
            (HttpResponse 500 "Internal Server Error");
          EvConsole (LogError
            (JS.Error
               "Telegram sendMessage failed: 500 Internal Server Error")) ]
      /\ triggers pushed = []).
Proof. vm_compute. repeat split. Qed.

(** ** The command vocabulary of the two programs, and what "/status" does (C1) *)

Lemma replies_good_or_bad (replies : list RunsReply) :
  (exists runs,
     Forall2 (fun reply run => run_of_reply reply = Some run) replies runs)
  \/ Exists (fun reply => run_of_reply reply = None) replies.
Proof.
  induction replies as [|reply replies IH].
  - left. exists []. constructor.
  - destruct (run_of_reply reply) as [run|] eqn:Hr.
    + destruct IH as [(runs & H) | H].
      * left. exists (run :: runs). constructor; assumption.
      * right. right. exact H.
    + right. left. exact Hr.
Qed.

Lemma status_report_lines toUTCString (workflows : list Webhook.Workflow) runs :
  JS.join JS.newline
    ("📊 Monitor status"
     :: map (Webhook.status_line toUTCString)
          (zip_with (fun workflow run => (Webhook.label workflow, run))
             workflows runs))
  = status_report toUTCString workflows runs.
Proof.
  unfold status_report. do 2 f_equal.
  revert runs. induction workflows as [|x xs IH]; intros [|r rs];
    simpl; try reflexivity. f_equal. apply IH.
Qed.

Lemma start_all_unconfigured R env (workflows : list Webhook.Workflow) w :
  github_configured env = false ->
  Webhook.start_all
    (fun workflow =>
       run <- Webhook.getLatestWorkflowRun R env (Webhook.file workflow) ;;
       ret (Webhook.label workflow, run)) workflows w
  = (Ret (map (fun _ =>
                 Throw (JS.Error
                   "GitHub credentials not configured (GITHUB_TOKEN/GITHUB_REPOSITORY)"))
              workflows), w).
Proof.
  intros Hno. induction workflows as [|x xs IH]; [reflexivity |].
  cbn [Webhook.start_all map].
  assert (Hfirst :
    Webhook.async_start
      (run <- Webhook.getLatestWorkflowRun R env (Webhook.file x) ;;
       ret (Webhook.label x, run)) w
    = (Ret (Throw (JS.Error
         "GitHub credentials not configured (GITHUB_TOKEN/GITHUB_REPOSITORY)")),
       w)).
  { unfold Webhook.async_start, bind, Webhook.getLatestWorkflowRun,
      Webhook.githubContext.
    rewrite (github_not_configured env Hno). reflexivity. }
  rewrite (bind_run _ _ _ _ _ Hfirst), (bind_run _ _ _ _ _ IH). reflexivity.
Qed.

(** C1, as the code has it. The two programs do not have the same command
    vocabulary. For an update from the operator, the poller acts (adds
    anything to the trace) exactly when the trimmed text is "/test" or
    "/trigger", and the webhook server (with its messaging token
    configured) exactly when it is "/test", "/trigger" or "/status".

    "/status" in the poller has no effect: no status query, no
    notification. In the webhook server, with GitHub credentials
    configured, it starts the status fan-out, one query per job in list
    order, and then notifies: when every query succeeds the notification
    is the formatted report, and when one fails the error is logged and
    the notification is the failure notice. Without GitHub credentials
    (and with a job to query) no query is made: the error is logged and
    the failure notice is sent. *)
Theorem command_vocabulary
    (R : Remote) (env : Env) (toUTCString : string -> string)
    (workflows : list Webhook.Workflow) (schedule : list nat)
    (jobs : list string) (token chatId : string)
    (update : TelegramUpdate) (w : World) :
  from_operator chatId update ->
  (trace (snd (Poller.on_update R env jobs token chatId update w)) <> trace w
   <-> command_of update = JS.lit "/test"
       \/ command_of update = JS.lit "/trigger")
  /\ (command_of update = JS.lit "/status" ->
      Poller.on_update R env jobs token chatId update w = (Ret tt, w))
  /\ (default "" (TELEGRAM_CHAT_ID env) = chatId ->
      default "" (TELEGRAM_TOKEN env) <> "" ->
      (trace (snd (Webhook.handleMessage_with R env toUTCString workflows
                     schedule (Some update) w)) <> trace w
       <-> command_of update = JS.lit "/test"
           \/ command_of update = JS.lit "/trigger"
           \/ command_of update = JS.lit "/status"))
  /\ (default "" (TELEGRAM_CHAT_ID env) = chatId ->
      default "" (TELEGRAM_TOKEN env) <> "" ->
      command_of update = JS.lit "/status" ->
      let repo := default "" (GITHUB_REPOSITORY env) in
      let replies := status_replies R repo workflows (clock w) in
      let pushed :=
        trace (snd (Webhook.handleMessage_with R env toUTCString workflows
                      schedule (Some update) w)) in
      (github_configured env = true ->
       exists rest,
         pushed = trace w ++ status_queries repo workflows replies ++ rest
         /\ ((exists runs sent after,
                Forall2 (fun reply run => run_of_reply reply = Some run)
                        replies runs
                /\ rest = EvSendMessage chatId
                            (status_report toUTCString workflows runs) sent
                          :: after
                /\ (reply_ok sent = true -> after = []))
             \/ (Exists (fun reply => run_of_reply reply = None) replies
                 /\ exists e r,
                      rest = [EvConsole (LogError e);
                              EvSendMessage chatId status_failure_text r])))
      /\ (github_configured env = false ->
          workflows <> [] ->
          exists e r,
            pushed = trace w ++ [EvConsole (LogError e);
                                 EvSendMessage chatId status_failure_text r])).
Proof.
  intros Hop. split; [| split; [| split]].
  - rewrite (poller_route R env jobs token chatId update Hop). cbv zeta.
    destruct (decide (command_of update = JS.lit "/test")) as [Htest|Htest].
    { split; [auto |]. intros _.
      destruct (poller_sendMessage_sends R token chatId
                  "✅ Bot is alive and running." w)
        as (evs & -> & _ & _ & reply & ->).
      apply trace_grows. discriminate. }
    destruct (decide (command_of update = JS.lit "/trigger")) as [Htrig|Htrig].
    { split; [auto |]. intros _.
      destruct (trigger_command_shape
                  (Poller.sendMessage R token chatId)
                  (for_of (Poller.dispatchWorkflow R env) jobs) jobs chatId
                  (poller_sendMessage_sends R token chatId)
                  (eq_rect _ (fun js => adds _ (trigger_loop js))
                     (for_of_trigger_loop (Poller.dispatchWorkflow R env) id
                        jobs (poller_dispatch_step R env))
                     _ (map_id jobs)) w)
        as (evs & Ht & _ & Hshape).
      rewrite Ht.
      apply trace_grows. eapply trigger_shape_not_nil, Hshape. }
    simpl. split; [intros H; contradiction | intros [H|H]; contradiction].
  - intros Hcmd.
    rewrite (poller_route R env jobs token chatId update Hop). cbv zeta.
    rewrite Hcmd. repeat case_decide; try discriminate. reflexivity.
  - intros Hchat Htok. subst chatId.
    assert (Hset : default "" (TELEGRAM_CHAT_ID env) <> "").
    { destruct Hop as (msg & _ & <-). apply String_of_number_not_empty. }
    rewrite (webhook_route R env toUTCString workflows schedule update Hset Hop).
    cbv zeta.
    destruct (decide (command_of update = JS.lit "/test")) as [Htest|Htest].
    { split; [auto |]. intros _.
      destruct (webhook_sendTelegramMessage_sends R env
                  "✅ Bot is alive and running (webhook mode)." Htok Hset w)
        as (evs & -> & _ & _ & reply & ->).
      apply trace_grows. discriminate. }
    destruct (decide (command_of update = JS.lit "/trigger")) as [Htrig|Htrig].
    { split; [auto |]. intros _.
      destruct (trigger_command_shape
                  (Webhook.sendTelegramMessage R env)
                  (for_of (fun workflow =>
                             Webhook.dispatchWorkflow R env (Webhook.file workflow))
                          workflows)
                  (map Webhook.file workflows)
                  (default "" (TELEGRAM_CHAT_ID env))
                  (fun t => webhook_sendTelegramMessage_sends R env t Htok Hset)
                  (for_of_trigger_loop _ Webhook.file workflows
                     (fun x => webhook_dispatch_step R env (Webhook.file x))) w)
        as (evs & Ht & _ & Hshape).
      rewrite Ht.
      apply trace_grows. eapply trigger_shape_not_nil, Hshape. }
    destruct (decide (command_of update = JS.lit "/status")) as [Hstat|Hstat].
    { split; [auto |]. intros _.
      destruct (webhook_status_acts R env toUTCString workflows schedule
                  Htok Hset w) as (evs & -> & _ & Hne).
      apply trace_grows, Hne. }
    simpl. split; [intros H; contradiction |].
    intros [H|[H|H]]; contradiction.
  - intros Hchat Htok Hcmd repo replies pushed. subst chatId pushed.
    assert (Hset : default "" (TELEGRAM_CHAT_ID env) <> "").
    { destruct Hop as (msg & _ & <-). apply String_of_number_not_empty. }
    rewrite (webhook_route R env toUTCString workflows schedule update Hset Hop).
    cbv zeta. rewrite Hcmd.
    repeat case_decide; try discriminate; try contradiction.
    split.
    + intros Hgh.
      pose proof (status_replies_length R workflows repo (clock w)) as Hlen.
      fold replies in Hlen.
      destruct (start_all_run R env Hgh workflows w) as (w1 & Hstart & Ht1 & _).
      fold repo in Hstart, Ht1. fold replies in Hstart, Ht1.
      unfold try_catch. rewrite (bind_run _ _ _ _ _ Hstart).
      destruct (replies_good_or_bad replies) as [(runs & Hgood) | Hbad].
      * destruct (promises_of_good_replies workflows replies runs Hlen Hgood)
          as [Hnone Hful].
        unfold bind at 1. unfold Webhook.Promise_all.
        rewrite first_rejected_none by exact Hnone.
        cbn [ret]. rewrite Hful, status_report_lines.
        destruct (sendTelegramMessage_run R env
                    (status_report toUTCString workflows runs) w1 Htok Hset)
          as (r & Hsend & Hnu & Hret).
        rewrite Hsend.
        set (chatId := default "" (TELEGRAM_CHAT_ID env)) in *.
        set (sent := telegram_sendMessage R (clock w1) chatId
                       (status_report toUTCString workflows runs)) in *.
        destruct r as [[]|e|]; [| | contradiction].
        -- exists [EvSendMessage chatId
                     (status_report toUTCString workflows runs) sent].
           split; [cbn; rewrite Ht1, <- !app_assoc; reflexivity |].
           left. exists runs, sent, []. auto.
        -- destruct (adds_only_bind is_command_effect
                       (console (LogError e))
                       (fun _ => Webhook.sendTelegramMessage R env
                                   "❌ Failed to fetch workflow status.")
                       (adds_only_console _ _ I)
                       (fun _ => sendTelegramMessage_only R env _)
                       (waited R (EvSendMessage chatId
                                    (status_report toUTCString workflows runs)
                                    sent) w1))
             as (after & Ht & _).
           exists (EvSendMessage chatId
                     (status_report toUTCString workflows runs) sent :: after).
           split; [rewrite Ht; cbn; rewrite Ht1, <- !app_assoc; reflexivity |].
           left. exists runs, sent, after.
           split; [exact Hgood |]. split; [reflexivity |].
           intros Hok. apply Hret in Hok. discriminate Hok.
      * destruct (promise_of_bad_reply workflows replies Hlen Hbad)
          as (i & e0 & Hi).
        destruct (Promise_all_rejects schedule _ i e0 w1 Hi) as (e & Hall).
        rewrite (bind_throw _ _ _ _ _ Hall).
        unfold bind, console, emit.
        match goal with
        | |- context [Webhook.sendTelegramMessage R env ?t ?w3] =>
            destruct (sendTelegramMessage_run R env t w3 Htok Hset)
              as (r & Hsend & _ & _); rewrite Hsend
        end.
        eexists. split; [cbn; rewrite Ht1, <- !app_assoc; reflexivity |].
        right. split; [exact Hbad |]. exists e. eexists. reflexivity.
    + intros Hno Hjobs.
      unfold try_catch.
      rewrite (bind_run _ _ _ _ _ (start_all_unconfigured R env workflows w Hno)).
      destruct workflows as [|x xs]; [contradiction |].
      destruct (Promise_all_rejects schedule
                  (map (fun _ : Webhook.Workflow =>
                          @Throw (string * option WorkflowRun)
                            (JS.Error
                               "GitHub credentials not configured (GITHUB_TOKEN/GITHUB_REPOSITORY)"))
                       (x :: xs)) 0%nat _ w eq_refl) as (e & Hall).
      rewrite (bind_throw _ _ _ _ _ Hall).
      unfold bind, console, emit.
      match goal with
      | |- context [Webhook.sendTelegramMessage R env ?t ?w3] =>
          destruct (sendTelegramMessage_run R env t w3 Htok Hset)
            as (r & Hsend & _ & _); rewrite Hsend
      end.
      exists e. eexists. cbn. rewrite <- !app_assoc. reflexivity.
Qed.

Lemma command_vocabulary_witness :
  let R := Scenario.remote [] Scenario.delivered Scenario.accepted
             Scenario.only_B_ran in
  let u := Scenario.update 7 42 "/status" in
  let w := initial FileAbsent in
  let jobs := [Scenario.job_A; Scenario.job_B] in
  let replies := status_replies R "owner/repo" jobs (clock w) in
  let pushed :=
    trace (snd (Webhook.handleMessage_with R Scenario.env Scenario.utc jobs []
                  (Some u) w)) in
  Poller.on_update R Scenario.env Poller.MONITOR_WORKFLOWS "123:abc" "42" u w
  = (Ret tt, w)
  /\ pushed <> trace w
  /\ exists rest,
       pushed = trace w ++ status_queries "owner/repo" jobs replies ++ rest
       /\ ((exists runs sent after,
              Forall2 (fun reply run => run_of_reply reply = Some run)
                      replies runs
              /\ rest = EvSendMessage "42"
                          (status_report Scenario.utc jobs runs) sent
                        :: after
              /\ (reply_ok sent = true -> after = []))
           \/ (Exists (fun reply => run_of_reply reply = None) replies
               /\ exists e r,
                    rest = [EvConsole (LogError e);
                            EvSendMessage "42" status_failure_text r])).
Proof.
  intros R u w jobs replies pushed.
  assert (Hop : from_operator "42" u).
  { exists {| chat_id := 42; text := Some (JS.lit "/status") |}.
    split; reflexivity. }
  destruct (command_vocabulary R Scenario.env Scenario.utc jobs []
              Poller.MONITOR_WORKFLOWS "123:abc" "42" u w Hop)
    as (_ & Hp & Hw & Hs).
  split; [apply Hp; reflexivity |].
  split.
  - apply (Hw eq_refl ltac:(discriminate)). right; right. reflexivity.
  - destruct (Hs eq_refl ltac:(discriminate) eq_refl) as [Hcfg _].
    exact (Hcfg eq_refl).
Defined.
